(** * Skiply front end: booking wizard and authentication context

    A shallow embedding of the two stateful client modules of the
    repository,

    - [src/components/LiveQueueBookingSection.tsx] (the four step booking
      wizard), and
    - [src/contexts/AuthContext.tsx] (the session context), together with
      the older copy of the context that carries the multipart
      [updateProfile],

    and of the request interceptor of [src/api/axios.js], the URL
    constants and the businesses hook,

    followed by the properties the design document states about them.

    Conventions of the embedding.
    - A JavaScript [number] is an IEEE 754 binary64 value, modelled by
      [spec_float] with the operations of [SpecFloat] at precision 53 and
      maximal exponent 1024.  The numbers a program meets are the
      canonical ones ([valid_binary]); no statement below needs that
      restriction, so none carries it.
    - A JavaScript string is a [string]; the only character class the
      code looks at is [\d], the ten ASCII digits.
    - A value of type [any] (a parsed response body, an object literal)
      is a [JsVal]; objects keep their properties in the order the engine
      lists them.  Strings are UTF-8 text.
    - [localStorage] is a finite map from keys to strings.
    - An event handler is a computation over a [World]: the component
      state together with the browser state the handler can touch
      (storage, the requests sent, the notifications raised, the console).
      A handler runs to completion on the state it was rendered with; the
      answers of the network come from the [Host].                       *)

From Stdlib Require Import ZArith List String Ascii Bool Lia SpecFloat DecimalString.
From stdpp Require Import base option gmap strings.
Import ListNotations.

Set Warnings "-register-all".

(* ================================================================== *)
(** * JavaScript numbers                                                *)
(* ================================================================== *)

Module Num.

Definition prec : Z := 53.
Definition emax : Z := 1024.

(** The number denoted by an integer literal. *)
Definition of_Z (z : Z) : spec_float := binary_normalize prec emax z 0 false.
Arguments of_Z : simpl never.

Definition add (x y : spec_float) : spec_float := SFadd prec emax x y.
Definition mul (x y : spec_float) : spec_float := SFmul prec emax x y.
Definition div (x y : spec_float) : spec_float := SFdiv prec emax x y.

(** [x < y]: false when either side is NaN. *)
Definition lt (x y : spec_float) : bool := SFltb x y.

(** [x >= y]: the comparison [x < y] is made; the answer is [false]
    when that comparison is undefined (a NaN) or true. *)
Definition ge (x y : spec_float) : bool :=
  match SFcompare x y with
  | Some Lt | None => false
  | Some _ => true
  end.

Definition is_nan (x : spec_float) : bool :=
  match x with S754_nan => true | _ => false end.

Definition is_finite (x : spec_float) : bool :=
  match x with S754_zero _ | S754_finite _ _ _ => true | _ => false end.

(** ToBoolean on a number: [0], [-0] and NaN are falsy. *)
Definition truthy (x : spec_float) : bool :=
  match x with S754_zero _ | S754_nan => false | _ => true end.

(** [Math.round]: a value that is not finite or already integral is
    returned as it is; otherwise the closest integer, ties towards
    +infinity, and a zero result keeps the sign of the argument. *)
Definition round (x : spec_float) : spec_float :=
  match x with
  | S754_finite s m e =>
      if (0 <=? e)%Z then x
      else
        let k := (- e)%Z in
        let n := ((2 * cond_Zopp s (Zpos m) + 2 ^ k) / 2 ^ (k + 1))%Z in
        match n with
        | Z0 => S754_zero s
        | _ => binary_normalize prec emax n 0 false
        end
  | _ => x
  end.

End Num.

(* ================================================================== *)
(** * JavaScript strings                                                *)
(* ================================================================== *)

Module Str.

(** The class [\d]. *)
Definition is_digit (c : ascii) : bool :=
  let n := nat_of_ascii c in (48 <=? n)%nat && (n <=? 57)%nat.

(** [s.replace(/\D/g, '')]. *)
Fixpoint strip_non_digits (s : string) : string :=
  match s with
  | EmptyString => EmptyString
  | String c s' =>
      if is_digit c then String c (strip_non_digits s') else strip_non_digits s'
  end.

(** A match of [\d{n}$] anchored at the start of [s]. *)
Fixpoint digits_then_end (n : nat) (s : string) : bool :=
  match n, s with
  | O, EmptyString => true
  | S n', String c s' => is_digit c && digits_then_end n' s'
  | _, _ => false
  end.

Fixpoint all_digits (s : string) : bool :=
  match s with
  | EmptyString => true
  | String c s' => is_digit c && all_digits s'
  end.

(** ToBoolean on a string: only the empty string is falsy. *)
Definition truthy (s : string) : bool :=
  match s with EmptyString => false | _ => true end.

(** [a || b] on strings. *)
Definition or_else (a b : string) : string := if truthy a then a else b.

(** Decimal notation of a natural number (an HTTP status, an index). *)
Definition of_N (n : N) : string := NilEmpty.string_of_uint (N.to_uint n).

(** The number a string of decimal digits denotes. *)
Fixpoint decimal_from (acc : N) (s : string) : N :=
  match s with
  | EmptyString => acc
  | String c s' => decimal_from (10 * acc + (N_of_ascii c - 48))%N s'
  end.

(** An array index: the canonical decimal notation of a number below
    [2^32 - 1].  These are the property names an object lists first. *)
Definition array_index (k : string) : option N :=
  let n := decimal_from 0 k in
  if truthy k && all_digits k && String.eqb (of_N n) k && (n <? 4294967295)%N
  then Some n else None.

(** The UTF-8 bytes of a code unit that stands alone (a code point of the
    basic plane, or one half of a surrogate pair). *)
Definition unit_bytes (x : N) : string :=
  String (ascii_of_N (224 + x / 4096))
    (String (ascii_of_N (128 + (x / 64) mod 64))
       (String (ascii_of_N (128 + x mod 64)) EmptyString)).

(** The UTF-16 code units of a string, each as a string of its own: a
    character of one, two or three bytes is one unit, a character of four
    bytes is a pair of surrogates. *)
Fixpoint code_units (s : string) : list string :=
  match s with
  | EmptyString => []
  | String b0 s1 =>
      let n0 := N_of_ascii b0 in
      if (n0 <? 192)%N then String b0 EmptyString :: code_units s1
      else
        match s1 with
        | EmptyString => [String b0 EmptyString]
        | String b1 s2 =>
            if (n0 <? 224)%N
            then String b0 (String b1 EmptyString) :: code_units s2
            else
              match s2 with
              | EmptyString => [String b0 (String b1 EmptyString)]
              | String b2 s3 =>
                  if (n0 <? 240)%N
                  then String b0 (String b1 (String b2 EmptyString)) :: code_units s3
                  else
                    match s3 with
                    | EmptyString => [String b0 (String b1 (String b2 EmptyString))]
                    | String b3 s4 =>
                        let cp := ((n0 mod 8) * 262144
                                   + (N_of_ascii b1 mod 64) * 4096
                                   + (N_of_ascii b2 mod 64) * 64
                                   + N_of_ascii b3 mod 64 - 65536)%N in
                        unit_bytes (55296 + cp / 1024)
                        :: unit_bytes (56320 + cp mod 1024)
                        :: code_units s4
                    end
              end
        end
  end.

End Str.

(* ================================================================== *)
(** * Values of type [any]                                              *)
(* ================================================================== *)

Inductive JsVal : Type :=
| JUndefined
| JNull
| JBool (b : bool)
| JNum (x : spec_float)
| JStr (s : string)
| JObj (props : list (string * JsVal))
| JArr (items : list JsVal)
| JFile (name : string).

Module Obj.

(** Properties are kept in the order the engine lists them: the array
    indices in ascending order, then the other keys in insertion order. *)
Fixpoint get (k : string) (o : list (string * JsVal)) : JsVal :=
  match o with
  | [] => JUndefined
  | (k', v) :: o' => if String.eqb k k' then v else get k o'
  end.

Fixpoint has (k : string) (o : list (string * JsVal)) : bool :=
  match o with
  | [] => false
  | (k', _) :: o' => String.eqb k k' || has k o'
  end.

(** An existing key keeps its place. *)
Fixpoint replace (k : string) (v : JsVal) (o : list (string * JsVal))
  : list (string * JsVal) :=
  match o with
  | [] => []
  | (k', v') :: o' =>
      if String.eqb k k' then (k, v) :: o' else (k', v') :: replace k v o'
  end.

(** A new array index [n] goes among the array indices, in ascending
    order, before every other key. *)
Fixpoint insert_index (n : N) (k : string) (v : JsVal) (o : list (string * JsVal))
  : list (string * JsVal) :=
  match o with
  | [] => [(k, v)]
  | (k', v') :: o' =>
      match Str.array_index k' with
      | Some n' =>
          if (n' <? n)%N then (k', v') :: insert_index n k v o'
          else (k, v) :: (k', v') :: o'
      | None => (k, v) :: (k', v') :: o'
      end
  end.

(** [o[k] = v]: an existing key keeps its place; a new key goes among
    the array indices when it is one, and to the end otherwise. *)
Definition set (k : string) (v : JsVal) (o : list (string * JsVal))
  : list (string * JsVal) :=
  if has k o then replace k v o
  else
    match Str.array_index k with
    | Some n => insert_index n k v o
    | None => o ++ [(k, v)]
    end.

(** Copying the properties [src] onto [o], in order. *)
Definition assign (o src : list (string * JsVal)) : list (string * JsVal) :=
  fold_left (fun acc kv => set (fst kv) (snd kv) acc) src o.

End Obj.

(** ToBoolean. *)
Definition truthy (v : JsVal) : bool :=
  match v with
  | JUndefined | JNull => false
  | JBool b => b
  | JNum x => Num.truthy x
  | JStr s => Str.truthy s
  | JObj _ | JArr _ | JFile _ => true
  end.

(** [a || b]. *)
Definition js_or (a b : JsVal) : JsVal := if truthy a then a else b.

(** What a thrown value carries. *)
Record Exn : Type := mkExn { exn_name : string; exn_message : string }.

Definition Error (msg : string) : Exn := mkExn "Error" msg.

(** The own enumerable properties an object spread [{...v}] copies:
    nothing for [null], [undefined], booleans, numbers and files, the
    properties of an object, and the indexed elements of an array or the
    indexed code units of a string. *)
Fixpoint indexed (i : N) (l : list JsVal) : list (string * JsVal) :=
  match l with
  | [] => []
  | v :: l' => (Str.of_N i, v) :: indexed (N.succ i) l'
  end.

Definition chars (s : string) : list JsVal := map JStr (Str.code_units s).

Definition own_props (v : JsVal) : list (string * JsVal) :=
  match v with
  | JObj o => o
  | JArr a => indexed 0 a
  | JStr s => indexed 0 (chars s)
  | _ => []
  end.

(** The object literal [{...a, ...b, ...c}]. *)
Definition spread3 (a b c : JsVal) : JsVal :=
  JObj (Obj.assign (Obj.assign (Obj.assign [] (own_props a)) (own_props b))
          (own_props c)).

(* ================================================================== *)
(** * The browser: network, storage, notifications                      *)
(* ================================================================== *)

Inductive Body : Type :=
| NoBody
| TextBody (text : string)
| FormBody (parts : list (string * JsVal)).

Record Request : Type := mkRequest {
  url : string;
  method : string;
  headers : list (string * string);
  body : Body
}.

(** A response: [body_json] is what [res.json()] settles to, either the
    parsed body or the error it rejects with. *)
Record Response : Type := mkResponse {
  status : N;
  body_text : string;
  body_json : Exn + JsVal
}.

(** [res.ok]: the status is in the range 200-299. *)
Definition ok (r : Response) : bool :=
  (200 <=? status r)%N && (status r <=? 299)%N.

Inductive FetchOutcome : Type :=
| Rejected (e : Exn)
| Resolved (r : Response).

Inductive Toast : Type :=
| ToastError (msg : string)
| ToastSuccess (msg : string).

(** What the code takes from its surroundings: the configured base URL,
    the library functions whose results it only passes on, the clock, the
    engine's errors for a property read on [null] or [undefined] and for
    an identifier that is not declared, and the server, which answers a request knowing the requests sent before. *)
Record Host : Type := mkHost {
  VITE_API_URL : string;
  JSON_stringify : JsVal -> string;
  String_of : JsVal -> string;
  now_ISO : string;
  toLocaleTimeString : JsVal -> string;
  null_property_error : string -> Exn;
  unresolved_reference_error : string -> Exn;
  server : list Request -> Request -> FetchOutcome
}.

Record World (S : Type) : Type := mkWorld {
  comp : S;
  localStorage : gmap string string;
  sent : list Request;
  toasts : list Toast;
  console : list string;
  upcalls : list string
}.
Arguments mkWorld {S}.
Arguments comp {S}.
Arguments localStorage {S}.
Arguments sent {S}.
Arguments toasts {S}.
Arguments console {S}.
Arguments upcalls {S}.

(** A computation either throws or returns, and leaves a world. *)
Definition Js (S A : Type) : Type := World S -> (Exn + A) * World S.

Definition ret {S A} (a : A) : Js S A := fun w => (inr a, w).

Definition throw {S A} (e : Exn) : Js S A := fun w => (inl e, w).

Definition bind {S A B} (m : Js S A) (k : A -> Js S B) : Js S B :=
  fun w =>
    match m w with
    | (inr a, w') => k a w'
    | (inl e, w') => (inl e, w')
    end.

Notation "'let*' x ':=' m 'in' k" := (bind m (fun x => k))
  (at level 10, x name, m at level 100, k at level 200).
Notation "m '>>' k" := (bind m (fun _ => k))
  (at level 90, right associativity).

(** [try { body } catch (e) { handler e }]. *)
Definition try_catch {S A} (body : Js S A) (handler : Exn -> Js S A) : Js S A :=
  fun w =>
    match body w with
    | (inl e, w') => handler e w'
    | r => r
    end.

(** [try { body } finally { fin }]: [fin] runs either way, and the
    completion of [body] stands unless [fin] itself throws. *)
Definition try_finally {S A} (body : Js S A) (fin : Js S unit) : Js S A :=
  fun w =>
    match body w with
    | (r, w') =>
        match fin w' with
        | (inl e, w'') => (inl e, w'')
        | (inr _, w'') => (r, w'')
        end
    end.

(** The world a computation leaves, and its completion. *)
Definition exec {S A} (m : Js S A) (w : World S) : World S := snd (m w).
Definition completion {S A} (m : Js S A) (w : World S) : Exn + A := fst (m w).

Definition modify {S} (f : S -> S) : Js S unit :=
  fun w => (inr tt, mkWorld (f (comp w)) (localStorage w) (sent w) (toasts w)
                      (console w) (upcalls w)).

Definition getItem {S} (k : string) : Js S (option string) :=
  fun w => (inr (localStorage w !! k), w).

Definition setItem {S} (k v : string) : Js S unit :=
  fun w => (inr tt, mkWorld (comp w) (<[k := v]> (localStorage w)) (sent w)
                      (toasts w) (console w) (upcalls w)).

Definition removeItem {S} (k : string) : Js S unit :=
  fun w => (inr tt, mkWorld (comp w) (delete k (localStorage w)) (sent w)
                      (toasts w) (console w) (upcalls w)).

Definition toast {S} (t : Toast) : Js S unit :=
  fun w => (inr tt, mkWorld (comp w) (localStorage w) (sent w)
                      (toasts w ++ [t]) (console w) (upcalls w)).

Definition console_error {S} (label : string) : Js S unit :=
  fun w => (inr tt, mkWorld (comp w) (localStorage w) (sent w) (toasts w)
                      (console w ++ [label]) (upcalls w)).

Definition upcall {S} (name : string) : Js S unit :=
  fun w => (inr tt, mkWorld (comp w) (localStorage w) (sent w) (toasts w)
                      (console w) (upcalls w ++ [name])).

(** [await fetch(...)]: the request goes out, then the promise settles. *)
Definition fetch {S} (h : Host) (req : Request) : Js S Response :=
  fun w =>
    let w' := mkWorld (comp w) (localStorage w) (sent w ++ [req]) (toasts w)
                (console w) (upcalls w) in
    match server h (sent w) req with
    | Rejected e => (inl e, w')
    | Resolved r => (inr r, w')
    end.

(** [await res.json()] and [await res.text()]. *)
Definition res_json {S} (r : Response) : Js S JsVal := fun w => (body_json r, w).
Definition res_text {S} (r : Response) : Js S string := ret (body_text r).

(** The property read [v.k].  On [null] and [undefined] it throws.  The
    names the code reads ([_id], [user], [token], [role], [message], ...)
    are not built-in properties of strings, arrays, numbers or booleans,
    so on those the read gives [undefined]. *)
Definition prop {S} (h : Host) (v : JsVal) (k : string) : Js S JsVal :=
  match v with
  | JUndefined | JNull => throw (null_property_error h k)
  | JObj o => ret (Obj.get k o)
  | _ => ret JUndefined
  end.

(** ToString, as a template literal or [setItem] applies it. *)
Definition to_string (h : Host) (v : JsVal) : string :=
  match v with
  | JStr s => s
  | _ => String_of h v
  end.

(** The template literal [`Bearer ${token}`] on the result of [getItem]. *)
Definition bearer (token : option string) : string :=
  "Bearer " +:+ match token with Some t => t | None => "null" end.

(* ================================================================== *)
(** * The booking wizard ([LiveQueueBookingSection.tsx])                *)
(* ================================================================== *)

Module Department.
Record t : Type := mk {
  id : string;
  name : string;
  description : option string;
  currentQueueSize : spec_float;
  maxQueueSize : spec_float;
  estimatedWaitTime : spec_float;
  price : option spec_float
}.
End Department.

Module Business.
(** [id] is read with a fall back to the untyped [_id], so both are kept
    as the values they are at run time. *)
Record t : Type := mk {
  id : JsVal;
  _id : JsVal;
  name : string;
  rating : spec_float;
  departments : list Department.t
}.
End Business.

Module User.
Record t : Type := mk {
  id : string;
  name : string;
  email : string;
  role : string
}.
End User.

Module Wizard.

Inductive BookingStep : Type := departments | details | confirm | success.

(** The optional fields are [undefined] until a booking succeeds; after
    that they hold what the response carried, whatever its type. *)
Record BookingData : Type := mkBookingData {
  departmentId : string;
  customerName : string;
  customerPhone : string;
  customerEmail : string;
  notes : string;
  tokenNumber : JsVal;
  estimatedWaitTime : JsVal;
  bookingId : JsVal;
  qrCode : JsVal;
  bookedAt : JsVal;
  businessName : JsVal;
  departmentName : JsVal
}.

Record State : Type := mkState {
  currentStep : BookingStep;
  selectedDepartment : option Department.t;
  isLoading : bool;
  bookingData : BookingData
}.

(** [user?.name || ""] and [user?.email || ""]. *)
Definition seed_name (user : option User.t) : string :=
  match user with Some u => Str.or_else (User.name u) "" | None => "" end.
Definition seed_email (user : option User.t) : string :=
  match user with Some u => Str.or_else (User.email u) "" | None => "" end.

(** The object literal both [useState] and [resetBooking] build. *)
Definition fresh_bookingData (user : option User.t) : BookingData :=
  {| departmentId := ""; customerName := seed_name user; customerPhone := "";
     customerEmail := seed_email user; notes := "";
     tokenNumber := JUndefined; estimatedWaitTime := JUndefined;
     bookingId := JUndefined; qrCode := JUndefined; bookedAt := JUndefined;
     businessName := JUndefined; departmentName := JUndefined |}.

Definition initial (user : option User.t) : State :=
  {| currentStep := departments; selectedDepartment := None;
     isLoading := false; bookingData := fresh_bookingData user |}.

(** ** State setters *)

Definition setCurrentStep (s : BookingStep) : Js State unit :=
  modify (fun st => mkState s (selectedDepartment st) (isLoading st) (bookingData st)).

Definition setSelectedDepartment (d : option Department.t) : Js State unit :=
  modify (fun st => mkState (currentStep st) d (isLoading st) (bookingData st)).

Definition setIsLoading (b : bool) : Js State unit :=
  modify (fun st => mkState (currentStep st) (selectedDepartment st) b (bookingData st)).

Definition setBookingData (f : BookingData -> BookingData) : Js State unit :=
  modify (fun st => mkState (currentStep st) (selectedDepartment st) (isLoading st)
                      (f (bookingData st))).

(** ** Derived figures *)

Definition totalQueueSize (business : Business.t) : spec_float :=
  fold_left (fun total dept => Num.add total (Department.currentQueueSize dept))
    (Business.departments business) (Num.of_Z 0).

Definition averageWaitTime (business : Business.t) : spec_float :=
  Num.round
    (Num.div
       (fold_left (fun total dept => Num.add total (Department.estimatedWaitTime dept))
          (Business.departments business) (Num.of_Z 0))
       (Num.of_Z (Z.of_nat (length (Business.departments business))))).

Inductive Icon : Type := XCircle | AlertCircle | Clock | CheckCircle.

Module Badge.
Record t : Type := mk {
  color : string;
  bg : string;
  status : string;
  icon : Icon
}.
End Badge.

Definition percentage (dept : Department.t) : spec_float :=
  Num.mul (Num.div (Department.currentQueueSize dept) (Department.maxQueueSize dept))
    (Num.of_Z 100).

Definition getDepartmentStatus (dept : Department.t) : Badge.t :=
  let percentage := percentage dept in
  if Num.ge percentage (Num.of_Z 90) then
    Badge.mk "text-red-600" "bg-red-100 dark:bg-red-900/20" "Full" XCircle
  else if Num.ge percentage (Num.of_Z 70) then
    Badge.mk "text-orange-600" "bg-orange-100 dark:bg-orange-900/20" "Busy" AlertCircle
  else if Num.ge percentage (Num.of_Z 30) then
    Badge.mk "text-yellow-600" "bg-yellow-100 dark:bg-yellow-900/20" "Moderate" Clock
  else
    Badge.mk "text-green-600" "bg-green-100 dark:bg-green-900/20" "Available" CheckCircle.

(** ** Handlers *)

Definition handleDepartmentSelect (dept : Department.t) : Js State unit :=
  setSelectedDepartment (Some dept) >>
  setBookingData (fun prev =>
    mkBookingData (Department.id dept) (customerName prev) (customerPhone prev)
      (customerEmail prev) (notes prev) (tokenNumber prev) (estimatedWaitTime prev)
      (bookingId prev) (qrCode prev) (bookedAt prev) (businessName prev)
      (departmentName prev)).

(** [/^\d{10}$/.test(s)]. *)
Definition phoneRegex_test (s : string) : bool := Str.digits_then_end 10 s.

(** The handler reads the booking data it was rendered with. *)
Definition handleDetailsSubmit (st : State) : Js State unit :=
  if negb (Str.truthy (customerName (bookingData st)))
     || negb (Str.truthy (customerPhone (bookingData st)))
  then toast (ToastError "Please fill in all required fields")
  else if negb (phoneRegex_test (customerPhone (bookingData st)))
  then toast (ToastError "Phone number must be exactly 10 digits")
  else setCurrentStep confirm.

(** [onChange] of the phone input. *)
Definition handlePhoneChange (typed : string) : Js State unit :=
  let value := Str.strip_non_digits typed in
  if (String.length value <=? 10)%nat then
    setBookingData (fun prev =>
      mkBookingData (departmentId prev) (customerName prev) value
        (customerEmail prev) (notes prev) (tokenNumber prev) (estimatedWaitTime prev)
        (bookingId prev) (qrCode prev) (bookedAt prev) (businessName prev)
        (departmentName prev))
  else ret tt.

Definition handleNameChange (typed : string) : Js State unit :=
  setBookingData (fun prev =>
    mkBookingData (departmentId prev) typed (customerPhone prev)
      (customerEmail prev) (notes prev) (tokenNumber prev) (estimatedWaitTime prev)
      (bookingId prev) (qrCode prev) (bookedAt prev) (businessName prev)
      (departmentName prev)).

Definition handleEmailChange (typed : string) : Js State unit :=
  setBookingData (fun prev =>
    mkBookingData (departmentId prev) (customerName prev) (customerPhone prev)
      typed (notes prev) (tokenNumber prev) (estimatedWaitTime prev)
      (bookingId prev) (qrCode prev) (bookedAt prev) (businessName prev)
      (departmentName prev)).

Definition handleNotesChange (typed : string) : Js State unit :=
  setBookingData (fun prev =>
    mkBookingData (departmentId prev) (customerName prev) (customerPhone prev)
      (customerEmail prev) typed (tokenNumber prev) (estimatedWaitTime prev)
      (bookingId prev) (qrCode prev) (bookedAt prev) (businessName prev)
      (departmentName prev)).

Definition book_url (h : Host) : string := VITE_API_URL h +:+ "/api/queues/book".

Definition bookingPayload (h : Host) (business : Business.t) (businessId : JsVal)
    (dept : Department.t) (st : State) : JsVal :=
  JObj [ ("businessId", businessId);
         ("businessName", JStr (Business.name business));
         ("departmentName", JStr (Department.name dept));
         ("customerName", JStr (customerName (bookingData st)));
         ("customerPhone", JStr (customerPhone (bookingData st)));
         ("notes", JStr (notes (bookingData st)));
         ("bookedAt", JStr (now_ISO h)) ].

Definition book_request (h : Host) (token : option string) (payload : JsVal) : Request :=
  {| url := book_url h;
     method := "POST";
     headers := [("Content-Type", "application/json"); ("Authorization", bearer token)];
     body := TextBody (JSON_stringify h payload) |}.

(** The object handed to [JSON.stringify] for the QR code. *)
Definition qr_object (h : Host) (b_id b_business b_department b_customer b_bookedAt : JsVal)
  : JsVal :=
  JObj [ ("bookingId", b_id);
         ("tokenNumber", b_id);
         ("businessName", b_business);
         ("departmentName", b_department);
         ("customerName", b_customer);
         ("date", b_bookedAt);
         ("time", JStr (toLocaleTimeString h b_bookedAt)) ].

Definition handleConfirmBooking (h : Host) (business : Business.t)
    (user : option User.t) (st : State) : Js State unit :=
  match selectedDepartment st, user with
  | Some dept, Some _ =>
      setIsLoading true >>
      try_finally
        (try_catch
           (let* token := getItem "token" in
            let businessId := js_or (Business.id business) (Business._id business) in
            if negb (truthy businessId) then
              console_error "No business ID found in business object:" >>
              toast (ToastError "Business ID not found. Please try again.")
            else
              let* res := fetch h (book_request h token
                                     (bookingPayload h business businessId dept st)) in
              (if negb (ok res) then
                 let* errorText := res_text res in
                 throw (Error ("Booking failed: " +:+ Str.of_N (status res) +:+ " - "
                                 +:+ errorText))
               else ret tt) >>
              let* booking := res_json res in
              let* b_id := prop h booking "_id" in
              let* b_business := prop h booking "businessName" in
              let* b_department := prop h booking "departmentName" in
              let* b_customer := prop h booking "customerName" in
              let* b_bookedAt := prop h booking "bookedAt" in
              let qrData := JSON_stringify h
                              (qr_object h b_id b_business b_department b_customer
                                 b_bookedAt) in
              setBookingData (fun prev =>
                mkBookingData (departmentId prev) (customerName prev)
                  (customerPhone prev) (customerEmail prev) (notes prev)
                  (JNum (Num.of_Z 1))
                  (JNum (Department.estimatedWaitTime dept))
                  b_id (JStr qrData) b_bookedAt b_business b_department) >>
              setCurrentStep success >>
              toast (ToastSuccess "Your booking has been confirmed!"))
           (fun error =>
              console_error "Booking error:" >>
              toast (ToastError ("Booking failed: " +:+ exn_message error))))
        (setIsLoading false)
  | _, _ => ret tt
  end.

Definition resetBooking (user : option User.t) : Js State unit :=
  setCurrentStep departments >>
  setSelectedDepartment None >>
  setBookingData (fun _ => fresh_bookingData user).

Definition handleClose (user : option User.t) : Js State unit :=
  resetBooking user >> upcall "onClose".

(** ** What is rendered *)





(** [onClick] of a department card. *)
Definition card_onClick (dept : Department.t) : Js State unit :=
  if Num.lt (Department.currentQueueSize dept) (Department.maxQueueSize dept)
  then handleDepartmentSelect dept
  else ret tt.

(** The token shown on the details and confirm steps:
    [selectedDepartment.currentQueueSize + 1]. *)
Definition token_guess (dept : Department.t) : spec_float :=
  Num.add (Department.currentQueueSize dept) (Num.of_Z 1).

(** The token of the success step, "Token #{bookingData.tokenNumber}",
    rendered when the step is [success] and the token number is truthy. *)
Definition success_token (st : State) : option JsVal :=
  match currentStep st with
  | success => if truthy (tokenNumber (bookingData st))
               then Some (tokenNumber (bookingData st)) else None
  | _ => None
  end.

(** ** Confirming, in its two parts

    [handleConfirmBooking] runs up to [await fetch(...)] when Confirm is
    clicked and goes on when the request has settled.  In between the
    component takes other events; what the second part uses of the first
    is the department it was rendered with and the answer. *)

Record Pending : Type := mkPending {
  pending_dept : Department.t;
  pending_outcome : FetchOutcome
}.

(** From the click to the point where the request is out.  Without a
    business id the handler finishes here. *)
Definition confirm_start (h : Host) (business : Business.t) (user : option User.t)
    (st : State) (w : World State) : World State * option Pending :=
  match selectedDepartment st, user with
  | Some dept, Some _ =>
      let w1 := exec (setIsLoading true) w in
      let businessId := js_or (Business.id business) (Business._id business) in
      if negb (truthy businessId) then
        (exec (console_error "No business ID found in business object:" >>
               toast (ToastError "Business ID not found. Please try again.") >>
               setIsLoading false) w1, None)
      else
        let req := book_request h (localStorage w1 !! "token")
                     (bookingPayload h business businessId dept st) in
        (mkWorld (comp w1) (localStorage w1) (sent w1 ++ [req]) (toasts w1)
           (console w1) (upcalls w1),
         Some (mkPending dept (server h (sent w1) req)))
  | _, _ => (w, None)
  end.

(** The promise of a request, settling. *)
Definition settle {S} (o : FetchOutcome) : Js S Response :=
  fun w => match o with
           | Rejected e => (inl e, w)
           | Resolved r => (inr r, w)
           end.

(** From the settled request to the end of the handler. *)
Definition confirm_resume (h : Host) (p : Pending) : Js State unit :=
  try_finally
    (try_catch
       (let* res := settle (pending_outcome p) in
        (if negb (ok res) then
           let* errorText := res_text res in
           throw (Error ("Booking failed: " +:+ Str.of_N (status res) +:+ " - "
                           +:+ errorText))
         else ret tt) >>
        let* booking := res_json res in
        let* b_id := prop h booking "_id" in
        let* b_business := prop h booking "businessName" in
        let* b_department := prop h booking "departmentName" in
        let* b_customer := prop h booking "customerName" in
        let* b_bookedAt := prop h booking "bookedAt" in
        let qrData := JSON_stringify h
                        (qr_object h b_id b_business b_department b_customer
                           b_bookedAt) in
        setBookingData (fun prev =>
          mkBookingData (departmentId prev) (customerName prev)
            (customerPhone prev) (customerEmail prev) (notes prev)
            (JNum (Num.of_Z 1))
            (JNum (Department.estimatedWaitTime (pending_dept p)))
            b_id (JStr qrData) b_bookedAt b_business b_department) >>
        setCurrentStep success >>
        toast (ToastSuccess "Your booking has been confirmed!"))
       (fun error =>
          console_error "Booking error:" >>
          toast (ToastError ("Booking failed: " +:+ exn_message error))))
    (setIsLoading false).

(** ** The wizard as a transition system

    One transition per control, enabled when the control is rendered and
    not disabled, and one for a request that settles.  A configuration is
    the world together with the requests that are out. *)

Definition has_selection (st : State) : bool :=
  match selectedDepartment st with Some _ => true | None => false end.

Inductive Control : Type :=
| ClickCard | ClickNext | ClickBackToDepartments
| TypeName | TypePhone | TypeEmail | TypeNotes
| ClickContinue | ClickBackToDetails | ClickConfirm | ClickClose
| RequestSettles.

Definition Config : Type := (World State * list Pending)%type.

Definition out (p : option Pending) : list Pending :=
  match p with Some x => [x] | None => [] end.

Inductive step (h : Host) (business : Business.t) (user : option User.t)
  : Control -> Config -> Config -> Prop :=
| step_card w ps dept :
    currentStep (comp w) = departments ->
    In dept (Business.departments business) ->
    step h business user ClickCard (w, ps) (exec (card_onClick dept) w, ps)
| step_next w ps :
    currentStep (comp w) = departments ->
    has_selection (comp w) = true ->
    step h business user ClickNext (w, ps) (exec (setCurrentStep details) w, ps)
| step_back_to_departments w ps :
    currentStep (comp w) = details ->
    has_selection (comp w) = true ->
    step h business user ClickBackToDepartments (w, ps)
      (exec (setCurrentStep departments) w, ps)
| step_type_name w ps typed :
    currentStep (comp w) = details ->
    has_selection (comp w) = true ->
    step h business user TypeName (w, ps) (exec (handleNameChange typed) w, ps)
| step_type_phone w ps typed :
    currentStep (comp w) = details ->
    has_selection (comp w) = true ->
    step h business user TypePhone (w, ps) (exec (handlePhoneChange typed) w, ps)
| step_type_email w ps typed :
    currentStep (comp w) = details ->
    has_selection (comp w) = true ->
    step h business user TypeEmail (w, ps) (exec (handleEmailChange typed) w, ps)
| step_type_notes w ps typed :
    currentStep (comp w) = details ->
    has_selection (comp w) = true ->
    step h business user TypeNotes (w, ps) (exec (handleNotesChange typed) w, ps)
| step_continue w ps :
    currentStep (comp w) = details ->
    has_selection (comp w) = true ->
    Str.truthy (customerName (bookingData (comp w))) = true ->
    Str.truthy (customerPhone (bookingData (comp w))) = true ->
    step h business user ClickContinue (w, ps)
      (exec (handleDetailsSubmit (comp w)) w, ps)
| step_back_to_details w ps :
    currentStep (comp w) = confirm ->
    has_selection (comp w) = true ->
    step h business user ClickBackToDetails (w, ps)
      (exec (setCurrentStep details) w, ps)
| step_confirm w ps :
    currentStep (comp w) = confirm ->
    has_selection (comp w) = true ->
    isLoading (comp w) = false ->
    step h business user ClickConfirm (w, ps)
      (fst (confirm_start h business user (comp w) w),
       ps ++ out (snd (confirm_start h business user (comp w) w)))
| step_close w ps :
    step h business user ClickClose (w, ps) (exec (handleClose user) w, ps)
| step_settle w ps1 p ps2 :
    step h business user RequestSettles (w, ps1 ++ p :: ps2)
      (exec (confirm_resume h p) w, ps1 ++ ps2).

(** The configurations the wizard can be in: it starts from
    [initial user] with no request out. *)
Inductive reachable_config (h : Host) (business : Business.t) (user : option User.t)
  : Config -> Prop :=
| reachable_initial w :
    comp w = initial user -> reachable_config h business user (w, [])
| reachable_step c c' control :
    reachable_config h business user c ->
    step h business user control c c' ->
    reachable_config h business user c'.

(** The worlds the wizard can be in. *)
Definition reachable (h : Host) (business : Business.t) (user : option User.t)
    (w : World State) : Prop :=
  exists ps, reachable_config h business user (w, ps).


(** ** More of what is rendered *)

(** The four circles of the progress bar, in order. *)
Definition steps : list BookingStep := [departments; details; confirm; success].

Definition step_eqb (a b : BookingStep) : bool :=
  match a, b with
  | departments, departments | details, details
  | confirm, confirm | success, success => true
  | _, _ => false
  end.

(** [l.indexOf(s)], counting from [i]; [-1] when [s] does not occur. *)
Fixpoint indexOf_from (i : Z) (l : list BookingStep) (s : BookingStep) : Z :=
  match l with
  | [] => (-1)%Z
  | x :: l' => if step_eqb x s then i else indexOf_from (i + 1)%Z l' s
  end.

Definition indexOf (s : BookingStep) : Z := indexOf_from 0 steps s.

(** The circle of [step], drawn at position [index], is filled when
    [currentStep === step || indexOf(currentStep) > index]. *)
Definition circle_lit (st : State) (step : BookingStep) (index : Z) : bool :=
  step_eqb (currentStep st) step || (index <? indexOf (currentStep st))%Z.

(** The bar after position [index] exists when [index < 3] and is filled
    when [indexOf(currentStep) > index]. *)
Definition connector_shown (index : Z) : bool := (index <? 3)%Z.
Definition connector_lit (st : State) (index : Z) : bool :=
  (index <? indexOf (currentStep st))%Z.

(** Which of the four step blocks is rendered, if any: the details and
    confirm blocks need a selected department, the success block a truthy
    token number. *)
Definition rendered_step (st : State) : option BookingStep :=
  match currentStep st with
  | departments => Some departments
  | details => if has_selection st then Some details else None
  | confirm => if has_selection st then Some confirm else None
  | success => if truthy (tokenNumber (bookingData st)) then Some success else None
  end.

(** [disabled] of the three forward buttons. *)
Definition next_disabled (st : State) : bool := negb (has_selection st).
Definition continue_disabled (st : State) : bool :=
  negb (Str.truthy (customerName (bookingData st)))
  || negb (Str.truthy (customerPhone (bookingData st))).
Definition confirm_disabled (st : State) : bool := isLoading st.

(** The line under the phone input,
    [customerPhone && customerPhone.length !== 10]. *)
Definition shows_phone_error (st : State) : bool :=
  Str.truthy (customerPhone (bookingData st))
  && negb (String.length (customerPhone (bookingData st)) =? 10)%nat.

(** "Track My Queue": the location the click navigates to, if it does. *)
Definition track_target (h : Host) (st : State) : option string :=
  if truthy (bookingId (bookingData st))
  then Some ("/queue-tracker/" +:+ to_string h (bookingId (bookingData st)))
  else None.

(** The position of a step in the wizard, for comparing steps. *)
Definition position (s : BookingStep) : nat :=
  match s with departments => 0 | details => 1 | confirm => 2 | success => 3 end.

(** What will be shown to hold of the state in every reachable world. *)
Definition consistent (st : State) : Prop :=
  (currentStep st = details \/ currentStep st = confirm -> has_selection st = true)
  /\ departmentId (bookingData st)
     = match selectedDepartment st with
       | Some d => Department.id d
       | None => ""
       end
  /\ Str.all_digits (customerPhone (bookingData st)) = true
  /\ (String.length (customerPhone (bookingData st)) <= 10)%nat
  /\ (currentStep st = confirm ->
      customerName (bookingData st) <> ""
      /\ String.length (customerPhone (bookingData st)) = 10%nat)
  /\ (currentStep st = success ->
      tokenNumber (bookingData st) = JNum (Num.of_Z 1)).

End Wizard.

(* ================================================================== *)
(** * The session context ([AuthContext.tsx])                           *)
(* ================================================================== *)

Module AuthContext.

(** [user] is [null] or what the profile endpoint answered. *)
Record State : Type := mkState {
  user : JsVal;
  isAuthenticated : bool;
  isLoading : bool
}.

Definition initial : State :=
  {| user := JNull; isAuthenticated := false; isLoading := true |}.

Definition setUser (u : JsVal) : Js State unit :=
  modify (fun st => mkState u (isAuthenticated st) (isLoading st)).

Definition setIsAuthenticated (b : bool) : Js State unit :=
  modify (fun st => mkState (user st) b (isLoading st)).

Definition setIsLoading (b : bool) : Js State unit :=
  modify (fun st => mkState (user st) (isAuthenticated st) b).

Definition profile_url (h : Host) : string := VITE_API_URL h +:+ "/api/users/profile".
Definition user_login_url (h : Host) : string := VITE_API_URL h +:+ "/api/auth/login".
Definition business_login_url (h : Host) : string :=
  VITE_API_URL h +:+ "/api/businesses/login".

(** ToBoolean on the result of [getItem]: [null] and the empty string
    are falsy. *)
Definition token_truthy (token : option string) : bool :=
  match token with Some t => Str.truthy t | None => false end.

Definition profile_request (h : Host) (authorization : string) : Request :=
  {| url := profile_url h; method := "GET";
     headers := [("Authorization", authorization)]; body := NoBody |}.

(** The effect run once when the provider mounts, followed to the point
    where its promise chain has settled. *)
Definition mount_effect (h : Host) : Js State unit :=
  let* token := getItem "token" in
  if token_truthy token then
    try_finally
      (try_catch
         (let* res := fetch h (profile_request h (bearer token)) in
          (if negb (ok res) then throw (Error "Failed to fetch profile") else ret tt) >>
          let* profile := res_json res in
          setUser profile >>
          setIsAuthenticated true >>
          setItem "user" (JSON_stringify h profile))
         (fun err =>
            console_error "⚠️ Error fetching user profile:" >>
            setUser JNull >>
            setIsAuthenticated false >>
            removeItem "user" >>
            removeItem "token"))
      (setIsLoading false)
  else
    setUser JNull >>
    setIsAuthenticated false >>
    setIsLoading false.

Definition login_request (h : Host) (email password role : string) : Request :=
  {| url := if String.eqb role "business" then business_login_url h
            else user_login_url h;
     method := "POST";
     headers := [("Content-Type", "application/json")];
     body := TextBody (JSON_stringify h
               (JObj [("email", JStr email); ("password", JStr password);
                      ("role", JStr role)])) |}.

Definition invalid_login {A} : Js State A :=
  console_error "⚠️ Invalid login response:" >>
  throw (Error "Invalid login response from server").

Definition login (h : Host) (email password role : string) : Js State JsVal :=
  let* res := fetch h (login_request h email password role) in
  let* data := res_json res in
  (if negb (ok res) then
     let* message := prop h data "message" in
     throw (Error (to_string h (js_or message (JStr "Login failed"))))
   else ret tt) >>
  let* d_user := prop h data "user" in
  if negb (truthy d_user) then invalid_login else
  let* d_token := prop h data "token" in
  if negb (truthy d_token) then invalid_login else
  let* d_role := prop h d_user "role" in
  if negb (truthy d_role) then invalid_login else
  setItem "token" (to_string h d_token) >>
  let* profileRes := fetch h (profile_request h ("Bearer " +:+ to_string h d_token)) in
  let* profile := res_json profileRes in
  setItem "user" (JSON_stringify h profile) >>
  setUser profile >>
  setIsAuthenticated true >>
  ret (JObj [("user", profile); ("token", d_token)]).

Definition logout : Js State unit :=
  removeItem "token" >>
  removeItem "user" >>
  setUser JNull >>
  setIsAuthenticated false.

Definition update_request (h : Host) (token : option string) (data : JsVal) : Request :=
  {| url := profile_url h; method := "PUT";
     headers := [("Content-Type", "application/json"); ("Authorization", bearer token)];
     body := TextBody (JSON_stringify h data) |}.

(** [updateProfile] reads the [user] it was rendered with. *)
Definition updateProfile (h : Host) (st : State) (data : JsVal) : Js State unit :=
  let* token := getItem "token" in
  if negb (token_truthy token) then throw (Error "Not authenticated") else
  let* res := fetch h (update_request h token data) in
  let* result := res_json res in
  (if negb (ok res) then
     let* message := prop h result "message" in
     throw (Error (to_string h (js_or message (JStr "Failed to update profile"))))
   else ret tt) >>
  let updatedUser := spread3 (user st) data result in
  setUser updatedUser >>
  setItem "user" (JSON_stringify h updatedUser).

End AuthContext.

(* ================================================================== *)
(** * The older copy of the context, with the multipart update          *)
(* ================================================================== *)

Module AuthContextLegacy.

Import AuthContext.

(** [if (data.k) formData.append(k, data.k)]. *)
Definition append_if_truthy (k : string) (v : JsVal) (parts : list (string * JsVal))
  : list (string * JsVal) :=
  if truthy v then parts ++ [(k, v)] else parts.

Definition multipart_request (h : Host) (token : option string)
    (formData : list (string * JsVal)) : Request :=
  {| url := profile_url h; method := "PUT";
     headers := [("Authorization", bearer token)];
     body := FormBody formData |}.

(** The identifier [updatedUser] is assigned and read but declared
    nowhere; in module code both the assignment and the read throw. *)
Definition updateProfile (h : Host) (data : JsVal) : Js State unit :=
  let* token := getItem "token" in
  if negb (token_truthy token) then throw (Error "Not authenticated") else
  let* profileImageFile := prop h data "profileImageFile" in
  if truthy profileImageFile then
    let* d_name := prop h data "name" in
    let* d_phone := prop h data "phone" in
    let* d_location := prop h data "location" in
    let formData :=
      append_if_truthy "location" d_location
        (append_if_truthy "phone" d_phone
           (append_if_truthy "name" d_name []))
      ++ [("profileImage", profileImageFile)] in
    let* res := fetch h (multipart_request h token formData) in
    throw (unresolved_reference_error h "updatedUser")
  else
    let* res := fetch h (update_request h token data) in
    (if negb (ok res) then throw (Error "Profile update failed") else ret tt) >>
    let* parsed := res_json res in
    throw (unresolved_reference_error h "updatedUser").

(** The effect run when this copy mounts.  [parse] is [JSON.parse]. *)
Definition mount_effect (h : Host) (parse : string -> Exn + JsVal) : Js State unit :=
  let* token := getItem "token" in
  let* storedUser := getItem "user" in
  (if token_truthy token && token_truthy storedUser
      && negb (String.eqb (default "" storedUser) "undefined")
   then
     try_catch
       (let* parsedUser := (fun w => (parse (default "" storedUser), w)) in
        let valid :=
          if negb (truthy parsedUser) then ret false else
          let* p_email := prop h parsedUser "email" in
          if negb (truthy p_email) then ret false else
          let* p_role := prop h parsedUser "role" in
          ret (truthy p_role) in
        let* is_valid := valid in
        if is_valid : bool then
          setUser parsedUser >>
          setIsAuthenticated true
        else throw (Error "Malformed user data"))
       (fun err =>
          console_error "⚠️ Error parsing stored user:" >>
          removeItem "user" >>
          removeItem "token")
   else ret tt) >>
  setIsLoading false.

(** [login] of this copy keeps four fields of the user it is sent and
    fetches nothing else. *)
Definition login (h : Host) (email password role : string) : Js State JsVal :=
  let* res := fetch h (login_request h email password role) in
  let* data := res_json res in
  (if negb (ok res) then
     let* message := prop h data "message" in
     throw (Error (to_string h (js_or message (JStr "Login failed"))))
   else ret tt) >>
  let* d_user := prop h data "user" in
  if negb (truthy d_user) then invalid_login else
  let* d_token := prop h data "token" in
  if negb (truthy d_token) then invalid_login else
  let* d_role := prop h d_user "role" in
  if negb (truthy d_role) then invalid_login else
  let* u_id := prop h d_user "id" in
  let* u_name := prop h d_user "name" in
  let* u_email := prop h d_user "email" in
  let* u_role := prop h d_user "role" in
  let userData := JObj [("id", u_id); ("name", u_name); ("email", u_email);
                        ("role", u_role)] in
  setItem "token" (to_string h d_token) >>
  setItem "user" (JSON_stringify h userData) >>
  setUser userData >>
  setIsAuthenticated true >>
  ret (JObj [("user", userData); ("token", d_token)]).

End AuthContextLegacy.

(* ================================================================== *)
(** * The request interceptor ([api/axios.js])                          *)
(* ================================================================== *)

Module Axios.

(** A request configuration: its headers, absent or an object, and the
    rest of its properties. *)
Record Config : Type := mkConfig {
  config_headers : option (list (string * JsVal));
  config_rest : list (string * JsVal)
}.

(** The fulfilled handler of [interceptors.request.use]. *)
Definition attach_token {S} (config : Config) : Js S Config :=
  let* token := getItem "token" in
  if AuthContext.token_truthy token then
    let headers := default [] (config_headers config) in
    ret (mkConfig (Some (Obj.set "Authorization" (JStr (bearer token)) headers))
           (config_rest config))
  else ret config.

(** The rejected handler, [(error) => Promise.reject(error)]. *)
Definition pass_error {S} (error : Exn) : Js S Config := throw error.

End Axios.

(* ================================================================== *)
(** * Constants and the businesses hook                                 *)
(* ================================================================== *)

Module Constants.

(** [s.replace(/\/api$/, '')]: the search moves left to right for a
    place where what remains of [s] is exactly "/api". *)
Fixpoint strip_api_suffix (s : string) : string :=
  match s with
  | EmptyString => EmptyString
  | String c s' =>
      if String.eqb s "/api" then EmptyString else String c (strip_api_suffix s')
  end.

Definition API_BASE_URL (h : Host) : string := VITE_API_URL h +:+ "/api".
Definition SOCKET_URL (h : Host) : string := strip_api_suffix (VITE_API_URL h).

Definition ITEMS_PER_PAGE : Z := 12.
Definition MAX_QUEUE_SIZE : Z := 50.
Definition REFRESH_INTERVAL : Z := 30000.

End Constants.

Module UseBusinesses.

Record State : Type := mkState {
  businesses : JsVal;
  loading : bool
}.

Definition initial : State := {| businesses := JArr []; loading := true |}.

Definition setBusinesses (b : JsVal) : Js State unit :=
  modify (fun st => mkState b (loading st)).

Definition setLoading (b : bool) : Js State unit :=
  modify (fun st => mkState (businesses st) b).

Definition all_request (h : Host) : Request :=
  {| url := VITE_API_URL h +:+ "/api/businesses/all"; method := "GET";
     headers := []; body := NoBody |}.

(** [fetchBusinesses], followed until its promise chain has settled. *)
Definition fetchBusinesses (h : Host) : Js State unit :=
  setLoading true >>
  try_catch
    (let* res := fetch h (all_request h) in
     let* data := res_json res in
     setBusinesses data >>
     setLoading false)
    (fun error =>
       console_error "Error fetching businesses:" >>
       setLoading false).

End UseBusinesses.

(* ================================================================== *)
(** * The statements of the design document, as definitions            *)
(* ================================================================== *)

Module Words.

(** "≥90% → Full, ≥70% → Busy, ≥30% → Moderate, else Available", each
    band with its upper limit written out. *)
Definition label_of_percentage (p : spec_float) : string :=
  if Num.ge p (Num.of_Z 90) then "Full"
  else if Num.ge p (Num.of_Z 70) && Num.lt p (Num.of_Z 90) then "Busy"
  else if Num.ge p (Num.of_Z 30) && Num.lt p (Num.of_Z 70) then "Moderate"
  else "Available".

(** "the phone consists of exactly 10 digits". *)
Definition ten_digits (s : string) : Prop :=
  String.length s = 10%nat /\ Str.all_digits s = true.

(** "round(sum of all departments' estimatedWaitTime divided by the number
    of departments)", the sum taken from 0 in the order of the list. *)
Fixpoint sum_from (acc : spec_float) (l : list spec_float) : spec_float :=
  match l with
  | [] => acc
  | x :: l' => sum_from (Num.add acc x) l'
  end.

Definition rounded_mean (l : list spec_float) : spec_float :=
  Num.round (Num.div (sum_from (Num.of_Z 0) l) (Num.of_Z (Z.of_nat (length l)))).

(** The integer a number is, when it is one: [m * 2^e] with the binary
    point at or right of the last digit of [m], or with nothing but zeros
    after it. *)
Definition integer_value (x : spec_float) : option Z :=
  match x with
  | S754_zero _ => Some 0%Z
  | S754_finite s m e =>
      if (0 <=? e)%Z then Some (cond_Zopp s (Zpos m * 2 ^ e))%Z
      else if (Zpos m mod 2 ^ (- e) =? 0)%Z
           then Some (cond_Zopp s (Zpos m / 2 ^ (- e)))%Z
           else None
  | _ => None
  end.

(** "[n] is the integer nearest to [v], the upper one on a tie", for
    [v = (-1)^s * m * 2^e] with [e < 0]: [v - 1/2 < n <= v + 1/2], both
    sides multiplied by [2 * 2^(-e)]. *)
Definition nearest_integer (s : bool) (m : positive) (e : Z) (n : Z) : Prop :=
  (2 * cond_Zopp s (Zpos m) - 2 ^ (- e) < 2 * n * 2 ^ (- e)
   /\ 2 * n * 2 ^ (- e) <= 2 * cond_Zopp s (Zpos m) + 2 ^ (- e))%Z.

(** The request a confirmation sends from world [w]. *)
Definition confirm_request (h : Host) (business : Business.t) (dept : Department.t)
    (w : World Wizard.State) : Request :=
  Wizard.book_request h (localStorage w !! "token")
    (Wizard.bookingPayload h business
       (js_or (Business.id business) (Business._id business)) dept (comp w)).

(** "A booking submission that fails": the business carries no id, the
    request is rejected by the network, the response is not ok, or the
    body of an ok response cannot be read as a booking. *)
Inductive submission_fails (h : Host) (business : Business.t) (dept : Department.t)
    (w : World Wizard.State) : Prop :=
| fails_missing_business_id :
    truthy (js_or (Business.id business) (Business._id business)) = false ->
    submission_fails h business dept w
| fails_network e :
    truthy (js_or (Business.id business) (Business._id business)) = true ->
    server h (sent w) (confirm_request h business dept w) = Rejected e ->
    submission_fails h business dept w
| fails_not_ok r :
    truthy (js_or (Business.id business) (Business._id business)) = true ->
    server h (sent w) (confirm_request h business dept w) = Resolved r ->
    ok r = false ->
    submission_fails h business dept w
| fails_unreadable_body r e :
    truthy (js_or (Business.id business) (Business._id business)) = true ->
    server h (sent w) (confirm_request h business dept w) = Resolved r ->
    ok r = true ->
    body_json r = inl e ->
    submission_fails h business dept w
| fails_null_body r :
    truthy (js_or (Business.id business) (Business._id business)) = true ->
    server h (sent w) (confirm_request h business dept w) = Resolved r ->
    ok r = true ->
    body_json r = inr JNull ->
    submission_fails h business dept w.

(** "The backend profile fetch does not resolve successfully": the
    request made with the persisted token is rejected, or answered with a
    status that is not ok, or with a body that is not JSON. *)
Definition profile_fetch_fails (h : Host) (w : World AuthContext.State) : Prop :=
  match server h (sent w)
          (AuthContext.profile_request h (bearer (localStorage w !! "token"))) with
  | Rejected _ => True
  | Resolved r => ok r = false \/ exists e, body_json r = inl e
  end.

(** "A valid response": successful, with a user record, a token, and a
    role on the user. *)
Definition login_response_valid (r : Response) : bool :=
  ok r &&
  match body_json r with
  | inr (JObj data) =>
      truthy (Obj.get "user" data) && truthy (Obj.get "token" data) &&
      match Obj.get "user" data with
      | JObj u => truthy (Obj.get "role" u)
      | _ => false
      end
  | _ => false
  end.

(** What the older copy of the context accepts as a stored user: a value
    with a truthy [email] and a truthy [role]. *)
Definition stored_user_ok (v : JsVal) : bool :=
  match v with
  | JObj o => truthy (Obj.get "email" o) && truthy (Obj.get "role" o)
  | _ => false
  end.

End Words.

(* ================================================================== *)
(** * Sample data                                                       *)
(* ================================================================== *)

Module Sample.

(** A stand-in for [JSON.stringify] that keeps the property names. *)
Definition stringify (v : JsVal) : string :=
  match v with
  | JObj o => "{" +:+ String.concat "," (map fst o) +:+ "}"
  | JStr s => s
  | _ => "null"
  end.

Definition host (srv : list Request -> Request -> FetchOutcome) : Host :=
  {| VITE_API_URL := "https://api.skiply.test";
     JSON_stringify := stringify;
     String_of := stringify;
     now_ISO := "2025-01-01T09:00:00.000Z";
     toLocaleTimeString := fun _ => "9:00:00 AM";
     null_property_error := fun k =>
       mkExn "TypeError" ("Cannot read properties of null (reading '" +:+ k +:+ "')");
     unresolved_reference_error := fun x =>
       mkExn "ReferenceError" (x +:+ " is not defined");
     server := srv |}.

Definition answers (r : Response) : list Request -> Request -> FetchOutcome :=
  fun _ _ => Resolved r.

Definition offline : list Request -> Request -> FetchOutcome :=
  fun _ _ => Rejected (mkExn "TypeError" "Failed to fetch").

Definition cardiology : Department.t :=
  Department.mk "d1" "Cardiology" None (Num.of_Z 4) (Num.of_Z 10) (Num.of_Z 15) None.

Definition radiology : Department.t :=
  Department.mk "d2" "Radiology" None (Num.of_Z 10) (Num.of_Z 10) (Num.of_Z 40) None.


Definition clinic : Business.t :=
  Business.mk (JStr "b1") JUndefined "City Clinic" (Num.of_Z 4) [cardiology; radiology].


Definition closed_shop : Business.t :=
  Business.mk (JStr "b2") JUndefined "Closed Shop" (Num.of_Z 3) [].

Definition asha : User.t := User.mk "u1" "Asha" "asha@example.org" "user".

Definition world {S} (st : S) (storage : gmap string string) : World S :=
  mkWorld st storage [] [] [] [].

Definition signed_in : gmap string string := {[ "token" := "tok-1" ]}.

(** The wizard on the confirm step, Cardiology chosen, details entered. *)
Definition filled : Wizard.BookingData :=
  Wizard.mkBookingData "d1" "Asha" "9876543210" "asha@example.org" "window seat"
    JUndefined JUndefined JUndefined JUndefined JUndefined JUndefined JUndefined.

Definition on_details : Wizard.State :=
  Wizard.mkState Wizard.details (Some cardiology) false filled.

Definition on_confirm : Wizard.State :=
  Wizard.mkState Wizard.confirm (Some cardiology) false filled.

(** A booking as the backend confirms it, with its own token number. *)
Definition booking_record : JsVal :=
  JObj [ ("_id", JStr "665f1c"); ("tokenNumber", JNum (Num.of_Z 7));
         ("businessName", JStr "City Clinic"); ("departmentName", JStr "Cardiology");
         ("customerName", JStr "Asha"); ("bookedAt", JStr "2025-01-01T09:00:01.000Z") ].

Definition created : Response := mkResponse 201 "" (inr booking_record).
Definition server_error : Response :=
  mkResponse 500 "queue service down" (inl (mkExn "SyntaxError" "Unexpected token q")).
Definition unauthorized : Response :=
  mkResponse 401 "" (inr (JObj [("message", JStr "Token expired")])).

Definition profile : JsVal :=
  JObj [ ("id", JStr "u1"); ("name", JStr "Asha"); ("email", JStr "asha@example.org");
         ("role", JStr "user") ].

Definition signed_in_state : AuthContext.State :=
  AuthContext.mkState profile true false.

Definition stored_session : gmap string string :=
  <[ "user" := stringify profile ]> signed_in.

Definition login_ok : Response :=
  mkResponse 200 "" (inr (JObj [("user", profile); ("token", JStr "tok-2")])).

Definition login_without_token : Response :=
  mkResponse 200 "" (inr (JObj [("user", profile)])).

Definition profile_ok : Response := mkResponse 200 "" (inr profile).

(** A server that answers the login POST and then the profile GET. *)
Definition auth_server (login_answer : Response) : list Request -> Request -> FetchOutcome :=
  fun _ req =>
    if String.eqb (method req) "POST" then Resolved login_answer
    else Resolved profile_ok.

Definition update_ok : Response :=
  mkResponse 200 "" (inr (JObj [("phone", JStr "9876543210");
                                ("updatedAt", JStr "2025-01-02")])).

(** A profile change that carries an image file. *)
Definition change_with_image : JsVal :=
  JObj [ ("name", JStr "Asha K"); ("profileImageFile", JFile "me.png") ].

Definition change_of_phone : JsVal := JObj [ ("phone", JStr "9876543210") ].

(** A visit: the wizard opens, Cardiology is picked, Next is pressed,
    and a phone number is pasted with its punctuation. *)
Definition visit_opened : World Wizard.State :=
  world (Wizard.initial (Some asha)) signed_in.
Definition visit_picked : World Wizard.State :=
  exec (Wizard.card_onClick cardiology) visit_opened.
Definition visit_details : World Wizard.State :=
  exec (Wizard.setCurrentStep Wizard.details) visit_picked.
Definition visit_typed : World Wizard.State :=
  exec (Wizard.handlePhoneChange "(987) 654-3210") visit_details.

(** The same visit with the full number entered and Continue pressed. *)
Definition visit_entered : World Wizard.State :=
  exec (Wizard.handlePhoneChange "9876543210") visit_details.
Definition visit_confirming : World Wizard.State :=
  exec (Wizard.handleDetailsSubmit (comp visit_entered)) visit_entered.

(** A business record as the database hands it out: [_id] and no [id]. *)
Definition mongo_clinic : Business.t :=
  Business.mk JUndefined (JStr "64ab") "City Clinic" (Num.of_Z 4) [cardiology; radiology].

(** An ok answer whose body is not a booking record. *)
Definition created_bare : Response := mkResponse 201 "" (inr (JStr "ok")).

(** A server on which the login succeeds and the profile endpoint then
    answers 401 with an error body, or is unreachable. *)
Definition profile_denied_server : list Request -> Request -> FetchOutcome :=
  fun _ req =>
    if String.eqb (method req) "POST" then Resolved login_ok
    else Resolved unauthorized.

Definition profile_unreachable_server : list Request -> Request -> FetchOutcome :=
  fun _ req =>
    if String.eqb (method req) "POST" then Resolved login_ok
    else Rejected (mkExn "TypeError" "Failed to fetch").

Definition update_refused : Response :=
  mkResponse 422 "" (inr (JObj [("message", JStr "Phone already in use")])).

Definition no_content : Response :=
  mkResponse 204 "" (inl (mkExn "SyntaxError" "Unexpected end of JSON input")).

(** The user the older copy keeps after the sample login, and a parser
    that reads back what [stringify] wrote for it. *)
Definition kept_user : JsVal :=
  JObj [ ("id", JStr "u1"); ("name", JStr "Asha"); ("email", JStr "asha@example.org");
         ("role", JStr "user") ].

Definition parse (s : string) : Exn + JsVal :=
  if String.eqb s (stringify kept_user) then inr kept_user
  else inl (mkExn "SyntaxError" "Unexpected token").

(** A login answer whose user carries more than the four fields, and one
    whose user has no email. *)
Definition rich_user : list (string * JsVal) :=
  [ ("id", JStr "u1"); ("name", JStr "Asha"); ("email", JStr "asha@example.org");
    ("role", JStr "user"); ("phone", JStr "9876543210");
    ("passwordHash", JStr "$2b$10$abc") ].

Definition login_rich : Response :=
  mkResponse 200 "" (inr (JObj [("user", JObj rich_user); ("token", JStr "tok-3")])).

Definition login_no_email : Response :=
  mkResponse 200 ""
    (inr (JObj [("user", JObj [("id", JStr "u9"); ("role", JStr "business")]);
                ("token", JStr "tok-9")])).

(** What reading back the stored user of [login_no_email] gives: the
    properties that were [undefined] are not written. *)
Definition parse_bare (s : string) : Exn + JsVal :=
  inr (JObj [("id", JStr "u9"); ("role", JStr "business")]).

Definition plain_config : Axios.Config :=
  Axios.mkConfig (Some [("Accept", JStr "application/json");
                        ("Authorization", JStr "Bearer stale")])
    [("url", JStr "/queues/mine")].

Definition businesses_down : Response :=
  mkResponse 503 "" (inr (JObj [("message", JStr "maintenance")])).

(** Confirm is pressed, the header arrow closes the wizard while the
    request is out, and then the request settles with the booking. *)
Definition visit_sent (h : Host) : World Wizard.State * option Wizard.Pending :=
  Wizard.confirm_start h clinic (Some asha) (comp visit_confirming) visit_confirming.
Definition visit_closed (h : Host) : World Wizard.State :=
  exec (Wizard.handleClose (Some asha)) (fst (visit_sent h)).
Definition visit_late (h : Host) : World Wizard.State :=
  exec (Wizard.confirm_resume h
          (Wizard.mkPending cardiology (Resolved created))) (visit_closed h).

End Sample.

(* ================================================================== *)
(** * Proof support                                                     *)
(* ================================================================== *)

(** Unfolding one handler run. *)
Ltac run :=
  unfold exec, completion, bind, try_finally, try_catch, ret, throw, fetch,
    res_json, res_text, prop, getItem, setItem, removeItem, toast,
    console_error, upcall, modify; simpl.

(* ================================================================== *)
(** * Facts about objects                                               *)
(* ================================================================== *)

Module ObjFacts.

Import Obj.

Lemma get_replace k k' v o :
  has k' o = true ->
  get k (replace k' v o) = if String.eqb k k' then v else get k o.
Proof.
  induction o as [|[k0 v0] o IH]; simpl; [discriminate|].
  destruct (String.eqb_spec k' k0) as [->|Hne]; simpl.
  - intros _. destruct (String.eqb k k0); reflexivity.
  - intros Hhas. destruct (String.eqb_spec k k0) as [->|Hne'].
    + destruct (String.eqb_spec k0 k'); [congruence|reflexivity].
    + apply IH, Hhas.
Qed.

Lemma get_insert_index n k k' v o :
  has k' o = false ->
  get k (insert_index n k' v o) = if String.eqb k k' then v else get k o.
Proof.
  induction o as [|[k0 v0] o IH]; simpl.
  - intros _. destruct (String.eqb k k'); reflexivity.
  - intros Hhas. apply orb_false_elim in Hhas. destruct Hhas as [Hne Hhas].
    assert (Hstep : get k ((k', v) :: (k0, v0) :: o)
                    = if String.eqb k k' then v
                      else if String.eqb k k0 then v0 else get k o) by reflexivity.
    destruct (Str.array_index k0) as [n'|]; [|exact Hstep].
    destruct (n' <? n)%N; [|exact Hstep]. simpl.
    destruct (String.eqb_spec k k0) as [->|Hne'].
    + destruct (String.eqb_spec k0 k') as [Heq|_]; [|reflexivity].
      rewrite Heq, String.eqb_refl in Hne. discriminate.
    + apply IH, Hhas.
Qed.

Lemma get_append k k' v o :
  has k' o = false ->
  get k (o ++ [(k', v)]) = if String.eqb k k' then v else get k o.
Proof.
  induction o as [|[k0 v0] o IH]; simpl.
  - intros _. destruct (String.eqb k k'); reflexivity.
  - intros Hhas. apply orb_false_elim in Hhas. destruct Hhas as [Hne Hhas].
    destruct (String.eqb_spec k k0) as [->|Hne'].
    + destruct (String.eqb_spec k0 k') as [Heq|_]; [|reflexivity].
      rewrite Heq, String.eqb_refl in Hne. discriminate.
    + apply IH, Hhas.
Qed.

Lemma get_set k k' v o :
  get k (set k' v o) = if String.eqb k k' then v else get k o.
Proof.
  unfold set. destruct (has k' o) eqn:Hhas.
  - apply get_replace, Hhas.
  - destruct (Str.array_index k') as [n|].
    + apply get_insert_index, Hhas.
    + apply get_append, Hhas.
Qed.

Lemma get_without k o : has k o = false -> get k o = JUndefined.
Proof.
  induction o as [|[k0 v0] o IH]; simpl; [reflexivity|].
  destruct (String.eqb k k0); simpl; [discriminate|exact IH].
Qed.

Lemma get_app k o1 o2 :
  get k (o1 ++ o2) = if has k o1 then get k o1 else get k o2.
Proof.
  induction o1 as [|[k0 v0] o1 IH]; simpl; [reflexivity|].
  destruct (String.eqb k k0); simpl; [reflexivity|exact IH].
Qed.

Lemma has_app k o1 o2 : has k (o1 ++ o2) = has k o1 || has k o2.
Proof.
  induction o1 as [|[k0 v0] o1 IH]; simpl; [reflexivity|].
  rewrite IH. apply orb_assoc.
Qed.

Lemma has_rev k o : has k (rev o) = has k o.
Proof.
  induction o as [|[k0 v0] o IH]; simpl; [reflexivity|].
  rewrite has_app, IH. simpl. rewrite orb_false_r. apply orb_comm.
Qed.

(** After copying [src] onto [o], a key of [src] reads as its last
    binding in [src], and any other key reads as in [o]. *)
Lemma get_assign k src : forall o,
  get k (assign o src) = if has k src then get k (rev src) else get k o.
Proof.
  unfold assign. induction src as [|[k0 v0] src IH]; intros o; simpl; [reflexivity|].
  rewrite IH, get_set, get_app, has_rev. simpl.
  destruct (has k src); simpl.
  - rewrite orb_true_r. reflexivity.
  - rewrite orb_false_r. destruct (String.eqb k k0); reflexivity.
Qed.

(** [{...u, ...d, ...r}] read at [k]: the last of [r], [d], [u] that has
    the key decides. *)
Lemma get_spread3 k u d r :
  get k (own_props (spread3 (JObj u) (JObj d) (JObj r)))
  = if has k r then get k (rev r)
    else if has k d then get k (rev d)
    else get k (rev u).
Proof.
  simpl. rewrite !get_assign. simpl.
  destruct (has k r); [reflexivity|]. destruct (has k d); [reflexivity|].
  destruct (has k u) eqn:Hu; [reflexivity|].
  symmetry. apply get_without. rewrite has_rev. exact Hu.
Qed.

Lemma has_in_keys k o : has k o = true -> In k (map fst o).
Proof.
  induction o as [|[k0 v0] o IH]; simpl; [discriminate|].
  destruct (String.eqb_spec k k0) as [->|Hne]; simpl; auto.
Qed.

(** In an object without a repeated key the last binding of a key is
    its only one. *)
Lemma get_rev_distinct k o :
  List.NoDup (map fst o) -> get k (rev o) = get k o.
Proof.
  induction o as [|[k0 v0] o IH]; simpl; [reflexivity|].
  intros Hnd. inversion Hnd as [|? ? Hnot Hrest]; subst.
  rewrite get_app, has_rev. simpl.
  destruct (String.eqb_spec k k0) as [->|Hne].
  - destruct (has k0 o) eqn:Hh; [|reflexivity].
    exfalso. apply Hnot. apply has_in_keys. exact Hh.
  - destruct (has k o) eqn:Hh; [apply IH; exact Hrest|].
    symmetry. apply get_without. exact Hh.
Qed.

End ObjFacts.

(* ================================================================== *)
(** * Facts about numbers                                               *)
(* ================================================================== *)

Module NumFacts.

Import Num.


Lemma lt_true_ge_false x y : lt x y = true -> ge x y = false.
Proof.
  unfold ge, lt, SFltb. destruct (SFcompare x y) as [[]|]; congruence.
Qed.

(** Against a number that is not NaN, only a NaN is incomparable. *)
Lemma compare_defined x y :
  is_nan x = false -> is_nan y = false -> SFcompare x y <> None.
Proof.
  destruct x as [sx|sx| |sx mx ex], y as [sy|sy| |sy my ey]; simpl; try congruence;
    intros _ _; try destruct sx; try destruct sy; congruence.
Qed.

Lemma ge_true_not_nan x y : ge x y = true -> is_nan x = false.
Proof. destruct x; simpl; auto. Qed.

Lemma ge_or_lt x y :
  is_nan x = false -> is_nan y = false -> ge x y = true \/ lt x y = true.
Proof.
  intros Hx Hy. pose proof (compare_defined x y Hx Hy) as H.
  unfold ge, lt, SFltb. destruct (SFcompare x y) as [[]|]; auto; congruence.
Qed.

(** ** Rounding never invents a NaN *)

Lemma shr_1_nonneg mrs : (0 <= shr_m mrs)%Z -> (0 <= shr_m (shr_1 mrs))%Z.
Proof.
  destruct mrs as [m r s]. simpl. intros H.
  destruct m as [|[q|q|]|[q|q|]]; simpl; lia.
Qed.

Lemma iter_pos_shr_1_nonneg p : forall mrs,
  (0 <= shr_m mrs)%Z -> (0 <= shr_m (SpecFloat.iter_pos shr_1 p mrs))%Z.
Proof.
  induction p as [p IH|p IH|]; intros mrs H; simpl.
  - apply IH, IH, shr_1_nonneg, H.
  - apply IH, IH, H.
  - apply shr_1_nonneg, H.
Qed.

Lemma shr_record_of_loc_m m l : shr_m (shr_record_of_loc m l) = m.
Proof. destruct l as [|[]]; reflexivity. Qed.

Lemma shr_fexp_nonneg m e l :
  (0 <= m)%Z -> (0 <= shr_m (fst (shr_fexp prec emax m e l)))%Z.
Proof.
  intros H. unfold shr_fexp, shr.
  destruct (fexp prec emax (Zdigits2 m + e) - e)%Z; simpl;
    try (rewrite shr_record_of_loc_m; exact H).
  apply iter_pos_shr_1_nonneg. rewrite shr_record_of_loc_m. exact H.
Qed.

Lemma round_nearest_even_nonneg m l :
  (0 <= m)%Z -> (0 <= round_nearest_even m l)%Z.
Proof.
  intros H. unfold round_nearest_even.
  destruct l as [|[]]; try destruct (Z.even m); lia.
Qed.

Lemma binary_round_aux_not_nan sx mx ex lx :
  (0 <= mx)%Z -> is_nan (binary_round_aux prec emax sx mx ex lx) = false.
Proof.
  intros H. unfold binary_round_aux.
  pose proof (shr_fexp_nonneg mx ex lx H) as H1.
  destruct (shr_fexp prec emax mx ex lx) as [mrs' e'] eqn:E1. simpl in H1.
  pose proof (shr_fexp_nonneg _ e' loc_Exact
                (round_nearest_even_nonneg _ (loc_of_shr_record mrs') H1)) as H2.
  destruct (shr_fexp prec emax _ e' loc_Exact) as [mrs'' e''] eqn:E2. simpl in H2.
  destruct (shr_m mrs'') as [|p|p]; try reflexivity.
  - destruct (e'' <=? emax - prec)%Z; reflexivity.
  - lia.
Qed.

Lemma binary_round_not_nan sx mx ex :
  is_nan (binary_round prec emax sx mx ex) = false.
Proof.
  unfold binary_round. destruct (shl_align _ _ _) as [mz ez].
  apply binary_round_aux_not_nan. lia.
Qed.

Lemma binary_normalize_not_nan m e sz :
  is_nan (binary_normalize prec emax m e sz) = false.
Proof.
  destruct m; simpl; auto using binary_round_not_nan.
Qed.

Lemma add_not_nan x y :
  is_nan x = false -> is_finite y = true -> is_nan (add x y) = false.
Proof.
  unfold add.
  destruct x as [sx|sx| |sx mx ex], y as [sy|sy| |sy my ey]; simpl; try congruence;
    intros _ _; try (destruct sx, sy; reflexivity).
  apply binary_normalize_not_nan.
Qed.

Lemma div_not_nan x s m e :
  is_nan x = false -> is_nan (div x (S754_finite s m e)) = false.
Proof.
  unfold div. destruct x as [sx|sx| |sx mx ex]; simpl; try congruence. intros _.
  unfold SFdiv_core_binary.
  set (m' := match _ with Z0 => _ | Zpos _ => _ | Zneg _ => _ end).
  assert (Hm' : (0 <= m')%Z).
  { subst m'. destruct (_ - _ - _)%Z; try lia. apply Z.shiftl_nonneg. lia. }
  pose proof (Z_div_mod m' (Zpos m) eq_refl) as Hdm.
  destruct (Z.div_eucl m' (Zpos m)) as [q r].
  apply binary_round_aux_not_nan. nia.
Qed.

Lemma round_not_nan x : is_nan x = false -> is_nan (round x) = false.
Proof.
  destruct x as [sx|sx| |sx mx ex]; simpl; try congruence. intros _.
  destruct (0 <=? ex)%Z; [reflexivity|].
  destruct (_ / _)%Z eqn:E; try reflexivity;
    apply (binary_normalize_not_nan _ 0 false).
Qed.

(** ** Integers below [2^53] are numbers *)

Lemma digits2_pos_size p : digits2_pos p = Pos.size p.
Proof. induction p as [p IH|p IH|]; simpl; congruence. Qed.

Lemma digits2_pos_bound p :
  (Zpos p < 2 ^ 53)%Z -> (Zpos (digits2_pos p) <= 53)%Z.
Proof.
  intros H. rewrite digits2_pos_size.
  destruct (Z_le_gt_dec (Zpos (Pos.size p)) 53) as [Hle|Hgt]; [exact Hle|exfalso].
  pose proof (Pos.size_le p) as Hs.
  apply Pos2Z.pos_le_pos in Hs. rewrite Pos2Z.inj_pow in Hs.
  assert (2 ^ 54 <= 2 ^ Zpos (Pos.size p))%Z by (apply Z.pow_le_mono_r; lia).
  change (Zpos p~0) with (2 * Zpos p)%Z in Hs.
  change (2 ^ 54)%Z with (2 * 2 ^ 53)%Z in H0. lia.
Qed.

Lemma digits2_pos_iter_xO p k :
  digits2_pos (Pos.iter xO p k) = (digits2_pos p + k)%positive.
Proof.
  induction k as [|k IH] using Pos.peano_ind.
  - simpl. lia.
  - rewrite Pos.iter_succ. simpl. rewrite IH. lia.
Qed.

(** A mantissa of full width in the exponent range is left as it is. *)
Lemma binary_round_aux_exact sx m e :
  Zpos (digits2_pos m) = 53%Z -> (-1074 <= e <= 971)%Z ->
  binary_round_aux prec emax sx (Zpos m) e loc_Exact = S754_finite sx m e.
Proof.
  intros Hd He.
  assert (Hs : shr_fexp prec emax (Zpos m) e loc_Exact
               = ({| shr_m := Zpos m; shr_r := false; shr_s := false |}, e)).
  { unfold shr_fexp. simpl Zdigits2. rewrite Hd.
    unfold fexp, SpecFloat.emin, prec, emax.
    replace (Z.max (53 + e - 53) (3 - 1024 - 53) - e)%Z with 0%Z by lia.
    reflexivity. }
  unfold binary_round_aux. rewrite Hs. simpl. rewrite Hs. simpl.
  unfold prec, emax. destruct (Z.leb_spec e (1024 - 53)); [reflexivity|lia].
Qed.

Lemma of_Z_pos_finite p :
  (Zpos p < 2 ^ 53)%Z -> exists m e, of_Z (Zpos p) = S754_finite false m e.
Proof.
  intros H. pose proof (digits2_pos_bound p H) as Hd.
  unfold of_Z, binary_normalize, binary_round, shl_align.
  unfold fexp, SpecFloat.emin, prec, emax.
  replace (Z.max (Zpos (digits2_pos p) + 0 - 53) (3 - 1024 - 53))%Z
    with (Zpos (digits2_pos p) - 53)%Z by lia.
  destruct (Zpos (digits2_pos p) - 53 - 0)%Z as [|k|k] eqn:Ek; try lia.
  - eexists _, _. apply binary_round_aux_exact; lia.
  - eexists _, _. apply binary_round_aux_exact.
    + rewrite digits2_pos_iter_xO. lia.
    + lia.
Qed.

(** ** Integers below [2^53] are represented exactly *)

Lemma pos_iter_xO p k : Zpos (Pos.iter xO p k) = (Zpos p * 2 ^ Zpos k)%Z.
Proof.
  induction k as [|k IH] using Pos.peano_ind.
  - simpl. lia.
  - rewrite Pos.iter_succ. rewrite Pos2Z.inj_xO, IH.
    rewrite Pos2Z.inj_succ, Z.pow_succ_r by lia. lia.
Qed.

Lemma binary_round_exact sx p :
  (Zpos p < 2 ^ 53)%Z ->
  exists m e, binary_round prec emax sx p 0 = S754_finite sx m e
              /\ (e <= 0)%Z /\ Zpos m = (Zpos p * 2 ^ (- e))%Z.
Proof.
  intros H. pose proof (digits2_pos_bound p H) as Hd.
  unfold binary_round, shl_align.
  unfold fexp, SpecFloat.emin, prec, emax.
  replace (Z.max (Zpos (digits2_pos p) + 0 - 53) (3 - 1024 - 53))%Z
    with (Zpos (digits2_pos p) - 53)%Z by lia.
  destruct (Zpos (digits2_pos p) - 53 - 0)%Z as [|k|k] eqn:Ek; try lia.
  - exists p, 0%Z. split; [apply binary_round_aux_exact; lia|]. split; [lia|].
    simpl. lia.
  - exists (Pos.iter xO p k), (Zpos (digits2_pos p) - 53)%Z.
    split; [apply binary_round_aux_exact; [rewrite digits2_pos_iter_xO|]; lia|].
    split; [lia|]. rewrite pos_iter_xO. f_equal. f_equal. lia.
Qed.

Lemma integer_value_of_Z n :
  n <> 0%Z -> (Z.abs n < 2 ^ 53)%Z -> Words.integer_value (of_Z n) = Some n.
Proof.
  intros Hn Hb. unfold of_Z, binary_normalize.
  assert (Hval : forall sx p m e,
            (e <= 0)%Z -> Zpos m = (Zpos p * 2 ^ (- e))%Z ->
            Words.integer_value (S754_finite sx m e) = Some (cond_Zopp sx (Zpos p))).
  { intros sx p m e He Hm. unfold Words.integer_value.
    assert (Hpow : (0 < 2 ^ (- e))%Z) by (apply Z.pow_pos_nonneg; lia).
    destruct (Z.leb_spec 0 e) as [H0|H0].
    - assert (e = 0%Z) by lia. subst e. simpl in Hm. simpl.
      f_equal. f_equal. lia.
    - rewrite Hm. rewrite Z.mod_mul by lia. simpl.
      rewrite Z.div_mul by lia. reflexivity. }
  destruct n as [|p|p]; [congruence| |].
  - destruct (binary_round_exact false p Hb) as (m & e & Heq & He & Hm).
    rewrite Heq. apply (Hval false p m e He Hm).
  - assert (Hb' : (Zpos p < 2 ^ 53)%Z) by (simpl in Hb; lia).
    destruct (binary_round_exact true p Hb') as (m & e & Heq & He & Hm).
    rewrite Heq. apply (Hval true p m e He Hm).
Qed.

(** ** [Math.round] gives the nearest integer *)

Lemma round_is_nearest s m e :
  (e < 0)%Z ->
  exists n,
    Words.nearest_integer s m e n
    /\ round (S754_finite s m e) = (if (n =? 0)%Z then S754_zero s else of_Z n)
    /\ ((Zpos m < 2 ^ 53)%Z ->
        Words.integer_value (round (S754_finite s m e)) = Some n).
Proof.
  intros He. unfold round.
  destruct (Z.leb_spec 0 e) as [H0|_]; [lia|].
  set (k := (- e)%Z). set (P := (2 ^ k)%Z).
  assert (HP : (2 <= P)%Z).
  { subst P. change 2%Z with (2 ^ 1)%Z at 1. apply Z.pow_le_mono_r; lia. }
  assert (HP2 : (2 ^ (k + 1) = 2 * P)%Z).
  { subst P. rewrite Z.pow_add_r by lia. lia. }
  rewrite HP2.
  set (v := cond_Zopp s (Zpos m)).
  pose proof (Z.div_mod (2 * v + P) (2 * P) ltac:(lia)) as Hdm.
  pose proof (Z.mod_pos_bound (2 * v + P) (2 * P) ltac:(lia)) as Hmod.
  set (n := ((2 * v + P) / (2 * P))%Z) in *.
  exists n. split; [|split].
  - unfold Words.nearest_integer. fold k P v. nia.
  - destruct n; reflexivity.
  - intros Hm.
    assert (Hv : (Z.abs v = Zpos m)%Z) by (subst v; destruct s; simpl; lia).
    assert (Hn : (Z.abs n <= Zpos m)%Z) by nia.
    destruct (Z.eq_dec n 0%Z) as [Hz|Hz].
    + rewrite Hz. reflexivity.
    + replace (match n with 0%Z => S754_zero s | _ => binary_normalize prec emax n 0 false end)
        with (of_Z n) by (destruct n; [congruence|reflexivity|reflexivity]).
      apply integer_value_of_Z; [exact Hz|lia].
Qed.

End NumFacts.

(* ================================================================== *)
(** * The booking wizard: properties                                    *)
(* ================================================================== *)

Module WizardFacts.

Import Wizard.

(** ** The status label *)

Lemma label_matches_code p :
  (if Num.ge p (Num.of_Z 90) then "Full"
   else if Num.ge p (Num.of_Z 70) then "Busy"
   else if Num.ge p (Num.of_Z 30) then "Moderate"
   else "Available") = Words.label_of_percentage p.
Proof.
  unfold Words.label_of_percentage.
  destruct (Num.ge p (Num.of_Z 90)) eqn:H90; [reflexivity|].
  destruct (Num.ge p (Num.of_Z 70)) eqn:H70.
  - destruct (NumFacts.ge_or_lt p (Num.of_Z 90)) as [H|H];
      [eapply NumFacts.ge_true_not_nan; eassumption|reflexivity|congruence|].
    rewrite H. reflexivity.
  - cbn [andb]. destruct (Num.ge p (Num.of_Z 30)) eqn:H30; [|reflexivity].
    destruct (NumFacts.ge_or_lt p (Num.of_Z 70)) as [H|H];
      [eapply NumFacts.ge_true_not_nan; eassumption|reflexivity|congruence|].
    rewrite H. reflexivity.
Qed.

(** C2. The status label of a department is determined by its occupancy
    percentage [(currentQueueSize / maxQueueSize) * 100]: "Full" from 90
    up, "Busy" from 70 to below 90, "Moderate" from 30 to below 70 and
    "Available" otherwise; 8 of 10 is "Busy", 5 of 10 is "Moderate" and
    10 of 10 is "Full". *)
Theorem getDepartmentStatus_label :
  (forall dept,
     percentage dept
     = Num.mul (Num.div (Department.currentQueueSize dept)
                  (Department.maxQueueSize dept)) (Num.of_Z 100)
     /\ Badge.status (getDepartmentStatus dept)
        = Words.label_of_percentage (percentage dept))
  /\ (forall id name description wait price,
        Badge.status (getDepartmentStatus
          (Department.mk id name description (Num.of_Z 8) (Num.of_Z 10) wait price))
        = "Busy"
        /\ Badge.status (getDepartmentStatus
             (Department.mk id name description (Num.of_Z 5) (Num.of_Z 10) wait price))
           = "Moderate"
        /\ Badge.status (getDepartmentStatus
             (Department.mk id name description (Num.of_Z 10) (Num.of_Z 10) wait price))
           = "Full").
Proof.
  split.
  - intros dept. split; [reflexivity|].
    rewrite <- label_matches_code. unfold getDepartmentStatus.
    destruct (Num.ge _ (Num.of_Z 90)); [reflexivity|].
    destruct (Num.ge _ (Num.of_Z 70)); [reflexivity|].
    destruct (Num.ge _ (Num.of_Z 30)); reflexivity.
  - intros. repeat split; vm_compute; reflexivity.
Qed.

(** ** The details step *)

Lemma truthy_nonempty s : Str.truthy s = true <-> s <> "".
Proof. destruct s; simpl; split; congruence. Qed.

Lemma digits_then_end_spec s : forall n,
  Str.digits_then_end n s = true <-> String.length s = n /\ Str.all_digits s = true.
Proof.
  induction s as [|c s IH]; intros [|n]; simpl.
  - tauto.
  - split; [congruence|]. intros [H _]. discriminate H.
  - split; [congruence|]. intros [H _]. discriminate H.
  - rewrite andb_true_iff, IH, andb_true_iff.
    split; intros (H1 & H2 & H3); repeat split; congruence.
Qed.

Lemma phoneRegex_test_spec s : phoneRegex_test s = true <-> Words.ten_digits s.
Proof. apply digits_then_end_spec. Qed.

Lemma strip_all_digits s : Str.all_digits (Str.strip_non_digits s) = true.
Proof.
  induction s as [|c s IH]; simpl; [reflexivity|].
  destruct (Str.is_digit c) eqn:E; simpl; [rewrite E|]; exact IH.
Qed.

Lemma strip_keeps_the_digits s :
  list_ascii_of_string (Str.strip_non_digits s)
  = List.filter Str.is_digit (list_ascii_of_string s).
Proof.
  induction s as [|c s IH]; simpl; [reflexivity|].
  destruct (Str.is_digit c); simpl; congruence.
Qed.

(** C3. On the details step the handler of "Continue" moves the wizard
    to the confirm step exactly when the name is not empty, the phone is
    not empty and the phone is ten digits; when it does not, the state is
    as before and one error notification has been raised.  The phone
    field only ever receives its input with every non-digit removed. *)
Theorem handleDetailsSubmit_advances_iff (w : World State) :
  currentStep (comp w) = details ->
  let st := comp w in
  let w' := exec (handleDetailsSubmit st) w in
  (currentStep (comp w') = confirm
   <-> customerName (bookingData st) <> ""
       /\ customerPhone (bookingData st) <> ""
       /\ Words.ten_digits (customerPhone (bookingData st)))
  /\ (currentStep (comp w') <> confirm ->
      comp w' = comp w /\ exists msg, toasts w' = toasts w ++ [ToastError msg])
  /\ (forall typed,
        let value := Str.strip_non_digits typed in
        Str.all_digits value = true
        /\ list_ascii_of_string value
           = List.filter Str.is_digit (list_ascii_of_string typed)
        /\ customerPhone (bookingData (comp (exec (handlePhoneChange typed) w)))
           = if (String.length value <=? 10)%nat then value
             else customerPhone (bookingData st)).
Proof.
  intros Hstep st w'. subst st w'.
  split; [|split].
  3:{ intros typed value. subst value. split; [apply strip_all_digits|].
      split; [apply strip_keeps_the_digits|].
      unfold handlePhoneChange. destruct (_ <=? _)%nat; reflexivity. }
  all: unfold handleDetailsSubmit;
    pose proof (truthy_nonempty (customerName (bookingData (comp w)))) as Hn;
    pose proof (truthy_nonempty (customerPhone (bookingData (comp w)))) as Hp;
    pose proof (phoneRegex_test_spec (customerPhone (bookingData (comp w)))) as Hr;
    destruct (Str.truthy (customerName _));
    destruct (Str.truthy (customerPhone _));
    destruct (phoneRegex_test _); simpl; rewrite ?Hstep.
  all: try (split; [discriminate|]; intros (H1 & H2 & H3);
            first [apply Hn in H1; discriminate H1
                  |apply Hp in H2; discriminate H2
                  |apply Hr in H3; discriminate H3]).
  all: try (intros _; split; [reflexivity|eauto]).
  - split; [|reflexivity]. intros _.
    split; [apply Hn; reflexivity|].
    split; [apply Hp; reflexivity|apply Hr; reflexivity].
  - congruence.
Qed.

Lemma handleDetailsSubmit_advances_iff_witness :
  currentStep (comp (exec (handleDetailsSubmit Sample.on_details)
                       (Sample.world Sample.on_details Sample.signed_in))) = confirm.
Proof.
  apply (handleDetailsSubmit_advances_iff
           (Sample.world Sample.on_details Sample.signed_in) eq_refl).
  repeat split; discriminate.
Defined.

(** ** Closing the wizard *)

Lemma or_else_empty s : Str.or_else s "" = s.
Proof. destruct s; reflexivity. Qed.

(** C6. Closing the wizard puts it back on the departments step with no
    department selected and a booking record in which the department id,
    the phone and the notes are empty, no token number, wait estimate,
    booking id, QR payload or timestamp is present, and the name and the
    email are those of the session user, or empty without one. *)
Theorem handleClose_resets (user : option User.t) (w : World State) :
  let w' := exec (handleClose user) w in
  currentStep (comp w') = departments
  /\ selectedDepartment (comp w') = None
  /\ bookingData (comp w') = bookingData (initial user)
  /\ bookingData (comp w')
     = {| departmentId := "";
          customerName := match user with Some u => User.name u | None => "" end;
          customerPhone := "";
          customerEmail := match user with Some u => User.email u | None => "" end;
          notes := "";
          tokenNumber := JUndefined; estimatedWaitTime := JUndefined;
          bookingId := JUndefined; qrCode := JUndefined; bookedAt := JUndefined;
          businessName := JUndefined; departmentName := JUndefined |}
  /\ upcalls w' = upcalls w ++ ["onClose"].
Proof.
  simpl. repeat split.
  unfold fresh_bookingData, seed_name, seed_email.
  destruct user as [u|]; [|reflexivity]. rewrite !or_else_empty. reflexivity.
Qed.

(** ** Confirming a booking *)

(** C4. When a submission from the confirm step fails, the wizard is
    still on the confirm step, the loading flag is off, the department and
    the entered fields are as they were, at most the one request of the
    attempt has been sent, and one error notification has been raised. *)
Theorem failed_booking_stays_on_confirm (h : Host) (business : Business.t)
    (u : User.t) (dept : Department.t) (w : World State) :
  currentStep (comp w) = confirm ->
  selectedDepartment (comp w) = Some dept ->
  Words.submission_fails h business dept w ->
  let w' := exec (handleConfirmBooking h business (Some u) (comp w)) w in
  currentStep (comp w') = confirm
  /\ isLoading (comp w') = false
  /\ selectedDepartment (comp w') = Some dept
  /\ bookingData (comp w') = bookingData (comp w)
  /\ (sent w' = sent w \/ sent w' = sent w ++ [Words.confirm_request h business dept w])
  /\ exists msg, toasts w' = toasts w ++ [ToastError msg].
Proof.
  intros Hstep Hsel Hfail w'. subst w'.
  unfold handleConfirmBooking. rewrite Hsel.
  destruct Hfail as [Hid|e Hid Hsrv|r Hid Hsrv Hok|r e Hid Hsrv Hok Hbody
                    |r Hid Hsrv Hok Hbody];
    unfold Words.confirm_request in *; run; rewrite Hid; simpl;
    try (rewrite Hsrv; simpl);
    try (rewrite Hok; simpl); try (rewrite Hbody; simpl);
    rewrite ?Hstep, ?Hsel; unfold Words.confirm_request; eauto 10.
Qed.

Lemma failed_booking_stays_on_confirm_witness :
  let h := Sample.host (Sample.answers Sample.server_error) in
  let w := Sample.world Sample.on_confirm Sample.signed_in in
  let w' := exec (handleConfirmBooking h Sample.clinic (Some Sample.asha) (comp w)) w in
  currentStep (comp w') = confirm /\ isLoading (comp w') = false.
Proof.
  intros h w w'.
  assert (Hfail : Words.submission_fails h Sample.clinic Sample.cardiology w).
  { apply (Words.fails_not_ok _ _ _ _ Sample.server_error); reflexivity. }
  pose proof (failed_booking_stays_on_confirm h Sample.clinic Sample.asha
                Sample.cardiology w eq_refl eq_refl Hfail) as H.
  split; apply H.
Defined.

(** What a confirmed booking leaves in the wizard. *)
Lemma confirmed_booking_state (h : Host) (business : Business.t) (u : User.t)
    (dept : Department.t) (w : World State) (r : Response) (o : list (string * JsVal)) :
  selectedDepartment (comp w) = Some dept ->
  truthy (js_or (Business.id business) (Business._id business)) = true ->
  server h (sent w) (Words.confirm_request h business dept w) = Resolved r ->
  ok r = true ->
  body_json r = inr (JObj o) ->
  let w' := exec (handleConfirmBooking h business (Some u) (comp w)) w in
  currentStep (comp w') = success
  /\ isLoading (comp w') = false
  /\ tokenNumber (bookingData (comp w')) = JNum (Num.of_Z 1)
  /\ success_token (comp w') = Some (JNum (Num.of_Z 1))
  /\ bookingId (bookingData (comp w')) = Obj.get "_id" o
  /\ qrCode (bookingData (comp w'))
     = JStr (JSON_stringify h
               (qr_object h (Obj.get "_id" o) (Obj.get "businessName" o)
                  (Obj.get "departmentName" o) (Obj.get "customerName" o)
                  (Obj.get "bookedAt" o))).
Proof.
  intros Hsel Hid Hsrv Hok Hbody w'. subst w'.
  unfold handleConfirmBooking. rewrite Hsel.
  unfold Words.confirm_request in *; run. rewrite Hid. simpl.
  rewrite Hsrv. simpl. rewrite Hok. simpl. rewrite Hbody. simpl.
  unfold success_token. simpl. repeat split.
Qed.

(** C1 (the code departs from it). A booking the backend confirms with
    its own token number moves the wizard to the success step, but the
    token number stored and rendered there is the literal 1: it is neither
    the number in the response nor the [currentQueueSize + 1] shown on the
    confirm step, while the QR payload built from the same response
    carries the booking id as its token number. *)
Theorem confirmed_booking_token_is_literal_one :
  let h := Sample.host (Sample.answers Sample.created) in
  let w := Sample.world Sample.on_confirm Sample.signed_in in
  let w' := exec (handleConfirmBooking h Sample.clinic (Some Sample.asha) (comp w)) w in
  currentStep (comp w') = success
  /\ Obj.get "tokenNumber" (own_props Sample.booking_record) = JNum (Num.of_Z 7)
  /\ tokenNumber (bookingData (comp w')) = JNum (Num.of_Z 1)
  /\ success_token (comp w') = Some (JNum (Num.of_Z 1))
  /\ token_guess Sample.cardiology = Num.of_Z 5
  /\ qrCode (bookingData (comp w'))
     = JStr (JSON_stringify h
               (qr_object h (JStr "665f1c") (JStr "City Clinic") (JStr "Cardiology")
                  (JStr "Asha") (JStr "2025-01-01T09:00:01.000Z")))
  /\ Num.of_Z 1 <> Num.of_Z 7.
Proof.
  intros h w w'.
  pose proof (confirmed_booking_state h Sample.clinic Sample.asha Sample.cardiology w
                Sample.created _ eq_refl eq_refl eq_refl eq_refl eq_refl) as H.
  fold w' in H. destruct H as (H1 & _ & H3 & H4 & _ & H6).
  repeat split; try assumption; try reflexivity.
  vm_compute. discriminate.
Qed.

(** ** The two parts of a confirmation *)

(** Run one after the other, the two parts are the handler. *)
Lemma handleConfirmBooking_in_two_parts h business user st (w : World State) :
  handleConfirmBooking h business user st w
  = match confirm_start h business user st w with
    | (w1, Some p) => confirm_resume h p w1
    | (w1, None) => (inr tt, w1)
    end.
Proof.
  unfold handleConfirmBooking, confirm_start, confirm_resume.
  destruct (selectedDepartment st); [|reflexivity].
  destruct user; [|reflexivity]. run.
  destruct (truthy (js_or _ _)); simpl; [|reflexivity].
  unfold settle. simpl.
  destruct (server _ _ _) as [e|r]; simpl; [reflexivity|].
  destruct (ok r); simpl; [|reflexivity].
  destruct (body_json r) as [e|[]]; reflexivity.
Qed.

(** The first part touches the loading flag, the log of requests, the
    notifications and the console, and nothing else. *)
Lemma confirm_start_keeps h business user (w : World State) :
  let w1 := fst (confirm_start h business user (comp w) w) in
  currentStep (comp w1) = currentStep (comp w)
  /\ selectedDepartment (comp w1) = selectedDepartment (comp w)
  /\ bookingData (comp w1) = bookingData (comp w).
Proof.
  unfold confirm_start.
  destruct (selectedDepartment (comp w)) eqn:Hsel; [|simpl; rewrite ?Hsel; auto].
  destruct user; [|simpl; rewrite ?Hsel; auto]. run.
  destruct (truthy (js_or _ _)); simpl; rewrite ?Hsel; auto.
Qed.

(** The second part keeps the selection and what was typed; it either
    leaves the step and the booking record alone or moves to success with
    token number 1. *)
Lemma confirm_resume_keeps h p (w : World State) :
  let w' := exec (confirm_resume h p) w in
  selectedDepartment (comp w') = selectedDepartment (comp w)
  /\ departmentId (bookingData (comp w')) = departmentId (bookingData (comp w))
  /\ customerName (bookingData (comp w')) = customerName (bookingData (comp w))
  /\ customerPhone (bookingData (comp w')) = customerPhone (bookingData (comp w))
  /\ ((currentStep (comp w') = currentStep (comp w)
       /\ bookingData (comp w') = bookingData (comp w))
      \/ (currentStep (comp w') = success
          /\ tokenNumber (bookingData (comp w')) = JNum (Num.of_Z 1))).
Proof.
  unfold confirm_resume, settle. run.
  destruct (pending_outcome p) as [e|r]; simpl; [auto 10|].
  destruct (ok r); simpl; [|auto 10].
  destruct (body_json r) as [e|[]]; simpl; auto 10.
Qed.

(** ** Selecting a department *)

(** Confirming never touches the selection. *)
Lemma handleConfirmBooking_selection h business user st (w : World State) :
  selectedDepartment (comp (exec (handleConfirmBooking h business user st) w))
  = selectedDepartment (comp w).
Proof.
  unfold handleConfirmBooking.
  destruct (selectedDepartment st); [|reflexivity].
  destruct user; [|reflexivity]. run.
  destruct (truthy (js_or _ _)); simpl; [|reflexivity].
  destruct (server _ _ _) as [e|r]; simpl; [reflexivity|].
  destruct (ok r); simpl; [|reflexivity].
  destruct (body_json r) as [e|[]]; reflexivity.
Qed.






(** One more transition from a reachable configuration. *)
Lemma reachable_next h business user control w ps w' ps' :
  reachable_config h business user (w, ps) ->
  step h business user control (w, ps) (w', ps') ->
  reachable_config h business user (w', ps').
Proof. intros Hr Hs. eapply reachable_step; eassumption. Qed.




(** ** The average wait *)

Lemma fold_left_sum_from (l : list Department.t) acc :
  fold_left (fun total dept => Num.add total (Department.estimatedWaitTime dept)) l acc
  = Words.sum_from acc (map Department.estimatedWaitTime l).
Proof.
  revert acc. induction l as [|d l IH]; intros acc; simpl; [reflexivity|apply IH].
Qed.

Lemma sum_from_not_nan (l : list spec_float) : forall acc,
  Num.is_nan acc = false ->
  Forall (fun x => Num.is_finite x = true) l ->
  Num.is_nan (Words.sum_from acc l) = false.
Proof.
  induction l as [|x l IH]; intros acc Hacc Hall; simpl; [exact Hacc|].
  inversion Hall; subst. apply IH; [|assumption].
  apply NumFacts.add_not_nan; assumption.
Qed.

(** C10. The average wait shown is the rounded quotient of the sum of
    the departments' wait times by the number of departments.  With no
    department it is NaN (0 divided by 0); with at least one department,
    fewer than 2^32 of them as in any array, and finite wait times, it is
    a number.  Rounded means: a quotient [q] that is zero, infinite, NaN or
    has no binary digit after the point is shown as it is; any other
    quotient [(-1)^s * m * 2^e] is replaced by the integer [n] nearest to
    it, the upper one on a tie ([q - 1/2 < n <= q + 1/2]), written as [n]
    or, when [n] is 0, as the zero of [q]'s sign; read back as an integer,
    the value shown is [n]. *)
Theorem averageWaitTime_defined (business : Business.t) :
  let waits := map Department.estimatedWaitTime (Business.departments business) in
  averageWaitTime business = Words.rounded_mean waits
  /\ (Business.departments business = [] ->
      Num.div (Words.sum_from (Num.of_Z 0) waits) (Num.of_Z (Z.of_nat (length waits)))
      = Num.div (Num.of_Z 0) (Num.of_Z 0)
      /\ averageWaitTime business = S754_nan)
  /\ (Business.departments business <> [] ->
      (Z.of_nat (length (Business.departments business)) < 2 ^ 32)%Z ->
      Forall (fun x => Num.is_finite x = true) waits ->
      Num.is_nan (averageWaitTime business) = false)
  /\ match Num.div (Words.sum_from (Num.of_Z 0) waits)
                   (Num.of_Z (Z.of_nat (length waits))) with
     | S754_finite s m e =>
         if (0 <=? e)%Z
         then averageWaitTime business = S754_finite s m e
         else exists n,
             Words.nearest_integer s m e n
             /\ averageWaitTime business
                = (if (n =? 0)%Z then S754_zero s else Num.of_Z n)
             /\ ((Zpos m < 2 ^ 53)%Z ->
                 Words.integer_value (averageWaitTime business) = Some n)
     | q => averageWaitTime business = q
     end.
Proof.
  intros waits. subst waits.
  assert (Heq : averageWaitTime business
                = Words.rounded_mean
                    (map Department.estimatedWaitTime (Business.departments business))).
  { unfold averageWaitTime, Words.rounded_mean.
    rewrite fold_left_sum_from, length_map. reflexivity. }
  split; [exact Heq|]. split; [|split].
  - intros Hnil. rewrite Heq, Hnil. split; reflexivity.
  - intros Hne Hlen Hfin. rewrite Heq. unfold Words.rounded_mean.
    apply NumFacts.round_not_nan.
    rewrite length_map.
    destruct (Business.departments business) as [|d l] eqn:Hd; [congruence|].
    destruct (Z.of_nat (length (d :: l))) as [|p|p] eqn:Hp;
      [simpl in Hp; lia| |simpl in Hp; lia].
    destruct (NumFacts.of_Z_pos_finite p) as (m & e & Hf); [lia|].
    rewrite Hf. apply NumFacts.div_not_nan.
    apply sum_from_not_nan; [reflexivity|exact Hfin].
  - rewrite Heq. unfold Words.rounded_mean.
    destruct (Num.div _ _) as [s|s| |s m e] eqn:Hq; try reflexivity.
    destruct (Z.leb_spec 0 e) as [He|He].
    + unfold Num.round. destruct (Z.leb_spec 0 e); [reflexivity|lia].
    + destruct (NumFacts.round_is_nearest s m e He) as (n & Hn & Hr & Hi).
      exists n. auto.
Qed.

(** With no department the average is NaN; waits of 15 and 40 minutes
    have the quotient 27.5 and the average shown is the integer 28. *)
Lemma averageWaitTime_defined_witness :
  averageWaitTime Sample.closed_shop = S754_nan
  /\ Num.is_nan (averageWaitTime Sample.clinic) = false
  /\ Words.integer_value (averageWaitTime Sample.clinic) = Some 28%Z.
Proof.
  split; [|split].
  - pose proof (averageWaitTime_defined Sample.closed_shop) as H.
    cbv zeta in H. destruct H as (_ & Hnil & _).
    apply Hnil. reflexivity.
  - pose proof (averageWaitTime_defined Sample.clinic) as H.
    cbv zeta in H. destruct H as (_ & _ & Hsome & _).
    apply Hsome.
    + discriminate.
    + simpl. lia.
    + repeat constructor.
  - pose proof (averageWaitTime_defined Sample.clinic) as H.
    cbv zeta in H. destruct H as (_ & _ & _ & H).
    assert (Hq : Num.div
                   (Words.sum_from (Num.of_Z 0)
                      (map Department.estimatedWaitTime
                         (Business.departments Sample.clinic)))
                   (Num.of_Z (Z.of_nat (length
                      (map Department.estimatedWaitTime
                         (Business.departments Sample.clinic)))))
                 = S754_finite false 7740561859543040 (-48))
      by (vm_compute; reflexivity).
    rewrite Hq in H. change (0 <=? -48)%Z with false in H.
    destruct H as (n & (Hlo & Hhi) & _ & Hint).
    change (2 ^ (- -48))%Z with 281474976710656%Z in Hlo, Hhi.
    change (cond_Zopp false 7740561859543040) with 7740561859543040%Z in Hlo, Hhi.
    assert (Hn : n = 28%Z) by lia.
    rewrite <- Hn. apply Hint. reflexivity.
Defined.

(** Waits of 15 and 40 minutes average to 27.5, shown as 28. *)
Example averageWaitTime_clinic : averageWaitTime Sample.clinic = Num.of_Z 28.
Proof. vm_compute. reflexivity. Qed.

End WizardFacts.

(* ================================================================== *)
(** * The session context: properties                                   *)
(* ================================================================== *)

Module AuthFacts.

Import AuthContext.

Lemma token_truthy_spec (token : option string) :
  token_truthy token = true <-> exists t, token = Some t /\ t <> "".
Proof.
  destruct token as [[|c t]|]; simpl; split;
    try discriminate; try (intros (t' & [= <-] & H); congruence);
    try (intros (t' & H & _); discriminate H).
  intros _. eexists; split; [reflexivity|discriminate].
Qed.

(** C5. When the provider mounts with a persisted token for which the
    profile fetch does not resolve successfully, it ends with no user, not
    authenticated, and with neither the token nor the user in storage;
    without a persisted token it ends with no user and not authenticated;
    and in every case the loading flag ends false. *)
Theorem mount_effect_resume (h : Host) (w : World State) :
  let w' := exec (mount_effect h) w in
  isLoading (comp w') = false
  /\ (localStorage w !! "token" = None ->
      user (comp w') = JNull /\ isAuthenticated (comp w') = false)
  /\ (token_truthy (localStorage w !! "token") = false ->
      user (comp w') = JNull /\ isAuthenticated (comp w') = false
      /\ localStorage w' = localStorage w /\ sent w' = sent w)
  /\ (forall t, localStorage w !! "token" = Some t -> t <> "" ->
      Words.profile_fetch_fails h w ->
      user (comp w') = JNull /\ isAuthenticated (comp w') = false
      /\ localStorage w' !! "token" = None
      /\ localStorage w' !! "user" = None).
Proof.
  intros w'. subst w'. unfold mount_effect, Words.profile_fetch_fails. run.
  destruct (token_truthy (localStorage w !! "token")) eqn:Htok.
  - apply token_truthy_spec in Htok. destruct Htok as (t & Ht & Hne).
    rewrite Ht. simpl.
    assert (Hgone : forall m : gmap string string,
              delete "token" (delete "user" m) !! "token" = None
              /\ delete "token" (delete "user" m) !! "user" = None).
    { intros m. split; [apply lookup_delete_eq|].
      rewrite lookup_delete_ne by discriminate. apply lookup_delete_eq. }
    destruct (server _ _ _) as [e|r]; simpl.
    + repeat split; try discriminate; try apply Hgone.
    + destruct (ok r) eqn:Hok; simpl.
      * destruct (body_json r) as [e|profile] eqn:Hbody; simpl.
        -- repeat split; try discriminate; try apply Hgone.
        -- split; [reflexivity|]. split; [discriminate|]. split; [discriminate|].
           intros t' _ _ [Hf|[e He]]; congruence.
      * repeat split; try discriminate; try apply Hgone.
  - simpl. split; [reflexivity|]. split; [intros _; split; reflexivity|].
    split; [intros _; repeat split|].
    intros t' Ht' Hne'. exfalso.
    assert (token_truthy (localStorage w !! "token") = true)
      by (apply token_truthy_spec; eauto).
    congruence.
Qed.

Lemma mount_effect_resume_witness :
  let h := Sample.host (Sample.answers Sample.unauthorized) in
  let w := Sample.world initial Sample.stored_session in
  let w' := exec (mount_effect h) w in
  isAuthenticated (comp w') = false
  /\ localStorage w' !! "token" = None
  /\ localStorage w' !! "user" = None.
Proof.
  intros h w w'.
  assert (Hfail : Words.profile_fetch_fails h w) by (left; reflexivity).
  assert (Htok : localStorage w !! "token" = Some "tok-1") by reflexivity.
  assert (Hne : "tok-1" <> "") by discriminate.
  pose proof (proj2 (proj2 (proj2 (mount_effect_resume h w))) "tok-1" Htok Hne Hfail)
    as H.
  split; [apply H|]. split; apply H.
Defined.

(** ** Signing in *)

(** Closes a case in which [login] throws before it stores anything. *)
Ltac rejects Hbody :=
  split; [eexists; reflexivity|];
  split; [intros; discriminate|];
  split; [intros r' [= <-] _; eauto
         |intros r' data' [= <-] Hv Hb; exfalso;
          rewrite Hbody in Hv, Hb;
          repeat match goal with
                 | H : ok _ = _ |- _ => rewrite H in Hv
                 | H : truthy _ = _ |- _ => rewrite H in Hv
                 | H : Obj.get _ _ = _ |- _ => rewrite H in Hv
                 end;
          try (destruct (ok r')); simpl in Hv;
          first [discriminate Hv | discriminate Hb
                | injection Hb as <-;
                  repeat match goal with
                         | H : truthy _ = _ |- _ => rewrite H in Hv
                         | H : Obj.get _ _ = _ |- _ => rewrite H in Hv
                         end; simpl in Hv; discriminate Hv]].

(** C8. [login] posts the credentials to the business endpoint when the
    role is "business" and to the user endpoint otherwise.  It throws when
    the request is rejected, when the response is not successful, and when
    the response lacks a user record, a token, or a role on the user, and
    in each of these cases storage and the in-memory state are as before.
    On a valid response it stores the token; once the profile that it
    then fetches has been read, it stores that user record, holds it in
    memory, sets [isAuthenticated], and returns the user and the token. *)
Theorem login_contract (h : Host) (email password role : string) (w : World State) :
  let req := login_request h email password role in
  let w' := exec (login h email password role) w in
  let result := completion (login h email password role) w in
  url req = (if String.eqb role "business"
             then VITE_API_URL h +:+ "/api/businesses/login"
             else VITE_API_URL h +:+ "/api/auth/login")
  /\ method req = "POST"
  /\ body req = TextBody (JSON_stringify h
                   (JObj [("email", JStr email); ("password", JStr password);
                          ("role", JStr role)]))
  /\ (exists rest, sent w' = sent w ++ req :: rest)
  /\ (forall e, server h (sent w) req = Rejected e ->
      result = inl e /\ localStorage w' = localStorage w /\ comp w' = comp w)
  /\ (forall r, server h (sent w) req = Resolved r ->
      Words.login_response_valid r = false ->
      (exists e, result = inl e)
      /\ localStorage w' = localStorage w /\ comp w' = comp w)
  /\ (forall r data, server h (sent w) req = Resolved r ->
      Words.login_response_valid r = true ->
      body_json r = inr (JObj data) ->
      let token := Obj.get "token" data in
      localStorage w' !! "token" = Some (to_string h token)
      /\ forall pr profile,
           server h (sent w ++ [req])
             (profile_request h ("Bearer " +:+ to_string h token)) = Resolved pr ->
           body_json pr = inr profile ->
           localStorage w'
           = <["user" := JSON_stringify h profile]>
               (<["token" := to_string h token]> (localStorage w))
           /\ user (comp w') = profile
           /\ isAuthenticated (comp w') = true
           /\ result = inr (JObj [("user", profile); ("token", token)])).
Proof.
  intros req w' result. subst req w' result.
  split; [reflexivity|]. split; [reflexivity|]. split; [reflexivity|].
  unfold Words.login_response_valid, login, invalid_login. run.
  destruct (server h (sent w) (login_request h email password role)) as [e|r]; simpl.
  { split; [eexists; reflexivity|].
    split; [intros e' [= <-]; auto|]. split; intros; discriminate. }
  destruct (body_json r) as [e|data] eqn:Hbody; simpl.
  { rejects Hbody. }
  destruct (ok r) eqn:Hok; simpl.
  2:{ destruct data; simpl; rejects Hbody. }
  destruct data as [| |b|x|s|o|a|f]; simpl; try rejects Hbody.
  destruct (truthy (Obj.get "user" o)) eqn:Huser; simpl.
  2:{ rejects Hbody. }
  destruct (truthy (Obj.get "token" o)) eqn:Htoken; simpl.
  2:{ rejects Hbody. }
  destruct (Obj.get "user" o) as [| |b|x|s|u|a|f] eqn:Hu; simpl;
    try discriminate Huser; try rejects Hbody.
  destruct (truthy (Obj.get "role" u)) eqn:Hrole; simpl.
  2:{ rejects Hbody. }
  assert (Hvalid : forall r' data', Resolved r = Resolved r' ->
            body_json r' = inr (JObj data') -> data' = o).
  { intros r' data' [= <-] Hb. rewrite Hbody in Hb. congruence. }
  destruct (server h _ _) as [e|pr] eqn:Hprofile; simpl.
  { split; [eexists; rewrite <- app_assoc; reflexivity|]. split; [intros; discriminate|].
    split.
    - intros r' [= <-] Hv. exfalso. rewrite Hbody, Hok, Hu, Htoken, Hrole in Hv.
      discriminate Hv.
    - intros r' data' Hr _ Hb. rewrite (Hvalid r' data' Hr Hb).
      split; [apply lookup_insert_eq|].
      intros pr profile Hpr. rewrite Hprofile in Hpr. discriminate. }
  destruct (body_json pr) as [e|profile] eqn:Hpbody; simpl.
  { split; [eexists; rewrite <- app_assoc; reflexivity|]. split; [intros; discriminate|].
    split.
    - intros r' [= <-] Hv. exfalso. rewrite Hbody, Hok, Hu, Htoken, Hrole in Hv.
      discriminate Hv.
    - intros r' data' Hr _ Hb. rewrite (Hvalid r' data' Hr Hb).
      split; [apply lookup_insert_eq|].
      intros pr' profile' Hpr. rewrite Hprofile in Hpr.
      injection Hpr as <-. congruence. }
  split; [eexists; rewrite <- app_assoc; reflexivity|]. split; [intros; discriminate|].
  split.
  - intros r' [= <-] Hv. exfalso. rewrite Hbody, Hok, Hu, Htoken, Hrole in Hv.
    discriminate Hv.
  - intros r' data' Hr _ Hb. rewrite (Hvalid r' data' Hr Hb). split.
    { rewrite lookup_insert_ne by discriminate. apply lookup_insert_eq. }
    intros pr' profile' Hpr. rewrite Hprofile in Hpr. injection Hpr as <-.
    rewrite Hpbody. intros [= <-]. repeat split.
Qed.

Lemma login_contract_witness :
  let w := Sample.world initial (∅ : gmap string string) in
  (let h := Sample.host (Sample.auth_server Sample.login_ok) in
   let w' := exec (login h "asha@example.org" "pw" "user") w in
   localStorage w' !! "token" = Some "tok-2"
   /\ user (comp w') = Sample.profile
   /\ isAuthenticated (comp w') = true)
  /\ (let h := Sample.host (Sample.auth_server Sample.login_without_token) in
      let w' := exec (login h "asha@example.org" "pw" "user") w in
      localStorage w' = localStorage w /\ comp w' = comp w).
Proof.
  intros w. split.
  - intros h w'.
    destruct (login_contract h "asha@example.org" "pw" "user" w)
      as (_ & _ & _ & _ & _ & _ & Hvalid).
    destruct (Hvalid Sample.login_ok _ eq_refl eq_refl eq_refl) as [Htok Hrest].
    destruct (Hrest Sample.profile_ok Sample.profile eq_refl eq_refl)
      as (_ & Huser & Hauth & _).
    split; [exact Htok|]. split; assumption.
  - intros h w'.
    destruct (login_contract h "asha@example.org" "pw" "user" w)
      as (_ & _ & _ & _ & _ & Hinvalid & _).
    apply (Hinvalid Sample.login_without_token eq_refl eq_refl).
Defined.

(** ** Updating the profile *)

(** The older copy never reaches [setUser]: whatever the answer, the
    state and storage are as before and the call throws. *)
Lemma legacy_updateProfile_changes_nothing (h : Host) (data : JsVal) (w : World State) :
  comp (exec (AuthContextLegacy.updateProfile h data) w) = comp w
  /\ localStorage (exec (AuthContextLegacy.updateProfile h data) w) = localStorage w
  /\ exists e, completion (AuthContextLegacy.updateProfile h data) w = inl e.
Proof.
  unfold AuthContextLegacy.updateProfile. run.
  destruct (token_truthy _); simpl; [|eauto].
  destruct data as [| |b|x|s|o|a|f]; simpl; eauto;
    try (destruct (server _ _ _) as [e|r]; simpl; eauto;
         destruct (ok r); simpl; eauto;
         destruct (body_json r); simpl; eauto).
  destruct (truthy (Obj.get "profileImageFile" o)); simpl.
  - destruct (server _ _ _) as [e|r]; simpl; eauto.
  - destruct (server _ _ _) as [e|r]; simpl; eauto.
    destruct (ok r); simpl; eauto. destruct (body_json r); simpl; eauto.
Qed.

(** C9 (the older copy departs from it).  A session token is stored and
    the server answers the update with 200 and the changed fields.  The
    older copy's [updateProfile] sends what C9 describes, a JSON PUT for a
    change of phone and a multipart PUT for a change that carries an image
    file, and then stops on the ReferenceError of [updatedUser], a name it
    assigns and reads but never declares: the user record in memory and in
    storage is the one from before, without the new phone.  On the same
    change of phone the context's [updateProfile] completes and merges the
    answer into both. *)
Theorem legacy_updateProfile_never_merges :
  let h := Sample.host (Sample.answers Sample.update_ok) in
  let w := Sample.world Sample.signed_in_state Sample.stored_session in
  let w1 := exec (updateProfile h (comp w) Sample.change_of_phone) w in
  let w2 := exec (AuthContextLegacy.updateProfile h Sample.change_of_phone) w in
  let w3 := exec (AuthContextLegacy.updateProfile h Sample.change_with_image) w in
  token_truthy (localStorage w !! "token") = true
  /\ ok Sample.update_ok = true
  /\ (map body (sent w2) = [TextBody (JSON_stringify h Sample.change_of_phone)]
      /\ completion (AuthContextLegacy.updateProfile h Sample.change_of_phone) w
         = inl (unresolved_reference_error h "updatedUser")
      /\ user (comp w2) = user (comp w)
      /\ localStorage w2 = localStorage w
      /\ Obj.get "phone" (own_props (user (comp w2))) = JUndefined)
  /\ (map body (sent w3)
      = [FormBody [("name", JStr "Asha K"); ("profileImage", JFile "me.png")]]
      /\ completion (AuthContextLegacy.updateProfile h Sample.change_with_image) w
         = inl (unresolved_reference_error h "updatedUser")
      /\ user (comp w3) = user (comp w)
      /\ localStorage w3 = localStorage w)
  /\ (completion (updateProfile h (comp w) Sample.change_of_phone) w = inr tt
      /\ map body (sent w1) = [TextBody (JSON_stringify h Sample.change_of_phone)]
      /\ Obj.get "phone" (own_props (user (comp w1))) = JStr "9876543210"
      /\ Obj.get "updatedAt" (own_props (user (comp w1))) = JStr "2025-01-02"
      /\ Obj.get "name" (own_props (user (comp w1))) = JStr "Asha"
      /\ localStorage w1 !! "user" = Some (JSON_stringify h (user (comp w1)))).
Proof.
  intros h w w1 w2 w3.
  repeat split; reflexivity.
Qed.

(** What the two copies of [updateProfile] do on any input.  Without a
    stored session token [updateProfile] throws
    "Not authenticated", sends nothing and changes nothing, in both copies
    of the context.  With a token, the context sends the change as one
    JSON PUT to the profile endpoint and, on a successful response, puts
    [{...user, ...data, ...result}] in memory and in storage; the older
    copy sends a multipart PUT when the change includes an image file and
    the JSON PUT otherwise. *)
Lemma updateProfile_contract (h : Host) (st : State) (data : JsVal) (w : World State) :
  let token := localStorage w !! "token" in
  let w1 := exec (updateProfile h st data) w in
  let w2 := exec (AuthContextLegacy.updateProfile h data) w in
  (token_truthy token = false ->
     completion (updateProfile h st data) w = inl (Error "Not authenticated")
     /\ w1 = w
     /\ completion (AuthContextLegacy.updateProfile h data) w
        = inl (Error "Not authenticated")
     /\ w2 = w)
  /\ (token_truthy token = true ->
      sent w1 = sent w ++ [update_request h token data]
      /\ method (update_request h token data) = "PUT"
      /\ url (update_request h token data) = VITE_API_URL h +:+ "/api/users/profile"
      /\ body (update_request h token data) = TextBody (JSON_stringify h data)
      /\ (forall r result,
            server h (sent w) (update_request h token data) = Resolved r ->
            ok r = true ->
            body_json r = inr result ->
            completion (updateProfile h st data) w = inr tt
            /\ user (comp w1) = spread3 (user st) data result
            /\ localStorage w1
               = <["user" := JSON_stringify h (spread3 (user st) data result)]>
                   (localStorage w))
      /\ (forall o, data = JObj o ->
            sent w2
            = sent w ++
              [if truthy (Obj.get "profileImageFile" o) then
                 AuthContextLegacy.multipart_request h token
                   (AuthContextLegacy.append_if_truthy "location" (Obj.get "location" o)
                      (AuthContextLegacy.append_if_truthy "phone" (Obj.get "phone" o)
                         (AuthContextLegacy.append_if_truthy "name" (Obj.get "name" o) []))
                    ++ [("profileImage", Obj.get "profileImageFile" o)])
               else update_request h token data])).
Proof.
  intros token w1 w2. subst token w1 w2.
  unfold updateProfile, AuthContextLegacy.updateProfile. run.
  destruct (token_truthy (localStorage w !! "token")) eqn:Htok; simpl.
  - split; [discriminate|]. intros _.
    split.
    { destruct (server _ _ _) as [e|r]; simpl; [reflexivity|].
      destruct (body_json r) as [e|result]; simpl; [reflexivity|].
      destruct (ok r); simpl; [reflexivity|].
      destruct result; reflexivity. }
    split; [reflexivity|]. split; [reflexivity|]. split; [reflexivity|]. split.
    + intros r result Hsrv Hok Hbody. rewrite Hsrv. simpl.
      rewrite Hbody. simpl. rewrite Hok. simpl. repeat split.
    + intros o ->. simpl.
      destruct (truthy (Obj.get "profileImageFile" o)); simpl.
      * destruct (server _ _ _) as [e|r]; reflexivity.
      * destruct (server _ _ _) as [e|r]; simpl; [reflexivity|].
        destruct (ok r); simpl; [|reflexivity].
        destruct (body_json r); reflexivity.
  - split; [|discriminate]. intros _. destruct w. repeat split.
Qed.

Lemma updateProfile_contract_witness :
  let h := Sample.host (Sample.answers Sample.update_ok) in
  (let w := Sample.world Sample.signed_in_state Sample.stored_session in
   let w1 := exec (updateProfile h (comp w) Sample.change_of_phone) w in
   Obj.get "phone" (own_props (user (comp w1))) = JStr "9876543210"
   /\ Obj.get "name" (own_props (user (comp w1))) = JStr "Asha")
  /\ (let w := Sample.world initial (∅ : gmap string string) in
      exec (updateProfile h (comp w) Sample.change_of_phone) w = w).
Proof.
  intros h. split.
  - intros w w1.
    destruct (updateProfile_contract h (comp w) Sample.change_of_phone w)
      as [_ Hsigned].
    destruct (Hsigned eq_refl) as (_ & _ & _ & _ & Hok & _).
    destruct (Hok Sample.update_ok _ eq_refl eq_refl eq_refl) as (_ & Huser & _).
    fold w1 in Huser. rewrite Huser. split; reflexivity.
  - intros w.
    destruct (updateProfile_contract h (comp w) Sample.change_of_phone w)
      as [Hanon _].
    apply (Hanon eq_refl).
Defined.

End AuthFacts.

(* ================================================================== *)
(** * The booking wizard: further properties                            *)
(* ================================================================== *)

Module WizardMore.

Import Wizard.

(** ** What one confirmation can do to the state *)

Lemma handleConfirmBooking_outcome (h : Host) (business : Business.t) (u : User.t)
    (dept : Department.t) (w : World State) :
  selectedDepartment (comp w) = Some dept ->
  let w' := exec (handleConfirmBooking h business (Some u) (comp w)) w in
  isLoading (comp w') = false
  /\ selectedDepartment (comp w') = Some dept
  /\ departmentId (bookingData (comp w')) = departmentId (bookingData (comp w))
  /\ customerName (bookingData (comp w')) = customerName (bookingData (comp w))
  /\ customerPhone (bookingData (comp w')) = customerPhone (bookingData (comp w))
  /\ ((currentStep (comp w') = currentStep (comp w)
       /\ bookingData (comp w') = bookingData (comp w))
      \/ (currentStep (comp w') = success
          /\ tokenNumber (bookingData (comp w')) = JNum (Num.of_Z 1))).
Proof.
  intros Hsel w'. subst w'. unfold handleConfirmBooking. rewrite Hsel. run.
  destruct (truthy (js_or _ _)); simpl; [|rewrite Hsel; auto 10].
  destruct (server _ _ _) as [e|r]; simpl; [rewrite Hsel; auto 10|].
  destruct (ok r); simpl; [|rewrite Hsel; auto 10].
  destruct (body_json r) as [e|[]]; simpl; rewrite ?Hsel; auto 10.
Qed.

Lemma handleConfirmBooking_idle (h : Host) (business : Business.t)
    (user : option User.t) (w : World State) :
  selectedDepartment (comp w) = None \/ user = None ->
  handleConfirmBooking h business user (comp w) w = (inr tt, w).
Proof.
  unfold handleConfirmBooking.
  intros [H| ->]; [rewrite H; reflexivity|].
  destruct (selectedDepartment (comp w)); reflexivity.
Qed.

(** Splits a conjunction of facts about a state and discharges the
    easy ones. *)
Ltac facts :=
  repeat split; intros;
  try match goal with H : _ \/ _ |- _ => destruct H end;
  try discriminate; try congruence; try lia; auto.

Lemma initial_consistent user : consistent (initial user).
Proof. unfold consistent, initial. simpl. facts. Qed.

Lemma step_consistent h business user control c c' :
  step h business user control c c' ->
  consistent (comp (fst c)) -> consistent (comp (fst c')).
Proof.
  intros Hstep Hc. pose proof Hc as (Hsel & Hid & Hdig & Hlen & Hval & Htok).
  destruct Hstep as [w ps dept Hs Hin|w ps Hs Hh|w ps Hs Hh|w ps typed Hs Hh
                    |w ps typed Hs Hh|w ps typed Hs Hh|w ps typed Hs Hh
                    |w ps Hs Hh Hn Hp|w ps Hs Hh|w ps Hs Hh Hl|w ps|w ps1 p ps2];
    cbn [fst] in *; unfold consistent.
  - (* a card *)
    unfold card_onClick. destruct (Num.lt _ _); unfold exec, ret; simpl;
      rewrite ?Hs in *; facts.
  - (* next *)
    simpl. facts.
  - (* back to departments *)
    simpl. facts.
  - (* name *)
    simpl. rewrite Hs in *. facts.
  - (* phone *)
    unfold handlePhoneChange.
    destruct (_ <=? 10)%nat eqn:Hle; unfold exec, ret; simpl; [|facts].
    rewrite Hs in *. facts.
    + apply WizardFacts.strip_all_digits.
    + apply Nat.leb_le, Hle.
  - (* email *)
    simpl. facts.
  - (* notes *)
    simpl. facts.
  - (* continue *)
    unfold handleDetailsSubmit. rewrite Hn, Hp. simpl.
    destruct (phoneRegex_test _) eqn:Hre; simpl; [|facts].
    apply WizardFacts.phoneRegex_test_spec in Hre. destruct Hre as [Hre _].
    facts; apply WizardFacts.truthy_nonempty in Hn; congruence.
  - (* back to details *)
    simpl. facts.
  - (* confirm, first part *)
    destruct (WizardFacts.confirm_start_keeps h business user w) as (H1 & H2 & H3).
    unfold has_selection. rewrite H1, H2, H3. exact Hc.
  - (* close *)
    simpl. facts.
  - (* a request settles *)
    destruct (WizardFacts.confirm_resume_keeps h p w) as (H2 & H3 & H4 & H5 & H6).
    unfold has_selection. rewrite H2, H3, H4, H5.
    destruct H6 as [[Hsame Hdata]|[Hsucc Hone]].
    + rewrite Hsame, Hdata. exact Hc.
    + rewrite Hsucc. facts.
Qed.

Lemma reachable_config_consistent h business user c :
  reachable_config h business user c -> consistent (comp (fst c)).
Proof.
  induction 1 as [w Hinit|c c' control _ IH Hstep].
  - simpl. rewrite Hinit. apply initial_consistent.
  - eapply step_consistent; eassumption.
Qed.

Lemma reachable_consistent h business user w :
  reachable h business user w -> consistent (comp w).
Proof.
  intros [ps Hr]. apply (reachable_config_consistent _ _ _ _ Hr).
Qed.

Lemma handleConfirmBooking_sent (h : Host) (business : Business.t)
    (user : option User.t) (dept : Department.t) (w : World State) :
  selectedDepartment (comp w) = Some dept ->
  let w' := exec (handleConfirmBooking h business user (comp w)) w in
  sent w' = sent w \/ sent w' = sent w ++ [Words.confirm_request h business dept w].
Proof.
  intros Hsel w'. subst w'. unfold handleConfirmBooking, Words.confirm_request.
  rewrite Hsel. destruct user; [|auto]. run.
  destruct (truthy (js_or _ _)); simpl; [|auto].
  destruct (server _ _ _) as [e|r]; simpl; [auto|].
  destruct (ok r); simpl; [|auto].
  destruct (body_json r) as [e|[]]; simpl; auto.
Qed.

Lemma ten_digits_of_length s :
  Str.all_digits s = true -> String.length s = 10%nat -> phoneRegex_test s = true.
Proof. intros Hd Hl. apply WizardFacts.phoneRegex_test_spec. split; assumption. Qed.

(** ** Invariants of the wizard *)


Lemma visit_config_reachable (h : Host) :
  reachable_config h Sample.clinic (Some Sample.asha) (Sample.visit_typed, []).
Proof.
  apply (WizardFacts.reachable_next _ _ _ TypePhone Sample.visit_details []).
  - apply (WizardFacts.reachable_next _ _ _ ClickNext Sample.visit_picked []).
    + apply (WizardFacts.reachable_next _ _ _ ClickCard Sample.visit_opened []).
      * apply reachable_initial. reflexivity.
      * apply step_card; [reflexivity|simpl; auto].
    + apply step_next; reflexivity.
  - apply step_type_phone; reflexivity.
Qed.

Lemma visit_reachable (h : Host) :
  reachable h Sample.clinic (Some Sample.asha) Sample.visit_typed.
Proof. exists []. apply visit_config_reachable. Qed.


(** X2. The phone field never holds anything but digits, and never more
    than ten of them, whatever is typed or pasted. *)
Theorem phone_field_is_digits (h : Host) (business : Business.t)
    (user : option User.t) (w : World State) :
  reachable h business user w ->
  Str.all_digits (customerPhone (bookingData (comp w))) = true
  /\ (String.length (customerPhone (bookingData (comp w))) <= 10)%nat.
Proof.
  intros Hr. destruct (reachable_consistent _ _ _ _ Hr) as (_ & _ & Hd & Hl & _).
  split; assumption.
Qed.

Lemma phone_field_is_digits_witness :
  Str.all_digits (customerPhone (bookingData (comp Sample.visit_typed))) = true
  /\ (String.length (customerPhone (bookingData (comp Sample.visit_typed))) <= 10)%nat.
Proof.
  apply (phone_field_is_digits (Sample.host Sample.offline) Sample.clinic
           (Some Sample.asha) Sample.visit_typed (visit_reachable _)).
Defined.

Lemma confirming_config_reachable (h : Host) :
  reachable_config h Sample.clinic (Some Sample.asha) (Sample.visit_confirming, []).
Proof.
  apply (WizardFacts.reachable_next _ _ _ ClickContinue Sample.visit_entered []).
  - apply (WizardFacts.reachable_next _ _ _ TypePhone Sample.visit_details []).
    + apply (WizardFacts.reachable_next _ _ _ ClickNext Sample.visit_picked []).
      * apply (WizardFacts.reachable_next _ _ _ ClickCard Sample.visit_opened []).
        -- apply reachable_initial. reflexivity.
        -- apply step_card; [reflexivity|simpl; auto].
      * apply step_next; reflexivity.
    + apply step_type_phone; reflexivity.
  - apply step_continue; reflexivity.
Qed.

Lemma confirming_reachable (h : Host) :
  reachable h Sample.clinic (Some Sample.asha) Sample.visit_confirming.
Proof. exists []. apply confirming_config_reachable. Qed.

(** The success step without a selection is reachable: the wizard is
    closed while the request is out, and the request then settles. *)
Lemma closed_while_request_out :
  let h := Sample.host (Sample.answers Sample.created) in
  reachable h Sample.clinic (Some Sample.asha) (Sample.visit_late h)
  /\ currentStep (comp (Sample.visit_late h)) = success
  /\ selectedDepartment (comp (Sample.visit_late h)) = None
  /\ isLoading (comp (Sample.visit_closed h)) = true.
Proof.
  intros h. split; [|repeat split].
  exists [].
  apply (reachable_step _ _ _
           (Sample.visit_closed h, [mkPending Sample.cardiology (Resolved Sample.created)])
           _ RequestSettles).
  - apply (reachable_step _ _ _
             (fst (Sample.visit_sent h),
              [mkPending Sample.cardiology (Resolved Sample.created)])
             _ ClickClose).
    + apply (reachable_step _ _ _ (Sample.visit_confirming, []) _ ClickConfirm).
      * apply confirming_config_reachable.
      * apply (step_confirm h Sample.clinic (Some Sample.asha)
                 Sample.visit_confirming []); reflexivity.
    + apply step_close.
  - apply (step_settle h Sample.clinic (Some Sample.asha) (Sample.visit_closed h) []
             (mkPending Sample.cardiology (Resolved Sample.created)) []).
Qed.

(** X3. Every request a confirmation sends is a POST to the booking
    endpoint whose payload carries a name that is not empty and a phone of
    exactly ten digits: the confirm step cannot be reached with anything
    else in the form. *)
Theorem booking_request_is_validated (h : Host) (business : Business.t)
    (user : option User.t) (w : World State) :
  reachable h business user w ->
  currentStep (comp w) = confirm ->
  let w' := exec (handleConfirmBooking h business user (comp w)) w in
  sent w' = sent w
  \/ exists payload name phone,
       sent w' = sent w ++ [book_request h (localStorage w !! "token") (JObj payload)]
       /\ url (book_request h (localStorage w !! "token") (JObj payload))
          = VITE_API_URL h +:+ "/api/queues/book"
       /\ method (book_request h (localStorage w !! "token") (JObj payload)) = "POST"
       /\ Obj.get "customerName" payload = JStr name /\ name <> ""
       /\ Obj.get "customerPhone" payload = JStr phone /\ Words.ten_digits phone.
Proof.
  intros Hr Hstep w'. subst w'.
  destruct (reachable_consistent _ _ _ _ Hr) as (Hsel & _ & Hdig & _ & Hval & _).
  assert (Hh : has_selection (comp w) = true) by (apply Hsel; auto).
  unfold has_selection in Hh.
  destruct (selectedDepartment (comp w)) as [dept|] eqn:Hd; [|discriminate].
  destruct (Hval Hstep) as [Hname Hlen].
  destruct (handleConfirmBooking_sent h business user dept w Hd) as [H|H];
    [left; exact H|right].
  eexists _, _, _. split; [exact H|].
  repeat split; try reflexivity; assumption.
Qed.

Lemma booking_request_is_validated_witness :
  let h := Sample.host (Sample.answers Sample.created) in
  let w := Sample.visit_confirming in
  let w' := exec (handleConfirmBooking h Sample.clinic (Some Sample.asha) (comp w)) w in
  sent w' = sent w
  \/ exists payload name phone,
       sent w' = sent w ++ [book_request h (localStorage w !! "token") (JObj payload)]
       /\ url (book_request h (localStorage w !! "token") (JObj payload))
          = VITE_API_URL h +:+ "/api/queues/book"
       /\ method (book_request h (localStorage w !! "token") (JObj payload)) = "POST"
       /\ Obj.get "customerName" payload = JStr name /\ name <> ""
       /\ Obj.get "customerPhone" payload = JStr phone /\ Words.ten_digits phone.
Proof.
  intros h w.
  apply (booking_request_is_validated h Sample.clinic (Some Sample.asha) w
           (confirming_reachable h) eq_refl).
Defined.

(** X4. On the details step a click on the enabled Continue button never
    raises the "required fields" notification: it moves on to the confirm
    step without a notification when the line under the phone input is
    not shown, and otherwise changes nothing and raises "Phone number must
    be exactly 10 digits". *)
Theorem continue_click (h : Host) (business : Business.t)
    (user : option User.t) (w : World State) :
  reachable h business user w ->
  currentStep (comp w) = details ->
  continue_disabled (comp w) = false ->
  let w' := exec (handleDetailsSubmit (comp w)) w in
  if shows_phone_error (comp w)
  then comp w' = comp w
       /\ toasts w' = toasts w ++ [ToastError "Phone number must be exactly 10 digits"]
  else currentStep (comp w') = confirm /\ toasts w' = toasts w.
Proof.
  intros Hr Hstep Hen w'. subst w'.
  destruct (reachable_consistent _ _ _ _ Hr) as (_ & _ & Hdig & _).
  unfold continue_disabled in Hen. apply orb_false_elim in Hen.
  destruct Hen as [Hn Hp]. apply negb_false_iff in Hn, Hp.
  unfold shows_phone_error, handleDetailsSubmit. rewrite Hn, Hp. simpl.
  destruct (Nat.eqb_spec (String.length (customerPhone (bookingData (comp w)))) 10)
    as [Hl|Hl]; simpl.
  - rewrite (ten_digits_of_length _ Hdig Hl). simpl. split; reflexivity.
  - destruct (phoneRegex_test _) eqn:Hre; simpl; [|split; reflexivity].
    apply WizardFacts.phoneRegex_test_spec in Hre. destruct Hre as [Hre _].
    congruence.
Qed.

Lemma continue_click_witness :
  let w := Sample.visit_typed in
  let w' := exec (handleDetailsSubmit (comp w)) w in
  if shows_phone_error (comp w)
  then comp w' = comp w
       /\ toasts w' = toasts w ++ [ToastError "Phone number must be exactly 10 digits"]
  else currentStep (comp w') = confirm /\ toasts w' = toasts w.
Proof.
  intros w.
  apply (continue_click (Sample.host Sample.offline) Sample.clinic (Some Sample.asha)
           w (visit_reachable _) eq_refl eq_refl).
Defined.

(** X5. The wizard never shows an empty body: in every reachable world
    the block of the current step passes its rendering guard (a selected
    department for details and confirm, a truthy token number for
    success). *)
Theorem current_step_is_rendered (h : Host) (business : Business.t)
    (user : option User.t) (w : World State) :
  reachable h business user w ->
  rendered_step (comp w) = Some (currentStep (comp w)).
Proof.
  intros Hr.
  destruct (reachable_consistent _ _ _ _ Hr) as (Hsel & _ & _ & _ & _ & Htok).
  unfold rendered_step.
  destruct (currentStep (comp w)) eqn:Hs; try reflexivity.
  - rewrite Hsel by auto. reflexivity.
  - rewrite Hsel by auto. reflexivity.
  - rewrite Htok by reflexivity. reflexivity.
Qed.

Lemma current_step_is_rendered_witness :
  rendered_step (comp Sample.visit_confirming) = Some confirm.
Proof.
  apply (current_step_is_rendered (Sample.host Sample.offline) Sample.clinic
           (Some Sample.asha) Sample.visit_confirming (confirming_reachable _)).
Defined.

(** X6. Each control moves the wizard as its name says and no further:
    Next goes from departments to details, Continue from details to
    confirm or nowhere, the two Back buttons go back one step, close goes
    to departments, and a card, a keystroke and the click on Confirm leave
    the step where it is.  Only a request that settles can take the wizard
    to success, from whatever step it is on by then. *)
Theorem one_step_at_a_time (h : Host) (business : Business.t)
    (user : option User.t) (control : Control) (c c' : Config) :
  step h business user control c c' ->
  let s := currentStep (comp (fst c)) in
  let s' := currentStep (comp (fst c')) in
  match control with
  | ClickNext => s = departments /\ s' = details
  | ClickContinue => s = details /\ (s' = details \/ s' = confirm)
  | ClickBackToDepartments => s = details /\ s' = departments
  | ClickBackToDetails => s = confirm /\ s' = details
  | ClickClose => s' = departments
  | RequestSettles => s' = s \/ s' = success
  | ClickCard | TypeName | TypePhone | TypeEmail | TypeNotes | ClickConfirm => s' = s
  end.
Proof.
  intros Hstep.
  destruct Hstep as [w ps dept Hs Hin|w ps Hs Hh|w ps Hs Hh|w ps typed Hs Hh
                    |w ps typed Hs Hh|w ps typed Hs Hh|w ps typed Hs Hh
                    |w ps Hs Hh Hn Hp|w ps Hs Hh|w ps Hs Hh Hl|w ps|w ps1 p ps2];
    cbn [fst]; cbv zeta.
  - unfold card_onClick. destruct (Num.lt _ _); reflexivity.
  - split; [exact Hs|reflexivity].
  - split; [exact Hs|reflexivity].
  - reflexivity.
  - unfold handlePhoneChange. destruct (_ <=? _)%nat; reflexivity.
  - reflexivity.
  - reflexivity.
  - split; [exact Hs|]. unfold handleDetailsSubmit. rewrite Hn, Hp. simpl.
    destruct (phoneRegex_test _); simpl; auto.
  - split; [exact Hs|reflexivity].
  - apply (WizardFacts.confirm_start_keeps h business user w).
  - reflexivity.
  - destruct (WizardFacts.confirm_resume_keeps h p w)
      as (_ & _ & _ & _ & [[Hsame _]|[Hsucc _]]); auto.
Qed.

Lemma one_step_at_a_time_witness :
  currentStep (comp Sample.visit_entered) = details
  /\ (currentStep (comp Sample.visit_confirming) = details
      \/ currentStep (comp Sample.visit_confirming) = confirm).
Proof.
  assert (Hstep : step (Sample.host Sample.offline) Sample.clinic (Some Sample.asha)
                    ClickContinue (Sample.visit_entered, [])
                    (Sample.visit_confirming, []))
    by (apply step_continue; reflexivity).
  apply (one_step_at_a_time _ _ _ _ _ _ Hstep).
Defined.

(** ** Confirming: edges *)

(** X7. Without a signed-in user, or without a selected department, a
    click on Confirm does nothing at all: no request, no notification, no
    change of state, no error. *)
Theorem confirm_needs_user_and_selection (h : Host) (business : Business.t)
    (user : option User.t) (w : World State) :
  selectedDepartment (comp w) = None \/ user = None ->
  completion (handleConfirmBooking h business user (comp w)) w = inr tt
  /\ exec (handleConfirmBooking h business user (comp w)) w = w.
Proof.
  intros H. unfold completion, exec.
  rewrite (handleConfirmBooking_idle h business user w H). split; reflexivity.
Qed.

Lemma confirm_needs_user_and_selection_witness :
  let h := Sample.host (Sample.answers Sample.created) in
  let w := Sample.world Sample.on_confirm Sample.signed_in in
  exec (handleConfirmBooking h Sample.clinic None (comp w)) w = w.
Proof.
  intros h w.
  apply (confirm_needs_user_and_selection h Sample.clinic None w). right. reflexivity.
Defined.

(** X8. With a user and a selected department, Confirm sends its request
    whether or not a token is stored: the Authorization header is "Bearer "
    followed by the stored token, and "Bearer null" when there is none.
    The business id it sends is [id], or [_id] when [id] is falsy; when
    both are falsy no request is sent at all. *)
Theorem booking_request_shape (h : Host) (business : Business.t) (u : User.t)
    (dept : Department.t) (w : World State) :
  selectedDepartment (comp w) = Some dept ->
  let w' := exec (handleConfirmBooking h business (Some u) (comp w)) w in
  let businessId := if truthy (Business.id business) then Business.id business
                    else Business._id business in
  if truthy businessId then
    exists payload,
      sent w' = sent w ++ [mkRequest (VITE_API_URL h +:+ "/api/queues/book") "POST"
                             [("Content-Type", "application/json");
                              ("Authorization",
                               match localStorage w !! "token" with
                               | Some t => "Bearer " +:+ t
                               | None => "Bearer null"
                               end)]
                             (TextBody (JSON_stringify h (JObj payload)))]
      /\ Obj.get "businessId" payload = businessId
      /\ Obj.get "departmentName" payload = JStr (Department.name dept)
      /\ Obj.get "bookedAt" payload = JStr (now_ISO h)
  else
    sent w' = sent w
    /\ toasts w' = toasts w ++ [ToastError "Business ID not found. Please try again."].
Proof.
  intros Hsel w' businessId. subst w' businessId.
  unfold handleConfirmBooking. rewrite Hsel. run. unfold js_or.
  destruct (truthy (if truthy (Business.id business) then _ else _)) eqn:Hid; simpl.
  - exists (own_props (bookingPayload h business
                         (if truthy (Business.id business) then Business.id business
                          else Business._id business) dept (comp w))).
    split; [|repeat split; reflexivity].
    destruct (localStorage w !! "token") as [t|];
      (destruct (server _ _ _) as [e|r]; simpl; [reflexivity|];
       destruct (ok r); simpl; [|reflexivity];
       destruct (body_json r) as [e|[]]; reflexivity).
  - split; reflexivity.
Qed.

Lemma booking_request_shape_witness :
  let h := Sample.host Sample.offline in
  let w := Sample.world Sample.on_confirm (∅ : gmap string string) in
  let w' := exec (handleConfirmBooking h Sample.mongo_clinic (Some Sample.asha) (comp w)) w in
  exists payload,
    map headers (sent w')
    = [[("Content-Type", "application/json"); ("Authorization", "Bearer null")]]
    /\ map body (sent w') = [TextBody (JSON_stringify h (JObj payload))]
    /\ Obj.get "businessId" payload = JStr "64ab".
Proof.
  intros h w w'.
  destruct (booking_request_shape h Sample.mongo_clinic Sample.asha Sample.cardiology
              w eq_refl) as (payload & Hsent & Hid & _).
  exists payload. fold w' in Hsent. rewrite Hsent. repeat split. exact Hid.
Defined.

(** X9. When the server answers with a status that is not ok, the
    notification reads "Booking failed: Booking failed: <status> -
    <body text>": the prefix is added once where the error is thrown and
    once more where it is caught. *)
Theorem non_ok_notification (h : Host) (business : Business.t) (u : User.t)
    (dept : Department.t) (w : World State) (r : Response) :
  selectedDepartment (comp w) = Some dept ->
  truthy (js_or (Business.id business) (Business._id business)) = true ->
  server h (sent w) (Words.confirm_request h business dept w) = Resolved r ->
  ok r = false ->
  let w' := exec (handleConfirmBooking h business (Some u) (comp w)) w in
  toasts w' = toasts w ++ [ToastError ("Booking failed: Booking failed: "
                                       +:+ Str.of_N (status r) +:+ " - "
                                       +:+ body_text r)]
  /\ console w' = console w ++ ["Booking error:"].
Proof.
  intros Hsel Hid Hsrv Hok w'. subst w'.
  unfold handleConfirmBooking. rewrite Hsel.
  unfold Words.confirm_request in Hsrv. run.
  rewrite Hid. simpl. rewrite Hsrv. simpl. rewrite Hok. simpl. split; reflexivity.
Qed.

Lemma non_ok_notification_witness :
  let h := Sample.host (Sample.answers Sample.server_error) in
  let w := Sample.world Sample.on_confirm Sample.signed_in in
  let w' := exec (handleConfirmBooking h Sample.clinic (Some Sample.asha) (comp w)) w in
  toasts w' = [ToastError "Booking failed: Booking failed: 500 - queue service down"].
Proof.
  intros h w w'.
  apply (non_ok_notification h Sample.clinic Sample.asha Sample.cardiology w
           Sample.server_error eq_refl eq_refl eq_refl eq_refl).
Defined.

(** X10. After an ok answer whose body is not [null], the wizard is on
    the success step and the booking id is the [_id] property of the body.
    "Track My Queue" then navigates to /queue-tracker/<id> when that id is
    truthy and does nothing otherwise; in particular it does nothing when
    the body is not an object. *)
Theorem booking_id_and_tracking (h : Host) (business : Business.t) (u : User.t)
    (dept : Department.t) (w : World State) (r : Response) (v : JsVal) :
  selectedDepartment (comp w) = Some dept ->
  truthy (js_or (Business.id business) (Business._id business)) = true ->
  server h (sent w) (Words.confirm_request h business dept w) = Resolved r ->
  ok r = true ->
  body_json r = inr v ->
  v <> JNull -> v <> JUndefined ->
  let w' := exec (handleConfirmBooking h business (Some u) (comp w)) w in
  let id := match v with JObj o => Obj.get "_id" o | _ => JUndefined end in
  currentStep (comp w') = success
  /\ bookingId (bookingData (comp w')) = id
  /\ track_target h (comp w')
     = (if truthy id then Some ("/queue-tracker/" +:+ to_string h id) else None)
  /\ ((forall o, v <> JObj o) -> track_target h (comp w') = None).
Proof.
  intros Hsel Hid Hsrv Hok Hbody Hnull Hundef w' id. subst w' id.
  unfold handleConfirmBooking. rewrite Hsel.
  unfold Words.confirm_request in Hsrv. run.
  rewrite Hid. simpl. rewrite Hsrv. simpl. rewrite Hok. simpl. rewrite Hbody. simpl.
  unfold track_target.
  destruct v; simpl; try congruence; repeat split; try reflexivity.
  intros Hno. exfalso. eapply Hno. reflexivity.
Qed.

Lemma booking_id_and_tracking_witness :
  (let h := Sample.host (Sample.answers Sample.created) in
   let w := Sample.world Sample.on_confirm Sample.signed_in in
   let w' := exec (handleConfirmBooking h Sample.clinic (Some Sample.asha) (comp w)) w in
   track_target h (comp w') = Some "/queue-tracker/665f1c")
  /\ (let h := Sample.host (Sample.answers Sample.created_bare) in
      let w := Sample.world Sample.on_confirm Sample.signed_in in
      let w' := exec (handleConfirmBooking h Sample.clinic (Some Sample.asha) (comp w)) w in
      currentStep (comp w') = success /\ track_target h (comp w') = None).
Proof.
  split.
  - intros h w w'.
    assert (H1 : Sample.booking_record <> JNull) by discriminate.
    assert (H2 : Sample.booking_record <> JUndefined) by discriminate.
    destruct (booking_id_and_tracking h Sample.clinic Sample.asha Sample.cardiology w
                Sample.created Sample.booking_record eq_refl eq_refl eq_refl eq_refl
                eq_refl H1 H2) as (_ & _ & H & _).
    exact H.
  - intros h w w'.
    assert (H1 : JStr "ok" <> JNull) by discriminate.
    assert (H2 : JStr "ok" <> JUndefined) by discriminate.
    destruct (booking_id_and_tracking h Sample.clinic Sample.asha Sample.cardiology w
                Sample.created_bare (JStr "ok") eq_refl eq_refl eq_refl eq_refl
                eq_refl H1 H2) as (Hs & _ & _ & H).
    split; [exact Hs|]. apply H. discriminate.
Defined.

(** ** The progress bar and the totals *)

(** X11. In the progress bar the circle of a step is filled exactly when
    the wizard is at that step or past it, a bar follows every circle but
    the last, and the bar after a circle is filled exactly when the next
    circle is. *)
Theorem progress_bar_is_a_prefix (st : State) (index : nat) (s : BookingStep) :
  nth_error steps index = Some s ->
  circle_lit st s (Z.of_nat index)
  = (position s <=? position (currentStep st))%nat
  /\ connector_shown (Z.of_nat index)
     = match nth_error steps (S index) with Some _ => true | None => false end
  /\ connector_lit st (Z.of_nat index)
     = match nth_error steps (S index) with
       | Some next => circle_lit st next (Z.of_nat (S index))
       | None => false
       end.
Proof.
  intros Hnth.
  destruct index as [|[|[|[|n]]]]; simpl in Hnth;
    try (destruct n; discriminate);
    injection Hnth as <-; unfold circle_lit, connector_lit, connector_shown;
    destruct (currentStep st); repeat split.
Qed.

Lemma progress_bar_is_a_prefix_witness :
  circle_lit Sample.on_confirm details 1 = true
  /\ circle_lit Sample.on_confirm success 3 = false
  /\ connector_lit Sample.on_confirm 2 = false.
Proof.
  destruct (progress_bar_is_a_prefix Sample.on_confirm 1 details eq_refl) as (H1 & _).
  destruct (progress_bar_is_a_prefix Sample.on_confirm 3 success eq_refl) as (H3 & _).
  destruct (progress_bar_is_a_prefix Sample.on_confirm 2 confirm eq_refl)
    as (_ & _ & H2).
  split; [exact H1|]. split; [exact H3|]. exact (eq_trans H2 H3).
Defined.

Lemma fold_left_queue_sizes (l : list Department.t) acc :
  fold_left (fun total dept => Num.add total (Department.currentQueueSize dept)) l acc
  = Words.sum_from acc (map Department.currentQueueSize l).
Proof.
  revert acc. induction l as [|d l IH]; intros acc; simpl; [reflexivity|apply IH].
Qed.

(** X12. The total in queue is 0 for a business without departments
    (where the average wait is NaN), and it is a number whenever every
    department's queue size is finite. *)
Theorem totalQueueSize_is_a_number (business : Business.t) :
  (Business.departments business = [] ->
   totalQueueSize business = Num.of_Z 0
   /\ Num.is_nan (averageWaitTime business) = true)
  /\ (Forall (fun d => Num.is_finite (Department.currentQueueSize d) = true)
        (Business.departments business) ->
      Num.is_nan (totalQueueSize business) = false).
Proof.
  split.
  - intros Hnil. unfold totalQueueSize, averageWaitTime. rewrite Hnil.
    split; reflexivity.
  - intros Hfin. unfold totalQueueSize. rewrite fold_left_queue_sizes.
    apply WizardFacts.sum_from_not_nan; [reflexivity|].
    induction Hfin; simpl; constructor; assumption.
Qed.

Lemma totalQueueSize_is_a_number_witness :
  totalQueueSize Sample.closed_shop = Num.of_Z 0
  /\ Num.is_nan (totalQueueSize Sample.clinic) = false.
Proof.
  split.
  - apply (totalQueueSize_is_a_number Sample.closed_shop). reflexivity.
  - apply (totalQueueSize_is_a_number Sample.clinic). repeat constructor.
Defined.

End WizardMore.

(* ================================================================== *)
(** * The session context: further properties                           *)
(* ================================================================== *)

Module AuthMore.

Import AuthContext.

Lemma token_truthy_some t : t <> "" -> token_truthy (Some t) = true.
Proof. destruct t; simpl; congruence. Qed.

(** What a valid login response consists of. *)
Lemma login_response_valid_inv (r : Response) :
  Words.login_response_valid r = true ->
  ok r = true
  /\ exists data u,
       body_json r = inr (JObj data)
       /\ Obj.get "user" data = JObj u
       /\ truthy (Obj.get "token" data) = true
       /\ truthy (Obj.get "role" u) = true.
Proof.
  unfold Words.login_response_valid. intros H.
  apply andb_true_iff in H. destruct H as [Hok H]. split; [exact Hok|].
  destruct (body_json r) as [e|[| |b|x|s|data|a|f]]; try discriminate.
  apply andb_true_iff in H. destruct H as [H Hrole].
  apply andb_true_iff in H. destruct H as [_ Htoken].
  destruct (Obj.get "user" data) as [| |b|x|s|u|a|f] eqn:Hu; try discriminate.
  exists data, u. auto.
Qed.

(** The run of [login] after a valid response, up to the profile fetch. *)
Lemma login_valid_run (h : Host) (email password role : string) (w : World State)
    (r : Response) (data u : list (string * JsVal)) :
  server h (sent w) (login_request h email password role) = Resolved r ->
  ok r = true ->
  body_json r = inr (JObj data) ->
  Obj.get "user" data = JObj u ->
  truthy (Obj.get "token" data) = true ->
  truthy (Obj.get "role" u) = true ->
  let token := to_string h (Obj.get "token" data) in
  let preq := profile_request h ("Bearer " +:+ token) in
  let w1 := mkWorld (comp w) (<["token" := token]> (localStorage w))
              ((sent w ++ [login_request h email password role]) ++ [preq])
              (toasts w) (console w) (upcalls w) in
  login h email password role w
  = match server h (sent w ++ [login_request h email password role]) preq with
    | Rejected e => (inl e, w1)
    | Resolved pr =>
        match body_json pr with
        | inl e => (inl e, w1)
        | inr profile =>
            (inr (JObj [("user", profile); ("token", Obj.get "token" data)]),
             mkWorld (mkState profile true (isLoading (comp w)))
               (<["user" := JSON_stringify h profile]> (localStorage w1))
               (sent w1) (toasts w) (console w) (upcalls w))
        end
    end.
Proof.
  intros Hsrv Hok Hbody Hu Htoken Hrole token preq w1. subst token preq w1.
  unfold login. run. rewrite Hsrv. simpl. rewrite Hbody. simpl.
  rewrite Hok. simpl. rewrite Hu. simpl. rewrite Htoken. simpl.
  rewrite Hrole. simpl.
  destruct (server h (sent w ++ _) _) as [e|pr]; simpl; [reflexivity|].
  destruct (body_json pr) as [e|profile]; reflexivity.
Qed.

(** ** Signing out *)

Lemma delete_session_twice (m : gmap string string) :
  delete "user" (delete "token" (delete "user" (delete "token" m)))
  = delete "user" (delete "token" m).
Proof.
  apply map_eq. intros k.
  destruct (decide (k = "user")) as [->|Hu].
  - rewrite !lookup_delete_eq. reflexivity.
  - rewrite !(lookup_delete_ne _ "user") by congruence.
    destruct (decide (k = "token")) as [->|Ht].
    + rewrite !lookup_delete_eq. reflexivity.
    + rewrite !(lookup_delete_ne _ "token") by congruence.
      rewrite !(lookup_delete_ne _ "user") by congruence.
      rewrite !(lookup_delete_ne _ "token") by congruence. reflexivity.
Qed.

(** X13. [logout] leaves no user, not authenticated, and neither the
    token nor the user in storage, whatever the state was; every other
    stored key is untouched and nothing is sent.  Doing it twice is the
    same as doing it once, and a provider mounted afterwards sends no
    request and stays signed out. *)
Theorem logout_clears_session (h : Host) (w : World State) :
  let w' := exec logout w in
  user (comp w') = JNull
  /\ isAuthenticated (comp w') = false
  /\ localStorage w' !! "token" = None
  /\ localStorage w' !! "user" = None
  /\ (forall k, k <> "token" -> k <> "user" ->
        localStorage w' !! k = localStorage w !! k)
  /\ sent w' = sent w
  /\ exec logout w' = w'
  /\ sent (exec (mount_effect h) w') = sent w
  /\ isAuthenticated (comp (exec (mount_effect h) w')) = false
  /\ user (comp (exec (mount_effect h) w')) = JNull.
Proof.
  intros w'. subst w'. unfold logout. run.
  split; [reflexivity|]. split; [reflexivity|].
  split; [rewrite lookup_delete_ne by discriminate; apply lookup_delete_eq|].
  split; [apply lookup_delete_eq|].
  split.
  { intros k Ht Hu. rewrite !lookup_delete_ne by congruence. reflexivity. }
  split; [reflexivity|].
  split; [rewrite delete_session_twice; reflexivity|].
  unfold mount_effect. run.
  rewrite lookup_delete_ne by discriminate. rewrite lookup_delete_eq. simpl.
  repeat split.
Qed.

Lemma logout_clears_session_witness :
  let w := Sample.world Sample.signed_in_state
             (<["theme" := "dark"]> Sample.stored_session) in
  localStorage (exec logout w) !! "token" = None
  /\ localStorage (exec logout w) !! "theme" = Some "dark".
Proof.
  intros w.
  destruct (logout_clears_session (Sample.host Sample.offline) w)
    as (_ & _ & Htok & _ & Hother & _).
  split; [exact Htok|].
  rewrite (Hother "theme") by discriminate. reflexivity.
Defined.

(** ** Resuming and signing in *)

(** X14. When the provider mounts with a stored token and the profile
    endpoint answers ok with a JSON body, exactly one GET is sent to
    /api/users/profile with "Bearer <token>", the body becomes the user,
    the context is authenticated and no longer loading, the body is stored
    under "user", and the token stays in storage. *)
Theorem mount_effect_resumes (h : Host) (w : World State) (t : string)
    (r : Response) (profile : JsVal) :
  localStorage w !! "token" = Some t ->
  t <> "" ->
  server h (sent w) (profile_request h ("Bearer " +:+ t)) = Resolved r ->
  ok r = true ->
  body_json r = inr profile ->
  let w' := exec (mount_effect h) w in
  sent w' = sent w ++ [mkRequest (VITE_API_URL h +:+ "/api/users/profile") "GET"
                         [("Authorization", "Bearer " +:+ t)] NoBody]
  /\ comp w' = mkState profile true false
  /\ localStorage w' = <["user" := JSON_stringify h profile]> (localStorage w)
  /\ localStorage w' !! "token" = Some t.
Proof.
  intros Htok Hne Hsrv Hok Hbody w'. subst w'.
  unfold mount_effect. run. rewrite Htok. rewrite (token_truthy_some t Hne).
  simpl. change (bearer (Some t)) with ("Bearer " +:+ t).
  rewrite Hsrv. simpl. rewrite Hok. simpl. rewrite Hbody. simpl.
  repeat split. rewrite lookup_insert_ne by discriminate. exact Htok.
Qed.

Lemma mount_effect_resumes_witness :
  let h := Sample.host (Sample.answers Sample.profile_ok) in
  let w := Sample.world initial Sample.signed_in in
  comp (exec (mount_effect h) w) = mkState Sample.profile true false.
Proof.
  intros h w.
  assert (Hne : "tok-1" <> "") by discriminate.
  apply (mount_effect_resumes h w "tok-1" Sample.profile_ok Sample.profile
           eq_refl Hne eq_refl eq_refl eq_refl).
Defined.

(** X15. A sign-in survives a reload: after a login whose response
    carries the token as a string, a provider mounted on the storage that
    [login] left sends the very profile request [login] itself sent last,
    with the same bearer token. *)
Theorem login_then_mount (h : Host) (email password role : string)
    (w : World State) (r : Response) (data : list (string * JsVal)) (t : string) :
  server h (sent w) (login_request h email password role) = Resolved r ->
  Words.login_response_valid r = true ->
  body_json r = inr (JObj data) ->
  Obj.get "token" data = JStr t ->
  let w1 := exec (login h email password role) w in
  let reloaded := mkWorld initial (localStorage w1) (sent w1) [] [] [] in
  localStorage w1 !! "token" = Some t
  /\ last (sent w1) = Some (profile_request h ("Bearer " +:+ t))
  /\ sent (exec (mount_effect h) reloaded)
     = sent w1 ++ [profile_request h ("Bearer " +:+ t)].
Proof.
  intros Hsrv Hvalid Hbody Htok w1 reloaded.
  destruct (login_response_valid_inv r Hvalid)
    as (Hok & data' & u & Hbody' & Hu & Htoken & Hrole).
  rewrite Hbody in Hbody'. injection Hbody' as <-.
  assert (Ht : t <> "").
  { rewrite Htok in Htoken. destruct t; [discriminate|congruence]. }
  pose proof (login_valid_run h email password role w r data u
                Hsrv Hok Hbody Hu Htoken Hrole) as Hrun.
  rewrite Htok in Hrun. simpl in Hrun.
  assert (Hstore : localStorage w1 !! "token" = Some t
                   /\ sent w1 = (sent w ++ [login_request h email password role])
                                ++ [profile_request h ("Bearer " +:+ t)]).
  { subst w1. unfold exec. rewrite Hrun.
    destruct (server h (sent w ++ _) _) as [e|pr]; simpl;
      [split; [apply lookup_insert_eq|reflexivity]|].
    destruct (body_json pr) as [e|profile]; simpl;
      [split; [apply lookup_insert_eq|reflexivity]|].
    split; [|reflexivity].
    rewrite lookup_insert_ne by discriminate. apply lookup_insert_eq. }
  destruct Hstore as [Hstored Hsent].
  split; [exact Hstored|].
  split; [rewrite Hsent; apply last_snoc|].
  subst reloaded. unfold mount_effect. run.
  rewrite Hstored. rewrite (token_truthy_some t Ht). simpl.
  change (bearer (Some t)) with ("Bearer " +:+ t).
  destruct (server h (sent w1) _) as [e|pr]; simpl; [reflexivity|].
  destruct (ok pr); simpl; [|reflexivity].
  destruct (body_json pr); reflexivity.
Qed.

Lemma login_then_mount_witness :
  let h := Sample.host (Sample.auth_server Sample.login_ok) in
  let w := Sample.world initial (∅ : gmap string string) in
  let w1 := exec (login h "asha@example.org" "pw" "user") w in
  let reloaded := mkWorld initial (localStorage w1) (sent w1) [] [] [] in
  localStorage w1 !! "token" = Some "tok-2"
  /\ last (sent w1) = Some (profile_request h "Bearer tok-2")
  /\ sent (exec (mount_effect h) reloaded)
     = sent w1 ++ [profile_request h "Bearer tok-2"].
Proof.
  intros h w.
  apply (login_then_mount h "asha@example.org" "pw" "user" w Sample.login_ok _ "tok-2"
           eq_refl eq_refl eq_refl eq_refl).
Defined.

(** X16. When the login response is valid but the profile request that
    follows is rejected, [login] throws that rejection and the in-memory
    state is as before, yet the token of the response has already been
    stored and stays stored. *)
Theorem login_profile_rejected (h : Host) (email password role : string)
    (w : World State) (r : Response) (data : list (string * JsVal)) (e : Exn) :
  server h (sent w) (login_request h email password role) = Resolved r ->
  Words.login_response_valid r = true ->
  body_json r = inr (JObj data) ->
  server h (sent w ++ [login_request h email password role])
    (profile_request h ("Bearer " +:+ to_string h (Obj.get "token" data)))
  = Rejected e ->
  let w' := exec (login h email password role) w in
  completion (login h email password role) w = inl e
  /\ comp w' = comp w
  /\ localStorage w' = <["token" := to_string h (Obj.get "token" data)]> (localStorage w)
  /\ localStorage w' !! "user" = localStorage w !! "user".
Proof.
  intros Hsrv Hvalid Hbody Hprofile w'. subst w'.
  destruct (login_response_valid_inv r Hvalid)
    as (Hok & data' & u & Hbody' & Hu & Htoken & Hrole).
  rewrite Hbody in Hbody'. injection Hbody' as <-.
  pose proof (login_valid_run h email password role w r data u
                Hsrv Hok Hbody Hu Htoken Hrole) as Hrun.
  simpl in Hrun. rewrite Hprofile in Hrun.
  unfold completion, exec. rewrite Hrun. simpl.
  repeat split. apply lookup_insert_ne. discriminate.
Qed.

Lemma login_profile_rejected_witness :
  let h := Sample.host Sample.profile_unreachable_server in
  let w := Sample.world initial (∅ : gmap string string) in
  let w' := exec (login h "asha@example.org" "pw" "user") w in
  isAuthenticated (comp w') = false
  /\ localStorage w' !! "token" = Some "tok-2".
Proof.
  intros h w w'.
  destruct (login_profile_rejected h "asha@example.org" "pw" "user" w Sample.login_ok
              _ _ eq_refl eq_refl eq_refl eq_refl) as (_ & Hcomp & Hls & _).
  fold w' in Hcomp, Hls. rewrite Hcomp, Hls. split; reflexivity.
Defined.

(** X17. [login] does not look at the status of the profile response:
    when the profile endpoint answers with an error status and a JSON
    body, that body is stored and held in memory as the user and the
    context is marked authenticated. *)
Theorem login_trusts_profile_body (h : Host) (email password role : string)
    (w : World State) (r pr : Response) (data : list (string * JsVal))
    (answer : JsVal) :
  server h (sent w) (login_request h email password role) = Resolved r ->
  Words.login_response_valid r = true ->
  body_json r = inr (JObj data) ->
  server h (sent w ++ [login_request h email password role])
    (profile_request h ("Bearer " +:+ to_string h (Obj.get "token" data)))
  = Resolved pr ->
  ok pr = false ->
  body_json pr = inr answer ->
  let w' := exec (login h email password role) w in
  user (comp w') = answer
  /\ isAuthenticated (comp w') = true
  /\ localStorage w' !! "user" = Some (JSON_stringify h answer)
  /\ completion (login h email password role) w
     = inr (JObj [("user", answer); ("token", Obj.get "token" data)]).
Proof.
  intros Hsrv Hvalid Hbody Hprofile _ Hpbody w'. subst w'.
  destruct (login_response_valid_inv r Hvalid)
    as (Hok & data' & u & Hbody' & Hu & Htoken & Hrole).
  rewrite Hbody in Hbody'. injection Hbody' as <-.
  pose proof (login_valid_run h email password role w r data u
                Hsrv Hok Hbody Hu Htoken Hrole) as Hrun.
  simpl in Hrun. rewrite Hprofile, Hpbody in Hrun.
  unfold completion, exec. rewrite Hrun. simpl.
  repeat split. apply lookup_insert_eq.
Qed.

Lemma login_trusts_profile_body_witness :
  let h := Sample.host Sample.profile_denied_server in
  let w := Sample.world initial (∅ : gmap string string) in
  let w' := exec (login h "asha@example.org" "pw" "user") w in
  user (comp w') = JObj [("message", JStr "Token expired")]
  /\ isAuthenticated (comp w') = true.
Proof.
  intros h w w'.
  destruct (login_trusts_profile_body h "asha@example.org" "pw" "user" w
              Sample.login_ok Sample.unauthorized _ _
              eq_refl eq_refl eq_refl eq_refl eq_refl eq_refl) as (Hu & Ha & _).
  split; assumption.
Defined.

(** ** Updating the profile *)

(** The run of [updateProfile] with a token in storage. *)
Lemma updateProfile_run (h : Host) (st : State) (data : JsVal) (w : World State) :
  token_truthy (localStorage w !! "token") = true ->
  let req := update_request h (localStorage w !! "token") data in
  let w1 := mkWorld (comp w) (localStorage w) (sent w ++ [req]) (toasts w)
              (console w) (upcalls w) in
  updateProfile h st data w
  = match server h (sent w) req with
    | Rejected e => (inl e, w1)
    | Resolved r =>
        match body_json r with
        | inl e => (inl e, w1)
        | inr result =>
            if ok r then
              (inr tt,
               mkWorld (mkState (spread3 (user st) data result)
                          (isAuthenticated (comp w)) (isLoading (comp w)))
                 (<["user" := JSON_stringify h (spread3 (user st) data result)]>
                    (localStorage w))
                 (sent w1) (toasts w) (console w) (upcalls w))
            else
              match result with
              | JUndefined | JNull => (inl (null_property_error h "message"), w1)
              | JObj o =>
                  (inl (Error (to_string h (js_or (Obj.get "message" o)
                                              (JStr "Failed to update profile")))), w1)
              | _ => (inl (Error "Failed to update profile"), w1)
              end
        end
    end.
Proof.
  intros Htok req w1. subst req w1. unfold updateProfile. run. rewrite Htok. simpl.
  destruct (server _ _ _) as [e|r]; simpl; [reflexivity|].
  destruct (body_json r) as [e|result]; simpl; [reflexivity|].
  destruct (ok r); simpl; [reflexivity|].
  destruct result; reflexivity.
Qed.

(** X18. With a token stored, [updateProfile] sends exactly one request,
    and whenever it does not succeed (the request is rejected, the body
    cannot be read as JSON, even under an ok status such as 204, or the
    status is not ok) it throws and leaves the user in memory and
    everything in storage as it was.  For an error status with an object
    body the message thrown is the body's [message], or "Failed to update
    profile" when that is falsy. *)
Theorem updateProfile_failure (h : Host) (st : State) (data : JsVal) (w : World State) :
  token_truthy (localStorage w !! "token") = true ->
  let req := update_request h (localStorage w !! "token") data in
  let w' := exec (updateProfile h st data) w in
  let result := completion (updateProfile h st data) w in
  sent w' = sent w ++ [req]
  /\ (forall e, server h (sent w) req = Rejected e ->
      result = inl e /\ comp w' = comp w /\ localStorage w' = localStorage w)
  /\ (forall r e, server h (sent w) req = Resolved r -> body_json r = inl e ->
      result = inl e /\ comp w' = comp w /\ localStorage w' = localStorage w)
  /\ (forall r, server h (sent w) req = Resolved r -> ok r = false ->
      (exists e, result = inl e)
      /\ comp w' = comp w /\ localStorage w' = localStorage w)
  /\ (forall r o, server h (sent w) req = Resolved r -> ok r = false ->
      body_json r = inr (JObj o) ->
      result = inl (Error (if truthy (Obj.get "message" o)
                           then to_string h (Obj.get "message" o)
                           else "Failed to update profile"))).
Proof.
  intros Htok req w' result. subst req w' result.
  unfold exec, completion. rewrite (updateProfile_run h st data w Htok).
  destruct (server _ _ _) as [e|r]; simpl.
  { split; [reflexivity|]. split; [intros e' [= <-]; auto|].
    repeat split; intros; discriminate. }
  destruct (body_json r) as [e|res] eqn:Hbody; simpl.
  { split; [reflexivity|]. split; [intros; discriminate|].
    split; [intros r' e' [= <-] Hb; rewrite Hbody in Hb; injection Hb as <-; auto|].
    split; [intros r' [= <-] _; eauto|].
    intros r' o [= <-] _ Hb. rewrite Hbody in Hb. discriminate. }
  destruct (ok r) eqn:Hok; simpl.
  { split; [reflexivity|]. split; [intros; discriminate|].
    split; [intros r' e' [= <-] Hb; rewrite Hbody in Hb; discriminate|].
    split; intros r'; intros; congruence. }
  split; [destruct res; reflexivity|]. split; [intros; discriminate|].
  split; [intros r' e' [= <-] Hb; rewrite Hbody in Hb; discriminate|].
  split; [intros r' [= <-] _; destruct res; simpl; eauto|].
  intros r' o [= <-] _ Hb. rewrite Hbody in Hb. injection Hb as ->. simpl.
  unfold js_or. destruct (truthy (Obj.get "message" o)); reflexivity.
Qed.

Lemma updateProfile_failure_witness :
  let w := Sample.world Sample.signed_in_state Sample.stored_session in
  (let h := Sample.host (Sample.answers Sample.update_refused) in
   completion (updateProfile h (comp w) Sample.change_of_phone) w
   = inl (Error "Phone already in use"))
  /\ (let h := Sample.host (Sample.answers Sample.no_content) in
      comp (exec (updateProfile h (comp w) Sample.change_of_phone) w) = comp w).
Proof.
  intros w. split.
  - intros h.
    destruct (updateProfile_failure h (comp w) Sample.change_of_phone w eq_refl)
      as (_ & _ & _ & _ & H).
    apply (H Sample.update_refused _ eq_refl eq_refl eq_refl).
  - intros h.
    destruct (updateProfile_failure h (comp w) Sample.change_of_phone w eq_refl)
      as (_ & _ & H & _).
    apply (H Sample.no_content _ eq_refl eq_refl).
Defined.

(** X19. After a successful update in which the old user, the change
    and the server's answer are objects without repeated keys, each
    property of the new user is taken from the answer if the answer has
    it, else from the change if the change has it, else from the old
    user: nothing of the old user is lost unless it is overwritten. *)
Theorem updateProfile_merges_by_key (h : Host) (st : State) (w : World State)
    (r : Response) (u d a : list (string * JsVal)) (k : string) :
  token_truthy (localStorage w !! "token") = true ->
  user st = JObj u ->
  server h (sent w) (update_request h (localStorage w !! "token") (JObj d))
  = Resolved r ->
  ok r = true ->
  body_json r = inr (JObj a) ->
  List.NoDup (map fst u) -> List.NoDup (map fst d) -> List.NoDup (map fst a) ->
  let w' := exec (updateProfile h st (JObj d)) w in
  Obj.get k (own_props (user (comp w')))
  = if Obj.has k a then Obj.get k a
    else if Obj.has k d then Obj.get k d
    else Obj.get k u.
Proof.
  intros Htok Hu Hsrv Hok Hbody Hndu Hndd Hnda w'. subst w'.
  unfold exec. rewrite (updateProfile_run h st (JObj d) w Htok).
  rewrite Hsrv, Hbody, Hok. simpl snd. cbn [comp user]. rewrite Hu.
  rewrite ObjFacts.get_spread3.
  rewrite !ObjFacts.get_rev_distinct by assumption. reflexivity.
Qed.

Lemma updateProfile_merges_by_key_witness :
  let h := Sample.host (Sample.answers Sample.update_ok) in
  let w := Sample.world Sample.signed_in_state Sample.stored_session in
  let w' := exec (updateProfile h (comp w) Sample.change_of_phone) w in
  Obj.get "role" (own_props (user (comp w'))) = JStr "user"
  /\ Obj.get "updatedAt" (own_props (user (comp w'))) = JStr "2025-01-02".
Proof.
  intros h w w'.
  assert (Hu : List.NoDup ["id"; "name"; "email"; "role"])
    by (repeat constructor; simpl; intuition discriminate).
  assert (Hd : List.NoDup ["phone"])
    by (repeat constructor; simpl; intuition discriminate).
  assert (Ha : List.NoDup ["phone"; "updatedAt"])
    by (repeat constructor; simpl; intuition discriminate).
  split.
  - apply (updateProfile_merges_by_key h (comp w) w Sample.update_ok
             (own_props Sample.profile) (own_props Sample.change_of_phone)
             [("phone", JStr "9876543210"); ("updatedAt", JStr "2025-01-02")] "role"
             eq_refl eq_refl eq_refl eq_refl eq_refl Hu Hd Ha).
  - apply (updateProfile_merges_by_key h (comp w) w Sample.update_ok
             (own_props Sample.profile) (own_props Sample.change_of_phone)
             [("phone", JStr "9876543210"); ("updatedAt", JStr "2025-01-02")] "updatedAt"
             eq_refl eq_refl eq_refl eq_refl eq_refl Hu Hd Ha).
Defined.

End AuthMore.

(* ================================================================== *)
(** * The older copy of the context: properties                         *)
(* ================================================================== *)

Module LegacyFacts.

Import AuthContext.

(** X20. The older copy resumes a session from storage alone and never
    sends a request.  With a token and a stored user that parses to a
    value with an email and a role, that value becomes the user and the
    context is authenticated; with a token and a stored user that does
    not parse, or parses to something without an email or a role, both
    keys are removed and the state is left as it was; in every other case
    (no token, no stored user, or the stored text "undefined") storage is
    left as it is, a lone token included.  Loading always ends false. *)
Theorem legacy_mount_effect (h : Host) (parse : string -> Exn + JsVal)
    (w : World State) :
  let w' := exec (AuthContextLegacy.mount_effect h parse) w in
  let token := localStorage w !! "token" in
  let stored := localStorage w !! "user" in
  isLoading (comp w') = false
  /\ sent w' = sent w
  /\ (token_truthy token = false \/ token_truthy stored = false
      \/ stored = Some "undefined" ->
      user (comp w') = user (comp w)
      /\ isAuthenticated (comp w') = isAuthenticated (comp w)
      /\ localStorage w' = localStorage w)
  /\ (forall s, token_truthy token = true -> stored = Some s ->
      s <> "" -> s <> "undefined" ->
      match parse s with
      | inr v =>
          if Words.stored_user_ok v
          then user (comp w') = v /\ isAuthenticated (comp w') = true
               /\ localStorage w' = localStorage w
          else user (comp w') = user (comp w)
               /\ isAuthenticated (comp w') = isAuthenticated (comp w)
               /\ localStorage w' !! "token" = None
               /\ localStorage w' !! "user" = None
      | inl _ =>
          user (comp w') = user (comp w)
          /\ isAuthenticated (comp w') = isAuthenticated (comp w)
          /\ localStorage w' !! "token" = None
          /\ localStorage w' !! "user" = None
      end).
Proof.
  intros w' token stored. subst w' token stored.
  unfold AuthContextLegacy.mount_effect. run.
  assert (Hgone : forall m : gmap string string,
            delete "token" (delete "user" m) !! "token" = None
            /\ delete "token" (delete "user" m) !! "user" = None).
  { intros m. split; [apply lookup_delete_eq|].
    rewrite lookup_delete_ne by discriminate. apply lookup_delete_eq. }
  destruct (token_truthy (localStorage w !! "token")) eqn:Htok; simpl.
  2:{ repeat split; intros; discriminate. }
  destruct (localStorage w !! "user") as [s|] eqn:Hstored; simpl.
  2:{ repeat split; intros; discriminate. }
  destruct (Str.truthy s) eqn:Hs; simpl.
  2:{ repeat split. intros s' _ [= <-] Hne. destruct s; [congruence|discriminate]. }
  destruct (String.eqb_spec s "undefined") as [->|Hund]; simpl.
  { repeat split. intros s' _ [= <-] _ Hne. congruence. }
  split.
  { destruct (parse s) as [e|[| |[]|x|s0|o|a|f]]; simpl; try reflexivity;
      try (destruct (Num.truthy x); reflexivity);
      try (destruct (Str.truthy s0); reflexivity).
    destruct (truthy (Obj.get "email" o)); simpl; [|reflexivity].
    destruct (truthy (Obj.get "role" o)); reflexivity. }
  split.
  { destruct (parse s) as [e|[| |[]|x|s0|o|a|f]]; simpl; try reflexivity;
      try (destruct (Num.truthy x); reflexivity);
      try (destruct (Str.truthy s0); reflexivity).
    destruct (truthy (Obj.get "email" o)); simpl; [|reflexivity].
    destruct (truthy (Obj.get "role" o)); reflexivity. }
  split.
  { intros [H|[H|H]]; try discriminate. congruence. }
  intros s' _ [= <-] _ _.
  destruct (parse s) as [e|[| |[]|x|s0|o|a|f]]; simpl;
    try (repeat split; apply Hgone);
    try (destruct (Num.truthy x); simpl; repeat split; apply Hgone);
    try (destruct (Str.truthy s0); simpl; repeat split; apply Hgone).
  destruct (truthy (Obj.get "email" o)); simpl; [|repeat split; apply Hgone].
  destruct (truthy (Obj.get "role" o)); simpl; repeat split; apply Hgone.
Qed.

Lemma legacy_mount_effect_witness :
  let h := Sample.host Sample.offline in
  (let w := Sample.world initial
              (<["user" := Sample.stringify Sample.kept_user]> Sample.signed_in) in
   let w' := exec (AuthContextLegacy.mount_effect h Sample.parse) w in
   user (comp w') = Sample.kept_user /\ isAuthenticated (comp w') = true)
  /\ (let w := Sample.world initial (<["user" := "{broken"]> Sample.signed_in) in
      let w' := exec (AuthContextLegacy.mount_effect h Sample.parse) w in
      isAuthenticated (comp w') = false /\ localStorage w' !! "token" = None)
  /\ (let w := Sample.world initial Sample.signed_in in
      let w' := exec (AuthContextLegacy.mount_effect h Sample.parse) w in
      isAuthenticated (comp w') = false /\ localStorage w' = localStorage w).
Proof.
  intros h. split; [|split].
  - intros w w'.
    destruct (legacy_mount_effect h Sample.parse w) as (_ & _ & _ & H).
    assert (H1 : Sample.stringify Sample.kept_user <> "") by discriminate.
    assert (H2 : Sample.stringify Sample.kept_user <> "undefined") by discriminate.
    pose proof (H _ eq_refl eq_refl H1 H2) as H3. simpl in H3.
    destruct H3 as (Hu & Ha & _). split; assumption.
  - intros w w'.
    destruct (legacy_mount_effect h Sample.parse w) as (_ & _ & _ & H).
    assert (H1 : "{broken" <> "") by discriminate.
    assert (H2 : "{broken" <> "undefined") by discriminate.
    pose proof (H _ eq_refl eq_refl H1 H2) as H3. simpl in H3.
    destruct H3 as (_ & Ha & Ht & _). fold w' in Ha, Ht. rewrite Ha. split; [reflexivity|exact Ht].
  - intros w w'.
    destruct (legacy_mount_effect h Sample.parse w) as (_ & _ & H & _).
    destruct H as (_ & Ha & Hl); [right; left; reflexivity|].
    fold w' in Ha, Hl. rewrite Ha. split; [reflexivity|exact Hl].
Defined.

(** The run of the older [login] on a valid response. *)
Lemma legacy_login_run (h : Host) (email password role : string) (w : World State)
    (r : Response) (data u : list (string * JsVal)) :
  server h (sent w) (login_request h email password role) = Resolved r ->
  ok r = true ->
  body_json r = inr (JObj data) ->
  Obj.get "user" data = JObj u ->
  truthy (Obj.get "token" data) = true ->
  truthy (Obj.get "role" u) = true ->
  let userData := JObj [("id", Obj.get "id" u); ("name", Obj.get "name" u);
                        ("email", Obj.get "email" u); ("role", Obj.get "role" u)] in
  AuthContextLegacy.login h email password role w
  = (inr (JObj [("user", userData); ("token", Obj.get "token" data)]),
     mkWorld (mkState userData true (isLoading (comp w)))
       (<["user" := JSON_stringify h userData]>
          (<["token" := to_string h (Obj.get "token" data)]> (localStorage w)))
       (sent w ++ [login_request h email password role])
       (toasts w) (console w) (upcalls w)).
Proof.
  intros Hsrv Hok Hbody Hu Htoken Hrole userData. subst userData.
  unfold AuthContextLegacy.login. run. rewrite Hsrv. simpl. rewrite Hbody. simpl.
  rewrite Hok. simpl. rewrite Hu. simpl. rewrite Htoken. simpl.
  rewrite Hrole. reflexivity.
Qed.

(** X21. On a valid response the older [login] sends that one request
    and nothing else, and the user it keeps in memory and in storage has
    exactly the properties [id], [name], [email] and [role] of the user it
    was sent: any other property of the response's user is dropped. *)
Theorem legacy_login_keeps_four_fields (h : Host) (email password role : string)
    (w : World State) (r : Response) (data u : list (string * JsVal)) :
  server h (sent w) (login_request h email password role) = Resolved r ->
  Words.login_response_valid r = true ->
  body_json r = inr (JObj data) ->
  Obj.get "user" data = JObj u ->
  let w' := exec (AuthContextLegacy.login h email password role) w in
  sent w' = sent w ++ [login_request h email password role]
  /\ map fst (own_props (user (comp w'))) = ["id"; "name"; "email"; "role"]
  /\ (forall k, In k ["id"; "name"; "email"; "role"] ->
        Obj.get k (own_props (user (comp w'))) = Obj.get k u)
  /\ (forall k, ~ In k ["id"; "name"; "email"; "role"] ->
        Obj.get k (own_props (user (comp w'))) = JUndefined)
  /\ localStorage w' !! "user" = Some (JSON_stringify h (user (comp w')))
  /\ isAuthenticated (comp w') = true.
Proof.
  intros Hsrv Hvalid Hbody Hu w'. subst w'.
  destruct (AuthMore.login_response_valid_inv r Hvalid)
    as (Hok & data' & u' & Hbody' & Hu' & Htoken & Hrole).
  rewrite Hbody in Hbody'. injection Hbody' as <-.
  rewrite Hu in Hu'. injection Hu' as <-.
  unfold exec.
  rewrite (legacy_login_run h email password role w r data u
             Hsrv Hok Hbody Hu Htoken Hrole). simpl.
  split; [reflexivity|]. split; [reflexivity|]. split.
  { intros k [<-|[<-|[<-|[<-|[]]]]]; reflexivity. }
  split.
  { intros k Hk.
    destruct (String.eqb_spec k "id") as [->|_]; [exfalso; apply Hk; simpl; auto|].
    destruct (String.eqb_spec k "name") as [->|_]; [exfalso; apply Hk; simpl; auto|].
    destruct (String.eqb_spec k "email") as [->|_]; [exfalso; apply Hk; simpl; auto|].
    destruct (String.eqb_spec k "role") as [->|_]; [exfalso; apply Hk; simpl; auto|].
    reflexivity. }
  split; [apply lookup_insert_eq|reflexivity].
Qed.

Lemma legacy_login_keeps_four_fields_witness :
  let h := Sample.host (Sample.answers Sample.login_rich) in
  let w := Sample.world initial (∅ : gmap string string) in
  let w' := exec (AuthContextLegacy.login h "asha@example.org" "pw" "user") w in
  Obj.get "email" (own_props (user (comp w'))) = JStr "asha@example.org"
  /\ Obj.get "passwordHash" (own_props (user (comp w'))) = JUndefined.
Proof.
  intros h w w'.
  destruct (legacy_login_keeps_four_fields h "asha@example.org" "pw" "user" w
              Sample.login_rich _ Sample.rich_user eq_refl eq_refl eq_refl eq_refl)
    as (_ & _ & Hkept & Hdropped & _).
  subst w'. split.
  - rewrite (Hkept "email") by (simpl; auto). reflexivity.
  - apply Hdropped. simpl. intuition discriminate.
Defined.

(** The two ways the older mount can go once a token and a stored user
    are there. *)
Lemma legacy_mount_effect_cases (h : Host) (parse : string -> Exn + JsVal)
    (w : World State) (s : string) :
  token_truthy (localStorage w !! "token") = true ->
  localStorage w !! "user" = Some s ->
  s <> "" -> s <> "undefined" ->
  let w' := exec (AuthContextLegacy.mount_effect h parse) w in
  match parse s with
  | inr v =>
      if Words.stored_user_ok v
      then user (comp w') = v /\ isAuthenticated (comp w') = true
           /\ localStorage w' = localStorage w
      else user (comp w') = user (comp w)
           /\ isAuthenticated (comp w') = isAuthenticated (comp w)
           /\ localStorage w' !! "token" = None
           /\ localStorage w' !! "user" = None
  | inl _ => True
  end
  /\ sent w' = sent w.
Proof.
  intros Htok Hstored Hne Hund w'. subst w'.
  unfold AuthContextLegacy.mount_effect. run.
  assert (Hgone : forall m : gmap string string,
            delete "token" (delete "user" m) !! "token" = None
            /\ delete "token" (delete "user" m) !! "user" = None).
  { intros m. split; [apply lookup_delete_eq|].
    rewrite lookup_delete_ne by discriminate. apply lookup_delete_eq. }
  rewrite Htok, Hstored. simpl.
  assert (Hs : Str.truthy s = true) by (destruct s; [congruence|reflexivity]).
  rewrite Hs. simpl.
  destruct (String.eqb_spec s "undefined") as [->|_]; [congruence|]. simpl.
  destruct (parse s) as [e|[| |[]|x|s0|o|a|f]]; simpl;
    try (repeat split; apply Hgone);
    try (destruct (Num.truthy x); simpl; repeat split; apply Hgone);
    try (destruct (Str.truthy s0); simpl; repeat split; apply Hgone).
  destruct (truthy (Obj.get "email" o)); simpl; [|repeat split; apply Hgone].
  destruct (truthy (Obj.get "role" o)); simpl; repeat split; apply Hgone.
Qed.

(** X22. Whether a sign-in made with the older copy survives a reload
    depends on the email alone.  After a valid login with a string token,
    a provider mounted on the storage that [login] left (with a parser
    that reads the stored text back as an object with the same email and
    role) takes that object as the user and is authenticated when the user
    had a truthy email; when it had none, the
    login was accepted all the same, but the mount removes the token and
    the user from storage and is not authenticated. *)
Theorem legacy_login_then_mount (h : Host) (parse : string -> Exn + JsVal)
    (email password role : string) (w : World State) (r : Response)
    (data u o : list (string * JsVal)) (t : string) :
  server h (sent w) (login_request h email password role) = Resolved r ->
  Words.login_response_valid r = true ->
  body_json r = inr (JObj data) ->
  Obj.get "user" data = JObj u ->
  Obj.get "token" data = JStr t ->
  let w1 := exec (AuthContextLegacy.login h email password role) w in
  let written := JSON_stringify h (user (comp w1)) in
  written <> "" -> written <> "undefined" ->
  parse written = inr (JObj o) ->
  Obj.get "email" o = Obj.get "email" u ->
  Obj.get "role" o = Obj.get "role" u ->
  let reloaded := mkWorld initial (localStorage w1) (sent w1) [] [] [] in
  let w2 := exec (AuthContextLegacy.mount_effect h parse) reloaded in
  isAuthenticated (comp w1) = true
  /\ if truthy (Obj.get "email" u)
     then user (comp w2) = JObj o /\ isAuthenticated (comp w2) = true
          /\ localStorage w2 = localStorage w1
     else user (comp w2) = JNull /\ isAuthenticated (comp w2) = false
          /\ localStorage w2 !! "token" = None
          /\ localStorage w2 !! "user" = None.
Proof.
  intros Hsrv Hvalid Hbody Hu Htok w1 written Hne Hund Hparse Hemail Hrole'
         reloaded w2.
  destruct (AuthMore.login_response_valid_inv r Hvalid)
    as (Hok & data' & u' & Hbody' & Hu' & Htoken & Hrole).
  rewrite Hbody in Hbody'. injection Hbody' as <-.
  rewrite Hu in Hu'. injection Hu' as <-.
  assert (Ht : t <> "").
  { rewrite Htok in Htoken. destruct t; [discriminate|congruence]. }
  pose proof (legacy_login_run h email password role w r data u
                Hsrv Hok Hbody Hu Htoken Hrole) as Hrun.
  rewrite Htok in Hrun. simpl in Hrun.
  assert (Hw1 : w1 = snd (AuthContextLegacy.login h email password role w))
    by reflexivity.
  rewrite Hrun in Hw1. simpl in Hw1.
  assert (Hstored : localStorage reloaded !! "user" = Some written).
  { subst reloaded written. rewrite Hw1. simpl. apply lookup_insert_eq. }
  assert (Htoken' : token_truthy (localStorage reloaded !! "token") = true).
  { subst reloaded. rewrite Hw1. simpl.
    rewrite lookup_insert_ne by discriminate. rewrite lookup_insert_eq.
    apply AuthMore.token_truthy_some, Ht. }
  destruct (legacy_mount_effect_cases h parse reloaded written Htoken' Hstored Hne Hund)
    as [Hcase _].
  split; [rewrite Hw1; reflexivity|].
  fold w2 in Hcase. rewrite Hparse in Hcase.
  unfold Words.stored_user_ok in Hcase. rewrite Hemail, Hrole', Hrole in Hcase.
  rewrite andb_true_r in Hcase.
  destruct (truthy (Obj.get "email" u)); exact Hcase.
Qed.

Lemma legacy_login_then_mount_witness :
  (let h := Sample.host (Sample.answers Sample.login_rich) in
   let w := Sample.world initial (∅ : gmap string string) in
   let w1 := exec (AuthContextLegacy.login h "asha@example.org" "pw" "user") w in
   let reloaded := mkWorld initial (localStorage w1) (sent w1) [] [] [] in
   let w2 := exec (AuthContextLegacy.mount_effect h Sample.parse) reloaded in
   isAuthenticated (comp w2) = true)
  /\ (let h := Sample.host (Sample.answers Sample.login_no_email) in
      let w := Sample.world initial (∅ : gmap string string) in
      let w1 := exec (AuthContextLegacy.login h "shop@example.org" "pw" "business") w in
      let reloaded := mkWorld initial (localStorage w1) (sent w1) [] [] [] in
      let w2 := exec (AuthContextLegacy.mount_effect h Sample.parse_bare) reloaded in
      isAuthenticated (comp w1) = true
      /\ isAuthenticated (comp w2) = false
      /\ localStorage w2 !! "token" = None).
Proof.
  split.
  - intros h w w1 reloaded w2.
    assert (H1 : JSON_stringify h (user (comp w1)) <> "") by discriminate.
    assert (H2 : JSON_stringify h (user (comp w1)) <> "undefined") by discriminate.
    destruct (legacy_login_then_mount h Sample.parse "asha@example.org" "pw" "user" w
                Sample.login_rich _ Sample.rich_user (own_props Sample.kept_user)
                "tok-3" eq_refl eq_refl eq_refl eq_refl eq_refl H1 H2
                eq_refl eq_refl eq_refl) as [_ H].
    simpl in H. apply H.
  - intros h w w1 reloaded w2.
    assert (H1 : JSON_stringify h (user (comp w1)) <> "") by discriminate.
    assert (H2 : JSON_stringify h (user (comp w1)) <> "undefined") by discriminate.
    destruct (legacy_login_then_mount h Sample.parse_bare "shop@example.org" "pw"
                "business" w Sample.login_no_email _
                [("id", JStr "u9"); ("role", JStr "business")]
                [("id", JStr "u9"); ("role", JStr "business")]
                "tok-9" eq_refl eq_refl eq_refl eq_refl eq_refl H1 H2
                eq_refl eq_refl eq_refl) as [Hin H].
    simpl in H. split; [exact Hin|]. split; apply H.
Defined.

End LegacyFacts.

(* ================================================================== *)
(** * The interceptor, the constants and the businesses hook            *)
(* ================================================================== *)

Module OtherFacts.

(** X23. The request interceptor never touches storage.  With a stored
    token it sets the Authorization header to "Bearer <token>", replacing
    one that was there, creating the headers when the configuration had
    none, and leaving every other header and the rest of the
    configuration alone; without a token (none, or the empty string) it
    hands the configuration back unchanged, so that no "Bearer null" is
    ever sent. *)
Theorem attach_token_spec {S : Type} (config : Axios.Config) (w : World S) :
  let token := localStorage w !! "token" in
  exec (Axios.attach_token config) w = w
  /\ (AuthContext.token_truthy token = false ->
      completion (Axios.attach_token config) w = inr config)
  /\ (forall t, token = Some t -> t <> "" ->
      exists hs,
        completion (Axios.attach_token config) w
        = inr (Axios.mkConfig (Some hs) (Axios.config_rest config))
        /\ Obj.get "Authorization" hs = JStr ("Bearer " +:+ t)
        /\ forall k, k <> "Authorization" ->
             Obj.get k hs = Obj.get k (default [] (Axios.config_headers config))).
Proof.
  intros token. subst token. unfold Axios.attach_token. run.
  destruct (AuthContext.token_truthy (localStorage w !! "token")) eqn:Htok; simpl.
  - split; [destruct w; reflexivity|]. split; [discriminate|].
    intros t Ht Hne. rewrite Ht. eexists. split; [reflexivity|].
    split.
    + rewrite ObjFacts.get_set. reflexivity.
    + intros k Hk. rewrite ObjFacts.get_set.
      destruct (String.eqb_spec k "Authorization"); [congruence|reflexivity].
  - split; [destruct w; reflexivity|]. split; [reflexivity|].
    intros t Ht Hne. rewrite Ht in Htok.
    rewrite (AuthMore.token_truthy_some t Hne) in Htok. discriminate.
Qed.

Lemma attach_token_spec_witness :
  let w := Sample.world AuthContext.initial Sample.signed_in in
  exists hs,
    completion (Axios.attach_token Sample.plain_config) w
    = inr (Axios.mkConfig (Some hs) [("url", JStr "/queues/mine")])
    /\ Obj.get "Authorization" hs = JStr "Bearer tok-1"
    /\ Obj.get "Accept" hs = JStr "application/json".
Proof.
  intros w.
  assert (Hne : "tok-1" <> "") by discriminate.
  destruct (attach_token_spec Sample.plain_config w) as (_ & _ & H).
  destruct (H "tok-1" eq_refl Hne) as (hs & Hc & Ha & Hk).
  exists hs. split; [exact Hc|]. split; [exact Ha|].
  rewrite (Hk "Accept") by discriminate. reflexivity.
Defined.

(** ** The socket URL *)

Lemma length_append (a b : string) :
  String.length (a +:+ b) = (String.length a + String.length b)%nat.
Proof. induction a as [|c a IH]; simpl; [reflexivity|rewrite IH; reflexivity]. Qed.

Lemma not_api_when_longer (c : ascii) (u : string) :
  String.eqb (String c (u +:+ "/api")) "/api" = false.
Proof.
  destruct (String.eqb_spec (String c (u +:+ "/api")) "/api") as [Heq|]; [|reflexivity].
  apply (f_equal String.length) in Heq. simpl in Heq.
  rewrite length_append in Heq. simpl in Heq. lia.
Qed.

(** X24. The socket URL is the configured URL with one trailing "/api"
    removed: a URL of the form u/api gives u, and any other URL is left as
    it is.  In particular the socket URL computed from the API base URL
    would be the configured URL again. *)
Theorem strip_api_suffix_spec :
  (forall u, Constants.strip_api_suffix (u +:+ "/api") = u)
  /\ (forall s, (forall u, s <> u +:+ "/api") -> Constants.strip_api_suffix s = s)
  /\ (forall h, Constants.strip_api_suffix (Constants.API_BASE_URL h) = VITE_API_URL h)
  /\ (forall h u, VITE_API_URL h = u +:+ "/api" -> Constants.SOCKET_URL h = u).
Proof.
  assert (H1 : forall u, Constants.strip_api_suffix (u +:+ "/api") = u).
  { induction u as [|c u IH]; [reflexivity|].
    change (String c u +:+ "/api") with (String c (u +:+ "/api")).
    cbn [Constants.strip_api_suffix]. rewrite not_api_when_longer. rewrite IH.
    reflexivity. }
  split; [exact H1|]. split.
  - induction s as [|c s IH]; intros Hno; [reflexivity|].
    cbn [Constants.strip_api_suffix].
    destruct (String.eqb_spec (String c s) "/api") as [Heq|_].
    + exfalso. apply (Hno ""). exact Heq.
    + rewrite IH; [reflexivity|].
      intros u Hu. apply (Hno (String c u)). rewrite Hu. reflexivity.
  - split.
    + intros h. apply H1.
    + intros h u Hu. unfold Constants.SOCKET_URL. rewrite Hu. apply H1.
Qed.

Lemma strip_api_suffix_spec_witness :
  Constants.strip_api_suffix "https://skiply.test/api" = "https://skiply.test"
  /\ Constants.SOCKET_URL (Sample.host Sample.offline) = "https://api.skiply.test".
Proof.
  destruct strip_api_suffix_spec as (H1 & H2 & _).
  split.
  - apply (H1 "https://skiply.test").
  - apply H2. intros u Hu.
    pose proof (f_equal Constants.strip_api_suffix Hu) as Hu'.
    rewrite H1 in Hu'. vm_compute in Hu'. subst u. vm_compute in Hu.
    discriminate Hu.
Defined.

(** ** The businesses hook *)

(** X25. [fetchBusinesses] sends one GET to /api/businesses/all, never
    throws, and always ends with the loading flag off.  Whatever JSON the
    server answers becomes the list of businesses, an error body under an
    error status included, since the status is not looked at; when the
    request is rejected or the body is not JSON the list stays as it was
    and the error is logged. *)
Theorem fetchBusinesses_spec (h : Host) (w : World UseBusinesses.State) :
  let w' := exec (UseBusinesses.fetchBusinesses h) w in
  completion (UseBusinesses.fetchBusinesses h) w = inr tt
  /\ UseBusinesses.loading (comp w') = false
  /\ sent w' = sent w ++ [mkRequest (VITE_API_URL h +:+ "/api/businesses/all") "GET"
                            [] NoBody]
  /\ (forall r data,
        server h (sent w) (UseBusinesses.all_request h) = Resolved r ->
        body_json r = inr data ->
        UseBusinesses.businesses (comp w') = data /\ console w' = console w)
  /\ ((exists e, server h (sent w) (UseBusinesses.all_request h) = Rejected e)
      \/ (exists r e, server h (sent w) (UseBusinesses.all_request h) = Resolved r
                      /\ body_json r = inl e) ->
      UseBusinesses.businesses (comp w') = UseBusinesses.businesses (comp w)
      /\ console w' = console w ++ ["Error fetching businesses:"]).
Proof.
  intros w'. subst w'. unfold UseBusinesses.fetchBusinesses. run.
  destruct (server h (sent w) (UseBusinesses.all_request h)) as [e|r] eqn:Hsrv; simpl.
  - split; [reflexivity|]. split; [reflexivity|]. split; [reflexivity|].
    split; [intros; discriminate|]. intros _. split; reflexivity.
  - destruct (body_json r) as [e|data] eqn:Hbody; simpl.
    + split; [reflexivity|]. split; [reflexivity|]. split; [reflexivity|].
      split; [intros r' data' [= <-] Hb; rewrite Hbody in Hb; discriminate|].
      intros _. split; reflexivity.
    + split; [reflexivity|]. split; [reflexivity|]. split; [reflexivity|].
      split.
      * intros r' data' [= <-] Hb. rewrite Hbody in Hb. injection Hb as <-.
        split; reflexivity.
      * intros [[e He]|(r' & e & [= <-] & Hb)]; [discriminate|].
        rewrite Hbody in Hb. discriminate.
Qed.

Lemma fetchBusinesses_spec_witness :
  let h := Sample.host (Sample.answers Sample.businesses_down) in
  let w := Sample.world UseBusinesses.initial (∅ : gmap string string) in
  let w' := exec (UseBusinesses.fetchBusinesses h) w in
  UseBusinesses.businesses (comp w') = JObj [("message", JStr "maintenance")].
Proof.
  intros h w w'.
  destruct (fetchBusinesses_spec h w) as (_ & _ & _ & H & _).
  apply (H Sample.businesses_down _ eq_refl eq_refl).
Defined.

End OtherFacts.
